(** * MCP chatbot backend: a shallow embedding of the tool-server subsystem

    The development follows the Python sources of the backend:
    - [models/mcp.py]                  ([MCPServerConfig], [MCPToolCall]),
    - [services/mcp_config_manager.py] ([MCPConfigManager]),
    - [services/mcp_client.py]         ([MCPProtocolClient]),
    - [services/mcp_client_manager.py] ([MCPClientManager]),
    - [services/chat_service.py]       ([ChatService]).

    Python values of type [Any] (JSON payloads, tool schemas) are kept
    dynamically typed ([pyval]); exceptions are explicit ([res]); code
    that mutates [self] is a computation in a state-and-exception monad
    ([M]).  Text is modelled over 8-bit character codes, classified as
    Python classifies the ASCII range. *)

From Stdlib Require Import String Ascii List ZArith Lia Bool Permutation.
From stdpp Require Import gmap strings list pretty.
Import ListNotations.

Local Open Scope Z_scope.
Set Warnings "-register-all".
Set Warnings "-notation-overridden".
Set Warnings "-notation-incompatible-prefix".

(* ===================================================================== *)
(** * Python base layer                                                   *)
(* ===================================================================== *)

Module Py.

(** ** Characters and [str] methods *)

Definition ord (c : ascii) : nat := nat_of_ascii c.

Definition between (lo hi : nat) (c : ascii) : bool :=
  (Nat.leb lo (ord c) && Nat.leb (ord c) hi)%bool.

(** [str.isspace] on one character: TAB..CR, FS..US and SPACE. *)
Definition is_space (c : ascii) : bool := between 9 13 c || between 28 32 c.
Definition is_digit (c : ascii) : bool := between 48 57 c.
Definition is_upper (c : ascii) : bool := between 65 90 c.
Definition is_lower (c : ascii) : bool := between 97 122 c.
Definition is_alnum (c : ascii) : bool := is_digit c || is_upper c || is_lower c.
(** [\w] of the [re] module. *)
Definition is_word (c : ascii) : bool := is_alnum c || Nat.eqb (ord c) 95.

Definition lower_char (c : ascii) : ascii :=
  if is_upper c then ascii_of_nat (ord c + 32) else c.

Fixpoint lower (s : string) : string :=
  match s with
  | EmptyString => EmptyString
  | String c r => String (lower_char c) (lower r)
  end.

Fixpoint lstrip (s : string) : string :=
  match s with
  | EmptyString => EmptyString
  | String c r => if is_space c then lstrip r else s
  end.

Definition rstrip (s : string) : string := String.rev (lstrip (String.rev s)).

(** [s.strip()] *)
Definition strip (s : string) : string := rstrip (lstrip s).

Fixpoint all_chars (p : ascii -> bool) (s : string) : bool :=
  match s with
  | EmptyString => true
  | String c r => p c && all_chars p r
  end.

(** [s.isalnum()]: false on the empty string. *)
Definition isalnum (s : string) : bool :=
  match s with
  | EmptyString => false
  | _ => all_chars is_alnum s
  end.

(** [s.replace(c, '')] for a one-character [c]. *)
Fixpoint remove_char (x : ascii) (s : string) : string :=
  match s with
  | EmptyString => EmptyString
  | String c r => if Ascii.eqb c x then remove_char x r else String c (remove_char x r)
  end.

Fixpoint starts_with (p s : string) : bool :=
  match p, s with
  | EmptyString, _ => true
  | String a p', String b s' => Ascii.eqb a b && starts_with p' s'
  | String _ _, EmptyString => false
  end.

(** [needle in hay] on strings. *)
Fixpoint str_in (needle hay : string) : bool :=
  starts_with needle hay ||
  match hay with
  | EmptyString => false
  | String _ r => str_in needle r
  end.

Definition str_eqb (a b : string) : bool := bool_decide (a = b).

(** [x in [s1, ..., sn]] for a list of strings. *)
Definition str_in_list (x : string) (l : list string) : bool :=
  existsb (str_eqb x) l.

(** ** Dynamically typed values

    [PFloat] carries the [repr] of the float: the modelled code only
    inspects a float for its type and its truth value. *)
Inductive pyval : Type :=
| PNone
| PBool (b : bool)
| PInt (z : Z)
| PFloat (repr : string)
| PStr (s : string)
| PList (l : list pyval)
| PDict (d : list (string * pyval)).

(** A [dict] with [str] keys, in insertion order. *)
Definition pydict : Type := list (string * pyval).

Fixpoint dict_get {V : Type} (k : string) (d : list (string * V)) : option V :=
  match d with
  | [] => None
  | (k', v) :: r => if str_eqb k k' then Some v else dict_get k r
  end.

Definition dict_mem {V : Type} (k : string) (d : list (string * V)) : bool :=
  match dict_get k d with Some _ => true | None => false end.

(** [d[k] = v]: overwrite in place, or append a new key. *)
Fixpoint dict_set {V : Type} (k : string) (v : V) (d : list (string * V))
  : list (string * V) :=
  match d with
  | [] => [(k, v)]
  | (k', v') :: r => if str_eqb k k' then (k, v) :: r else (k', v') :: dict_set k v r
  end.

Fixpoint dict_del {V : Type} (k : string) (d : list (string * V))
  : list (string * V) :=
  match d with
  | [] => []
  | (k', v') :: r => if str_eqb k k' then r else (k', v') :: dict_del k r
  end.

(** Truth value of an object ([if x], [not x]). *)
Definition truthy (v : pyval) : bool :=
  match v with
  | PNone => false
  | PBool b => b
  | PInt z => negb (Z.eqb z 0)
  | PFloat r => negb (str_eqb r "0.0" || str_eqb r "-0.0")
  | PStr s => negb (str_eqb s "")
  | PList l => match l with [] => false | _ => true end
  | PDict d => match d with [] => false | _ => true end
  end.

Definition join (sep : string) (l : list string) : string :=
  match l with
  | [] => ""
  | x :: r => fold_left (fun acc y => acc +:+ sep +:+ y) r x
  end.

(** [repr(v)]; strings are quoted without escape processing. *)
Fixpoint py_repr (v : pyval) : string :=
  match v with
  | PNone => "None"
  | PBool true => "True"
  | PBool false => "False"
  | PInt z => pretty z
  | PFloat r => r
  | PStr s => "'" +:+ s +:+ "'"
  | PList l => "[" +:+ join ", " (map py_repr l) +:+ "]"
  | PDict d =>
      "{" +:+ join ", " (map (fun kv => "'" +:+ fst kv +:+ "': " +:+ py_repr (snd kv)) d)
          +:+ "}"
  end.

(** [str(v)], also what an f-string interpolates. *)
Definition py_str (v : pyval) : string :=
  match v with
  | PStr s => s
  | _ => py_repr v
  end.

(** ** Exceptions *)

Inductive exn_class : Type :=
| ValidationError | ValueError | TypeError | AttributeError
| JSONDecodeError | TimeoutError | ConnectionClosed | ClientError
| MCPConnectionError | MCPProtocolError | MCPTimeoutError
| MCPConfigurationError | MCPClientManagerError | OtherError.

(** An exception object; [exn_msg] is what [str(e)] returns. *)
Record exn : Type := Exn { exn_class_of : exn_class; exn_msg : string }.

Definition exn_class_eqb (a b : exn_class) : bool :=
  match a, b with
  | ValidationError, ValidationError | ValueError, ValueError
  | TypeError, TypeError | AttributeError, AttributeError
  | JSONDecodeError, JSONDecodeError | TimeoutError, TimeoutError
  | ConnectionClosed, ConnectionClosed | ClientError, ClientError
  | MCPConnectionError, MCPConnectionError | MCPProtocolError, MCPProtocolError
  | MCPTimeoutError, MCPTimeoutError | MCPConfigurationError, MCPConfigurationError
  | MCPClientManagerError, MCPClientManagerError | OtherError, OtherError => true
  | _, _ => false
  end.

(** The outcome of a call: a value, or a raised exception. *)
Inductive res (A : Type) : Type :=
| Ok (a : A)
| Raise (e : exn).
Arguments Ok {A} a.
Arguments Raise {A} e.

Definition raises {A : Type} (r : res A) : bool :=
  match r with Ok _ => false | Raise _ => true end.

Definition res_bind {A B : Type} (r : res A) (k : A -> res B) : res B :=
  match r with Ok a => k a | Raise e => Raise e end.

(** ** Operations of the object protocol on [pyval] *)

(** [v.get(k)] / [v.get(k, default)]: only a dict has [get]. *)
Definition py_get (v : pyval) (k : string) (default : pyval) : res pyval :=
  match v with
  | PDict d => Ok (match dict_get k d with Some x => x | None => default end)
  | _ => Raise (Exn AttributeError "object has no attribute 'get'")
  end.

Fixpoint chars (s : string) : list pyval :=
  match s with
  | EmptyString => []
  | String c r => PStr (String c EmptyString) :: chars r
  end.

(** [for x in v]: the items the loop visits. *)
Definition py_iter (v : pyval) : res (list pyval) :=
  match v with
  | PList l => Ok l
  | PDict d => Ok (map (fun kv => PStr (fst kv)) d)
  | PStr s => Ok (chars s)
  | _ => Raise (Exn TypeError "object is not iterable")
  end.

(** Hashability, as needed for a dict key or a membership test in a dict. *)
Definition hashable (v : pyval) : bool :=
  match v with
  | PList _ | PDict _ => false
  | _ => true
  end.

(** [v == s] for a string [s]. *)
Definition py_eq_str (v : pyval) (s : string) : bool :=
  match v with
  | PStr s' => str_eqb s' s
  | _ => false
  end.

(** [k in v] for a string [k]. *)
Definition py_contains (v : pyval) (k : string) : res bool :=
  match v with
  | PDict d => Ok (dict_mem k d)
  | PList l => Ok (existsb (fun x => py_eq_str x k) l)
  | PStr s => Ok (str_in k s)
  | _ => Raise (Exn TypeError "argument is not iterable")
  end.

(** [v[k]] for a string [k]. *)
Definition py_getitem (v : pyval) (k : string) : res pyval :=
  match v with
  | PDict d =>
      match dict_get k d with
      | Some x => Ok x
      | None => Raise (Exn OtherError k)
      end
  | _ => Raise (Exn TypeError "indices must be integers")
  end.

(** [v.copy()]: lists and dicts have it. *)
Definition py_copy (v : pyval) : res pyval :=
  match v with
  | PList l => Ok (PList l)
  | PDict d => Ok (PDict d)
  | _ => Raise (Exn AttributeError "object has no attribute 'copy'")
  end.

(** [len(v)] *)
Definition py_len (v : pyval) : res nat :=
  match v with
  | PList l => Ok (length l)
  | PDict d => Ok (length d)
  | PStr s => Ok (String.length s)
  | _ => Raise (Exn TypeError "object has no len()")
  end.

(** ** State and exceptions

    A method body is a computation over the state it mutates.  A raised
    exception keeps the mutations made before it. *)
Definition M (S A : Type) : Type := S -> res A * S.

Definition ret {S A : Type} (a : A) : M S A := fun s => (Ok a, s).

Definition bind {S A B : Type} (m : M S A) (k : A -> M S B) : M S B :=
  fun s => match m s with
           | (Ok a, s') => k a s'
           | (Raise e, s') => (Raise e, s')
           end.

Definition raise {S A : Type} (e : exn) : M S A := fun s => (Raise e, s).

Definition get {S : Type} : M S S := fun s => (Ok s, s).
Definition put {S : Type} (s : S) : M S unit := fun _ => (Ok tt, s).
Definition modify {S : Type} (f : S -> S) : M S unit := fun s => (Ok tt, f s).
Definition gets {S A : Type} (f : S -> A) : M S A := fun s => (Ok (f s), s).

(** Use the outcome of a pure fallible operation. *)
Definition lift {S A : Type} (r : res A) : M S A := fun s => (r, s).

(** [try: m  except Exception as e: h e] *)
Definition try_except {S A : Type} (m : M S A) (h : exn -> M S A) : M S A :=
  fun s => match m s with
           | (Ok a, s') => (Ok a, s')
           | (Raise e, s') => h e s'
           end.

(** [try: m  except C as e: h e], for one exception class [C]. *)
Definition try_except_class {S A : Type} (c : exn_class) (m : M S A)
    (h : exn -> M S A) : M S A :=
  try_except m (fun e => if exn_class_eqb (exn_class_of e) c then h e else raise e).

(** [for x in l: body x] *)
Fixpoint for_each {S A : Type} (l : list A) (body : A -> M S unit) : M S unit :=
  match l with
  | [] => ret tt
  | x :: r => bind (body x) (fun _ => for_each r body)
  end.

End Py.

Export Py.

Notation "'let*' x ':=' m 'in' k" := (Py.bind m (fun x => k))
  (at level 10, x name, m at level 100, k at level 200).
Notation "'do*' m 'in' k" := (Py.bind m (fun _ => k))
  (at level 10, m at level 100, k at level 200).

(* ===================================================================== *)
(** * models/mcp.py                                                       *)
(* ===================================================================== *)

Module MCPServerConfig.

(** The fields of the pydantic model.  [available_tools] is declared
    [List[str]] but is also assigned unvalidated values by the protocol
    client, hence [list pyval]. *)
Record t : Type := mk {
  name : string;
  endpoint : string;
  authentication : pydict;
  available_tools : list pyval;
  enabled : bool;
  timeout : Z;
  max_retries : Z
}.

Definition validate_name (v : string) : res string :=
  if str_eqb (strip v) "" then Raise (Exn ValueError "name cannot be empty")
  else if negb (isalnum (remove_char "_" (remove_char "-" v))) then
    Raise (Exn ValueError
      "name must contain only alphanumeric characters, hyphens, and underscores")
  else Ok (strip v).

Definition validate_endpoint (v : string) : res string :=
  if str_eqb (strip v) "" then Raise (Exn ValueError "endpoint cannot be empty")
  else Ok (strip v).

Definition validate_timeout (v : Z) : res Z :=
  if v <=? 0 then Raise (Exn ValueError "timeout must be positive") else Ok v.

Definition validate_max_retries (v : Z) : res Z :=
  if v <? 0 then Raise (Exn ValueError "max_retries cannot be negative") else Ok v.

(** pydantic reports a validator's [ValueError] as a [ValidationError]. *)
Definition as_validation_error {A : Type} (r : res A) : res A :=
  match r with
  | Ok a => Ok a
  | Raise e => Raise (Exn ValidationError (exn_msg e))
  end.

Definition field_missing {A : Type} (f : string) : res A :=
  Raise (Exn ValidationError (f +:+ ": Field required")).
Definition field_type {A : Type} (f expected : string) : res A :=
  Raise (Exn ValidationError (f +:+ ": Input should be a valid " +:+ expected)).

Definition str_field (f : string) (d : pydict) : res string :=
  match dict_get f d with
  | None => field_missing f
  | Some (PStr s) => Ok s
  | Some _ => field_type f "string"
  end.

Definition int_field (f : string) (default : Z) (validate : Z -> res Z)
    (d : pydict) : res Z :=
  match dict_get f d with
  | None => Ok default
  | Some (PInt z) => as_validation_error (validate z)
  | Some _ => field_type f "integer"
  end.

Definition bool_field (f : string) (default : bool) (d : pydict) : res bool :=
  match dict_get f d with
  | None => Ok default
  | Some (PBool b) => Ok b
  | Some _ => field_type f "boolean"
  end.

Definition dict_field (f : string) (d : pydict) : res pydict :=
  match dict_get f d with
  | None => Ok []
  | Some (PDict x) => Ok x
  | Some _ => field_type f "dictionary"
  end.

Definition is_str (v : pyval) : bool :=
  match v with PStr _ => true | _ => false end.

Definition str_list_field (f : string) (d : pydict) : res (list pyval) :=
  match dict_get f d with
  | None => Ok []
  | Some (PList l) => if forallb is_str l then Ok l else field_type f "string"
  | Some _ => field_type f "list"
  end.

(** the constructor call on the unpacked [server_data] for a dict [server_data]: fields are
    checked against their declared types (a value of another JSON type
    is rejected), then the field validators run; unknown keys are
    ignored and defaults are not validated. *)
Definition from_dict (d : pydict) : res t :=
  res_bind (res_bind (str_field "name" d) (fun v => as_validation_error (validate_name v)))
    (fun name_ =>
  res_bind (res_bind (str_field "endpoint" d)
              (fun v => as_validation_error (validate_endpoint v)))
    (fun endpoint_ =>
  res_bind (dict_field "authentication" d) (fun auth_ =>
  res_bind (str_list_field "available_tools" d) (fun tools_ =>
  res_bind (bool_field "enabled" true d) (fun enabled_ =>
  res_bind (int_field "timeout" 30 validate_timeout d) (fun timeout_ =>
  res_bind (int_field "max_retries" 3 validate_max_retries d) (fun retries_ =>
  Ok (mk name_ endpoint_ auth_ tools_ enabled_ timeout_ retries_)))))))).

(** the constructor call on the unpacked [server_data] for an arbitrary object. *)
Definition new (server_data : pyval) : res t :=
  match server_data with
  | PDict d => from_dict d
  | _ => Raise (Exn TypeError "argument after ** must be a mapping")
  end.

Definition set_enabled (b : bool) (c : t) : t :=
  mk (name c) (endpoint c) (authentication c) (available_tools c) b
     (timeout c) (max_retries c).

Definition set_available_tools (l : list pyval) (c : t) : t :=
  mk (name c) (endpoint c) (authentication c) l (enabled c)
     (timeout c) (max_retries c).

(** [model_dump()] *)
Definition model_dump (c : t) : pyval :=
  PDict [("name", PStr (name c)); ("endpoint", PStr (endpoint c));
         ("authentication", PDict (authentication c));
         ("available_tools", PList (available_tools c));
         ("enabled", PBool (enabled c)); ("timeout", PInt (timeout c));
         ("max_retries", PInt (max_retries c))].

End MCPServerConfig.

Module MCPToolCall.

(** The fields of the pydantic model, without [id] and [timestamp]: both
    are filled by default factories (a fresh UUID, the clock) and are
    never read by the services.  [execution_time] is in clock ticks.
    [result = PNone] is Python's [None]. *)
Record t : Type := mk {
  server_name : string;
  tool_name : string;
  parameters : pydict;
  result : pyval;
  error : option string;
  execution_time : Z;
  status : string
}.

Definition validate_names (v : string) : res string :=
  if str_eqb (strip v) "" then
    Raise (Exn ValueError "server_name and tool_name cannot be empty")
  else Ok (strip v).

Definition valid_statuses : list string := ["pending"; "success"; "error"; "timeout"].

Definition validate_status (v : string) : res string :=
  if negb (str_in_list v valid_statuses) then
    Raise (Exn ValueError "status must be one of: ['pending', 'success', 'error', 'timeout']")
  else Ok v.

Definition validate_execution_time (v : Z) : res Z :=
  if v <? 0 then Raise (Exn ValueError "execution_time cannot be negative") else Ok v.

(** [MCPToolCall(server_name=..., tool_name=..., parameters=...)], the
    only way the services construct a tool call: every other field takes
    its default. *)
Definition new (server_name_ tool_name_ : string) (parameters_ : pydict) : res t :=
  res_bind (MCPServerConfig.as_validation_error (validate_names server_name_)) (fun sn =>
  res_bind (MCPServerConfig.as_validation_error (validate_names tool_name_)) (fun tn =>
  Ok (mk sn tn parameters_ PNone None 0 "pending"))).

Definition mark_success (result_ : pyval) (execution_time_ : Z) (c : t) : t :=
  mk (server_name c) (tool_name c) (parameters c) result_ None execution_time_ "success".

Definition mark_error (error_message : string) (execution_time_ : Z) (c : t) : t :=
  mk (server_name c) (tool_name c) (parameters c) PNone (Some error_message)
     execution_time_ "error".

Definition mark_timeout (execution_time_ : Z) (c : t) : t :=
  mk (server_name c) (tool_name c) (parameters c) PNone (Some "Tool call timed out")
     execution_time_ "timeout".

(** One call of a [mark_*] method. *)
Inductive transition : Type :=
| MarkSuccess (result_ : pyval) (execution_time_ : Z)
| MarkError (error_message : string) (execution_time_ : Z)
| MarkTimeout (execution_time_ : Z).

Definition step (c : t) (tr : transition) : t :=
  match tr with
  | MarkSuccess r e => mark_success r e c
  | MarkError m e => mark_error m e c
  | MarkTimeout e => mark_timeout e c
  end.

(** A call path: the transitions applied to one object, in order. *)
Definition run (c : t) (path : list transition) : t := fold_left step path c.

Definition is_terminal (c : t) : bool :=
  str_in_list (status c) ["success"; "error"; "timeout"].

(** [result is not None], [error is not None]. *)
Definition has_result (c : t) : bool :=
  match result c with PNone => false | _ => true end.
Definition has_error (c : t) : bool :=
  match error c with None => false | Some _ => true end.

(** A result that is set and not an empty container or string, resp. an
    error message that is set and not empty. *)
Definition result_nonempty (c : t) : bool :=
  match result c with
  | PNone | PStr "" | PList [] | PDict [] => false
  | _ => true
  end.
Definition error_nonempty (c : t) : bool :=
  match error c with None | Some "" => false | Some _ => true end.

End MCPToolCall.

(* ===================================================================== *)
(** * services/mcp_config_manager.py                                      *)
(* ===================================================================== *)

Module MCPConfigManager.

(** The store hands out references to its objects, so objects live in a
    heap: [self.servers] is a reference to a dict object whose values
    are references to [MCPServerConfig] objects. *)
Abbreviation ref := nat (only parsing).

Inductive obj : Type :=
| ODict (entries : list (string * ref))
| OConfig (c : MCPServerConfig.t).

Record state : Type := mk {
  heap : list obj;
  config_file_path : string;
  servers : ref;
  _config_data : pyval
}.

Definition set_heap (h : list obj) (s : state) : state :=
  mk h (config_file_path s) (servers s) (_config_data s).
Definition set_servers (r : ref) (s : state) : state :=
  mk (heap s) (config_file_path s) r (_config_data s).
Definition set_config_data (d : pyval) (s : state) : state :=
  mk (heap s) (config_file_path s) (servers s) d.

(** [MCPConfigManager(config_file_path)] *)
Definition init (path : option string) : state :=
  mk [ODict []]
     (match path with Some p => if str_eqb p "" then "mcp_config.json" else p
                 | None => "mcp_config.json" end)
     0%nat (PDict []).

(** *** Heap access *)

Definition alloc (o : obj) : M state ref :=
  fun s => (Ok (length (heap s)), set_heap (heap s ++ [o]) s).

Definition deref (r : ref) : M state obj :=
  fun s => match heap s !! r with
           | Some o => (Ok o, s)
           | None => (Raise (Exn OtherError "dangling reference"), s)
           end.

Definition assign (r : ref) (o : obj) : M state unit :=
  modify (fun s => set_heap (<[r := o]> (heap s)) s).

Definition deref_dict (r : ref) : M state (list (string * ref)) :=
  let* o := deref r in
  match o with
  | ODict e => ret e
  | OConfig _ => raise (Exn TypeError "not a dict")
  end.

Definition deref_config (r : ref) : M state MCPServerConfig.t :=
  let* o := deref r in
  match o with
  | OConfig c => ret c
  | ODict _ => raise (Exn AttributeError "not a server configuration")
  end.

(** *** Loading *)

(** The file named by the path, as [json.load] sees it. *)
Inductive file : Type :=
| Missing
| Malformed (msg : string)
| Parsed (doc : pyval).

(** The body of the loop of [_validate_and_load_servers], for the entry
    at index [i]. *)
Definition load_entry (i : nat) (server_data : pyval) : M state unit :=
  try_except
    (let* server_config := lift (MCPServerConfig.new server_data) in
     let* cfg := alloc (OConfig server_config) in
     let* sv := gets servers in
     let* entries := deref_dict sv in
     if dict_mem (MCPServerConfig.name server_config) entries then
       raise (Exn MCPConfigurationError
                ("Duplicate server name: " +:+ MCPServerConfig.name server_config))
     else
       assign sv (ODict (dict_set (MCPServerConfig.name server_config) cfg entries)))
    (fun e =>
       if exn_class_eqb (exn_class_of e) ValidationError then
         raise (Exn MCPConfigurationError
                  ("Invalid server configuration at index " +:+ pretty i +:+ ": "
                     +:+ exn_msg e))
       else
         raise (Exn MCPConfigurationError
                  ("Error processing server configuration at index " +:+ pretty i
                     +:+ ": " +:+ exn_msg e))).

Fixpoint load_entries (i : nat) (l : list pyval) : M state unit :=
  match l with
  | [] => ret tt
  | server_data :: rest => do* load_entry i server_data in load_entries (S i) rest
  end.

Definition _validate_and_load_servers : M state unit :=
  let* cd := gets _config_data in
  let* servers_data := lift (py_get cd "servers" (PList [])) in
  match servers_data with
  | PList l =>
      let* fresh := alloc (ODict []) in
      do* modify (set_servers fresh) in
      load_entries 0 l
  | _ => raise (Exn MCPConfigurationError
                  "'servers' must be a list in configuration file")
  end.

(** [load_configuration(config_file_path)]; [fs] is the file system. *)
Definition load_configuration (fs : string -> file) (path : option string)
  : M state unit :=
  let* own_path := gets config_file_path in
  let file_path := match path with
                   | Some p => if str_eqb p "" then own_path else p
                   | None => own_path
                   end in
  try_except
    (match fs file_path with
     | Missing =>
         do* modify (set_config_data (PDict [("servers", PList [])])) in
         let* fresh := alloc (ODict []) in
         modify (set_servers fresh)
     | Malformed msg => raise (Exn JSONDecodeError msg)
     | Parsed doc =>
         do* modify (set_config_data doc) in
         _validate_and_load_servers
     end)
    (fun e =>
       if exn_class_eqb (exn_class_of e) JSONDecodeError then
         raise (Exn MCPConfigurationError
                  ("Invalid JSON in config file " +:+ file_path +:+ ": " +:+ exn_msg e))
       else
         raise (Exn MCPConfigurationError
                  ("Failed to load config file " +:+ file_path +:+ ": " +:+ exn_msg e))).

(** [import_configuration(config_data)] *)
Definition import_configuration (config_data : pyval) : M state unit :=
  match config_data with
  | PDict _ =>
      do* modify (set_config_data config_data) in
      _validate_and_load_servers
  | _ => raise (Exn MCPConfigurationError "Configuration data must be a dictionary")
  end.

(** *** CRUD *)

(** [add_server(server_config)], for a configuration object [cfg]. *)
Definition add_server (cfg : ref) : M state unit :=
  let* c := deref_config cfg in
  let* sv := gets servers in
  let* entries := deref_dict sv in
  if dict_mem (MCPServerConfig.name c) entries then
    raise (Exn MCPConfigurationError
             ("Server with name '" +:+ MCPServerConfig.name c +:+ "' already exists"))
  else assign sv (ODict (dict_set (MCPServerConfig.name c) cfg entries)).

Definition remove_server (server_name : string) : M state unit :=
  let* sv := gets servers in
  let* entries := deref_dict sv in
  if negb (dict_mem server_name entries) then
    raise (Exn MCPConfigurationError ("Server '" +:+ server_name +:+ "' not found"))
  else assign sv (ODict (dict_del server_name entries)).

(** [get_server(server_name)]: the object, or [None]. *)
Definition get_server (server_name : string) : M state (option ref) :=
  let* sv := gets servers in
  let* entries := deref_dict sv in
  ret (dict_get server_name entries).

(** [get_all_servers()]: [self.servers.copy()], a new dict object over
    the same configuration objects. *)
Definition get_all_servers : M state ref :=
  let* sv := gets servers in
  let* entries := deref_dict sv in
  alloc (ODict entries).

(** The dict comprehension of [get_enabled_servers]. *)
Fixpoint enabled_entries (l : list (string * ref)) : M state (list (string * ref)) :=
  match l with
  | [] => ret []
  | (name, cfg) :: rest =>
      let* c := deref_config cfg in
      let* more := enabled_entries rest in
      ret (if MCPServerConfig.enabled c then (name, cfg) :: more else more)
  end.

Definition get_enabled_servers : M state ref :=
  let* sv := gets servers in
  let* entries := deref_dict sv in
  let* chosen := enabled_entries entries in
  alloc (ODict chosen).

(** [self.servers[server_name].enabled = b], after the existence check. *)
Definition set_server_enabled (b : bool) (server_name : string) : M state unit :=
  let* sv := gets servers in
  let* entries := deref_dict sv in
  match dict_get server_name entries with
  | None => raise (Exn MCPConfigurationError ("Server '" +:+ server_name +:+ "' not found"))
  | Some cfg =>
      let* c := deref_config cfg in
      assign cfg (OConfig (MCPServerConfig.set_enabled b c))
  end.

Definition enable_server : string -> M state unit := set_server_enabled true.
Definition disable_server : string -> M state unit := set_server_enabled false.

(** [update_server(server_name, server_config)], for a configuration
    object [cfg]. *)
Definition update_server (server_name : string) (cfg : ref) : M state unit :=
  let* c := deref_config cfg in
  let* sv := gets servers in
  let* entries := deref_dict sv in
  if negb (dict_mem server_name entries) then
    raise (Exn MCPConfigurationError ("Server '" +:+ server_name +:+ "' not found"))
  else if negb (str_eqb (MCPServerConfig.name c) server_name) then
    raise (Exn MCPConfigurationError "Server name cannot be changed during update")
  else assign sv (ODict (dict_set server_name cfg entries)).

(** [has_server(server_name)] *)
Definition has_server (server_name : string) : M state bool :=
  let* sv := gets servers in
  let* entries := deref_dict sv in
  ret (dict_mem server_name entries).

(** The loop [for server in self.servers.values(): server.model_dump()]. *)
Fixpoint dump_entries (l : list (string * ref)) : M state (list pyval) :=
  match l with
  | [] => ret []
  | (_, cfg) :: rest =>
      let* c := deref_config cfg in
      let* more := dump_entries rest in
      ret (MCPServerConfig.model_dump c :: more)
  end.

(** The loop that copies every top-level key but [servers]. *)
Fixpoint preserve_keys (items : pydict) (config_data : pydict) : pydict :=
  match items with
  | [] => config_data
  | (key, value) :: rest =>
      preserve_keys rest
        (if negb (str_eqb key "servers") then dict_set key value config_data
         else config_data)
  end.

(** [export_configuration()]; [save_configuration] writes the same
    document to the file. *)
Definition export_configuration : M state pyval :=
  let* sv := gets servers in
  let* entries := deref_dict sv in
  let* servers_data := dump_entries entries in
  let config_data := [("servers", PList servers_data)] in
  let* cd := gets _config_data in
  if truthy cd then
    match cd with
    | PDict items => ret (PDict (preserve_keys items config_data))
    | _ => raise (Exn AttributeError "object has no attribute 'items'")
    end
  else ret (PDict config_data).

(** *** What a caller can do with a returned dict [view] *)

Inductive view_mutation : Type :=
| SetItem (key : string) (value : ref)      (* view[key] = value *)
| DelItem (key : string)                    (* del view[key] *)
| Clear                                     (* view.clear() *)
| SetEntryEnabled (key : string) (b : bool) (* view[key].enabled = b *).

Definition mutate_view (view : ref) (mu : view_mutation) : M state unit :=
  let* entries := deref_dict view in
  match mu with
  | SetItem k v => assign view (ODict (dict_set k v entries))
  | DelItem k =>
      if dict_mem k entries then assign view (ODict (dict_del k entries))
      else raise (Exn OtherError k)
  | Clear => assign view (ODict [])
  | SetEntryEnabled k b =>
      match dict_get k entries with
      | None => raise (Exn OtherError k)
      | Some cfg =>
          let* c := deref_config cfg in
          assign cfg (OConfig (MCPServerConfig.set_enabled b c))
      end
  end.

(** A mutation of the returned dict itself, as opposed to one of the
    objects it refers to. *)
Definition on_dict_only (mu : view_mutation) : bool :=
  match mu with
  | SetEntryEnabled _ _ => false
  | _ => true
  end.

(** *** The store's content, as its own methods observe it *)

Definition lookup_config (h : list obj) (r : ref) : option MCPServerConfig.t :=
  match h !! r with
  | Some (OConfig c) => Some c
  | _ => None
  end.

Definition contents (s : state) : option (list (string * option MCPServerConfig.t)) :=
  match heap s !! servers s with
  | Some (ODict entries) =>
      Some (map (fun kv => (fst kv, lookup_config (heap s) (snd kv))) entries)
  | _ => None
  end.

Definition server_count (s : state) : option nat :=
  match contents s with
  | Some l => Some (length l)
  | None => None
  end.

(** Every reference held in the heap, and [self.servers], is allocated. *)
Definition obj_closed (n : nat) (o : obj) : bool :=
  match o with
  | ODict entries => forallb (fun kv => Nat.ltb (snd kv) n) entries
  | OConfig _ => true
  end.

Definition closed (s : state) : bool :=
  Nat.ltb (servers s) (length (heap s))
  && forallb (obj_closed (length (heap s))) (heap s).

End MCPConfigManager.

(* ===================================================================== *)
(** * services/mcp_client.py                                              *)
(* ===================================================================== *)

Module MCPProtocolClient.

(** ** The remote end

    Every [await] on the transport (opening it, sending, receiving,
    closing) consumes the next outcome of a script fixed by the
    environment; [sent] records the JSON-RPC messages handed to the
    transport, [clock] is [time.time()] at each point of the script. *)
Inductive io_outcome : Type :=
| IoOk (payload : pyval)     (* completed; a received body parses to [payload] *)
| IoTimeout                  (* asyncio.TimeoutError *)
| IoClosed (msg : string)    (* ConnectionClosed, WebSocketException, aiohttp.ClientError *)
| IoBadJson (msg : string)   (* json.JSONDecodeError *)
| IoError (msg : string).    (* any other exception *)

Record io : Type := mk_io {
  script : nat -> io_outcome;
  clock : nat -> Z;
  cursor : nat;
  sent : list pyval
}.

(** An open [aiohttp.ClientSession] or websocket connection. *)
Inductive handle : Type := Handle (endpoint : string).

Record t : Type := mk {
  config : MCPServerConfig.t;
  session : option handle;
  websocket : option handle;
  connection_type : option string;
  is_connected : bool;
  available_tools : pyval;
  server_info : pyval;
  _request_id_counter : nat
}.

(** A client together with the server it talks to. *)
Definition world : Type := (t * io)%type.

Definition set_config (x : MCPServerConfig.t) (c : t) : t :=
  mk x (session c) (websocket c) (connection_type c) (is_connected c)
     (available_tools c) (server_info c) (_request_id_counter c).
Definition set_session (x : option handle) (c : t) : t :=
  mk (config c) x (websocket c) (connection_type c) (is_connected c)
     (available_tools c) (server_info c) (_request_id_counter c).
Definition set_websocket (x : option handle) (c : t) : t :=
  mk (config c) (session c) x (connection_type c) (is_connected c)
     (available_tools c) (server_info c) (_request_id_counter c).
Definition set_connection_type (x : option string) (c : t) : t :=
  mk (config c) (session c) (websocket c) x (is_connected c)
     (available_tools c) (server_info c) (_request_id_counter c).
Definition set_is_connected (x : bool) (c : t) : t :=
  mk (config c) (session c) (websocket c) (connection_type c) x
     (available_tools c) (server_info c) (_request_id_counter c).
Definition set_available_tools (x : pyval) (c : t) : t :=
  mk (config c) (session c) (websocket c) (connection_type c) (is_connected c)
     x (server_info c) (_request_id_counter c).
Definition set_server_info (x : pyval) (c : t) : t :=
  mk (config c) (session c) (websocket c) (connection_type c) (is_connected c)
     (available_tools c) x (_request_id_counter c).
Definition set_request_id_counter (x : nat) (c : t) : t :=
  mk (config c) (session c) (websocket c) (connection_type c) (is_connected c)
     (available_tools c) (server_info c) x.

(** [MCPProtocolClient(config)] *)
Definition new (cfg : MCPServerConfig.t) : t :=
  mk cfg None None None false (PList []) (PDict []) 0.

Definition self {A : Type} (f : t -> A) : M world A := gets (fun w => f (fst w)).
Definition update (f : t -> t) : M world unit := modify (fun w => (f (fst w), snd w)).

(** One [await] on the transport. *)
Definition await : M world io_outcome :=
  fun w =>
    let e := snd w in
    (Ok (script e (cursor e)),
     (fst w, mk_io (script e) (clock e) (S (cursor e)) (sent e))).

(** One [await] that hands [msg] to the transport. *)
Definition await_send (msg : pyval) : M world io_outcome :=
  fun w =>
    let e := snd w in
    (Ok (script e (cursor e)),
     (fst w, mk_io (script e) (clock e) (S (cursor e)) (sent e ++ [msg]))).

(** [time.time()] *)
Definition now : M world Z := gets (fun w => clock (snd w) (cursor (snd w))).

(** The value or exception an outcome stands for; [lost] is the class
    the transport library uses for a broken connection. *)
Definition outcome (lost : exn_class) (o : io_outcome) : res pyval :=
  match o with
  | IoOk p => Ok p
  | IoTimeout => Raise (Exn TimeoutError "")
  | IoClosed m => Raise (Exn lost m)
  | IoBadJson m => Raise (Exn JSONDecodeError m)
  | IoError m => Raise (Exn OtherError m)
  end.

(** ** [urlparse(endpoint).scheme] *)

Definition is_scheme_char (c : ascii) : bool :=
  is_alnum c || str_in (String c EmptyString) "+-.".

Fixpoint before_colon (s : string) : option string :=
  match s with
  | EmptyString => None
  | String c r =>
      if Ascii.eqb c ":" then Some EmptyString
      else match before_colon r with
           | Some p => Some (String c p)
           | None => None
           end
  end.

Definition url_scheme (url : string) : string :=
  match before_colon url with
  | Some (String c r) =>
      if (is_upper c || is_lower c) && all_chars is_scheme_char r
      then lower (String c r) else ""
  | _ => ""
  end.

Definition is_type (ct : option string) (x : string) : bool :=
  match ct with
  | Some y => str_eqb y x
  | None => false
  end.

Definition is_some {A : Type} (o : option A) : bool :=
  match o with Some _ => true | None => false end.

(** ** Requests *)

Definition _get_next_request_id : M world string :=
  do* update (fun c => set_request_id_counter (S (_request_id_counter c)) c) in
  let* c := self id in
  ret (MCPServerConfig.name (config c) +:+ "-" +:+ pretty (_request_id_counter c)).

Definition _send_websocket_request (request : pyval) : M world pyval :=
  let* ws := self websocket in
  if negb (is_some ws) then raise (Exn MCPConnectionError "WebSocket not connected")
  else
    try_except
      (let* o := await_send request in
       let* _ := lift (outcome ConnectionClosed o) in
       let* o' := await in
       lift (outcome ConnectionClosed o'))
      (fun e =>
         if exn_class_eqb (exn_class_of e) ConnectionClosed then
           do* update (set_is_connected false) in
           raise (Exn MCPConnectionError ("WebSocket connection lost: " +:+ exn_msg e))
         else if exn_class_eqb (exn_class_of e) JSONDecodeError then
           raise (Exn MCPProtocolError ("Invalid JSON response: " +:+ exn_msg e))
         else raise e).

Definition _send_http_request (request : pyval) : M world pyval :=
  let* ss := self session in
  if negb (is_some ss) then raise (Exn MCPConnectionError "HTTP session not available")
  else
    try_except
      (let* o := await_send request in
       lift (outcome ClientError o))
      (fun e =>
         if exn_class_eqb (exn_class_of e) ClientError then
           raise (Exn MCPConnectionError ("HTTP request failed: " +:+ exn_msg e))
         else if exn_class_eqb (exn_class_of e) JSONDecodeError then
           raise (Exn MCPProtocolError ("Invalid JSON response: " +:+ exn_msg e))
         else raise e).

(** [_send_request(method, params, timeout)]; [timeout = None] stands for
    the default argument. *)
Definition _send_request (method : string) (params : pyval) (timeout : option Z)
  : M world pyval :=
  let* request_id := _get_next_request_id in
  let request := PDict [("jsonrpc", PStr "2.0"); ("id", PStr request_id);
                        ("method", PStr method); ("params", params)] in
  let* own := self (fun c => MCPServerConfig.timeout (config c)) in
  let timeout_ := match timeout with
                  | Some z => if z =? 0 then own else z
                  | None => own
                  end in
  try_except_class TimeoutError
    (let* ct := self connection_type in
     if is_type ct "websocket" then _send_websocket_request request
     else if is_type ct "http" then _send_http_request request
     else raise (Exn MCPProtocolError "No active connection"))
    (fun _ => raise (Exn MCPTimeoutError
                       ("Request timed out after " +:+ pretty timeout_ +:+ " seconds"))).

(** [_send_notification(method)]; the modelled callers pass no params. *)
Definition _send_notification (method : string) : M world unit :=
  let notification := PDict [("jsonrpc", PStr "2.0"); ("method", PStr method)] in
  try_except
    (let* ct := self connection_type in
     let* ws := self websocket in
     let* ss := self session in
     if is_type ct "websocket" && is_some ws then
       let* o := await_send notification in
       let* _ := lift (outcome ConnectionClosed o) in ret tt
     else if is_type ct "http" && is_some ss then
       let* o := await_send notification in
       let* _ := lift (outcome ClientError o) in ret tt
     else ret tt)
    (fun _ => ret tt).

(** ** Connecting *)

Definition _connect_websocket : M world unit :=
  try_except
    (let* o := await in
     let* _ := lift (outcome ConnectionClosed o) in
     let* ep := self (fun c => MCPServerConfig.endpoint (config c)) in
     do* update (set_websocket (Some (Handle ep))) in
     update (set_connection_type (Some "websocket")))
    (fun e => raise (Exn MCPConnectionError
                       ("WebSocket connection failed: " +:+ exn_msg e))).

Definition _connect_http : M world unit :=
  try_except
    (let* o := await in
     let* _ := lift (outcome ClientError o) in
     let* ep := self (fun c => MCPServerConfig.endpoint (config c)) in
     do* update (set_session (Some (Handle ep))) in
     update (set_connection_type (Some "http")))
    (fun e => raise (Exn MCPConnectionError
                       ("HTTP session creation failed: " +:+ exn_msg e))).

(** The list comprehension of [_discover_tools]:
    [[tool.get("name") for tool in tools if tool.get("name")]]. *)
Fixpoint tool_names (tools : list pyval) : res (list pyval) :=
  match tools with
  | [] => Ok []
  | tool :: rest =>
      res_bind (py_get tool "name" PNone) (fun n =>
      res_bind (tool_names rest) (fun more =>
      Ok (if truthy n then n :: more else more)))
  end.

Definition _discover_tools : M world unit :=
  try_except
    (let* tools_response := _send_request "tools/list" (PDict []) None in
     let* err := lift (py_get tools_response "error" PNone) in
     if truthy err then ret tt
     else
       let* tools_result := lift (py_get tools_response "result" (PDict [])) in
       let* tools := lift (py_get tools_result "tools" (PList [])) in
       do* update (set_available_tools tools) in
       let* items := lift (py_iter tools) in
       let* names := lift (tool_names items) in
       update (fun c => set_config (MCPServerConfig.set_available_tools names (config c)) c))
    (fun _ => ret tt).

Definition initialize_params : pyval :=
  PDict [("protocolVersion", PStr "2024-11-05");
         ("capabilities", PDict [("tools", PDict [])]);
         ("clientInfo", PDict [("name", PStr "mcp-chatbot-client");
                               ("version", PStr "1.0.0")])].

Definition _initialize_connection : M world unit :=
  try_except
    (let* init_response := _send_request "initialize" initialize_params None in
     let* err := lift (py_get init_response "error" PNone) in
     if truthy err then
       raise (Exn MCPProtocolError ("Initialize failed: " +:+ py_str err))
     else
       let* info := lift (py_get init_response "result" (PDict [])) in
       do* update (set_server_info info) in
       do* _send_notification "notifications/initialized" in
       _discover_tools)
    (fun e => raise (Exn MCPProtocolError
                       ("Connection initialization failed: " +:+ exn_msg e))).

Definition connect : M world bool :=
  try_except
    (let* ep := self (fun c => MCPServerConfig.endpoint (config c)) in
     let scheme := url_scheme ep in
     do* (if str_in_list scheme ["ws"; "wss"] then _connect_websocket
          else if str_in_list scheme ["http"; "https"] then _connect_http
          else raise (Exn MCPConnectionError ("Unsupported protocol: " +:+ scheme))) in
     do* _initialize_connection in
     do* update (set_is_connected true) in
     ret true)
    (fun _ =>
       do* update (set_is_connected false) in
       ret false).

(** ** Disconnecting *)

Definition disconnect : M world unit :=
  try_except
    (let* ws := self websocket in
     do* (if is_some ws then
            let* o := await in
            let* _ := lift (outcome ConnectionClosed o) in
            update (set_websocket None)
          else ret tt) in
     let* ss := self session in
     do* (if is_some ss then
            let* o := await in
            let* _ := lift (outcome ClientError o) in
            update (set_session None)
          else ret tt) in
     do* update (set_is_connected false) in
     update (set_connection_type None))
    (fun _ => ret tt).

(** ** Health, catalogue, tool calls *)

Definition health_check : M world bool :=
  let* up := self is_connected in
  if negb up then ret false
  else
    try_except
      (let* response := _send_request "ping" (PDict []) (Some 5) in
       let* err := lift (py_get response "error" PNone) in
       ret (negb (truthy err)))
      (fun _ => ret false).

Definition list_tools : M world pyval :=
  let* up := self is_connected in
  if negb up then
    let* n := self (fun c => MCPServerConfig.name (config c)) in
    raise (Exn MCPConnectionError ("Not connected to server: " +:+ n))
  else
    try_except
      (let* response := _send_request "tools/list" (PDict []) None in
       let* err := lift (py_get response "error" PNone) in
       if truthy err then
         raise (Exn MCPProtocolError ("Failed to list tools: " +:+ py_str err))
       else
         let* result := lift (py_get response "result" (PDict [])) in
         lift (py_get result "tools" (PList [])))
      (fun e => raise e).

Definition call_tool (tool_name : string) (parameters : pydict)
  : M world MCPToolCall.t :=
  let* n := self (fun c => MCPServerConfig.name (config c)) in
  let* tool_call := lift (MCPToolCall.new n tool_name parameters) in
  let* up := self is_connected in
  if negb up then ret (MCPToolCall.mark_error "Not connected to MCP server" 0 tool_call)
  else
    let* start_time := now in
    try_except
      (let* response :=
         _send_request "tools/call"
           (PDict [("name", PStr tool_name); ("arguments", PDict parameters)]) None in
       let* stop := now in
       let execution_time := stop - start_time in
       let* err := lift (py_get response "error" PNone) in
       if truthy err then
         ret (MCPToolCall.mark_error (py_str err) execution_time tool_call)
       else
         let* result := lift (py_get response "result" (PDict [])) in
         ret (MCPToolCall.mark_success result execution_time tool_call))
      (fun e =>
         let* stop := now in
         let execution_time := stop - start_time in
         if exn_class_eqb (exn_class_of e) MCPTimeoutError
            || exn_class_eqb (exn_class_of e) TimeoutError then
           ret (MCPToolCall.mark_timeout execution_time tool_call)
         else
           ret (MCPToolCall.mark_error (exn_msg e) execution_time tool_call)).

Definition get_server_info : M world pyval :=
  let* info := self server_info in lift (py_copy info).

Definition get_available_tools : M world pyval :=
  let* tools := self available_tools in lift (py_copy tools).

(** The state [disconnect] is meant to leave behind. *)
Definition is_reset (c : t) : bool :=
  negb (is_connected c) && negb (is_some (connection_type c))
  && negb (is_some (session c)) && negb (is_some (websocket c)).

End MCPProtocolClient.

(* ===================================================================== *)
(** * services/mcp_client_manager.py                                      *)
(* ===================================================================== *)

Module MCPClientManager.

(** What the manager uses of a protocol client.  [C] is a client together
    with whatever it talks to, so a method is a computation on [C]. *)
Class ProtocolClient (C : Type) : Type := {
  client_new : MCPServerConfig.t -> C;
  client_connect : M C bool;
  client_disconnect : M C unit;
  client_health_check : M C bool;
  client_list_tools : M C pyval;
  client_call_tool : string -> pydict -> M C MCPToolCall.t;
  client_get_available_tools : M C pyval
}.

(** [MCPProtocolClient]; [net] gives the remote end met by the client
    created for a configuration. *)
Definition protocol_client (net : MCPServerConfig.t -> MCPProtocolClient.io)
  : ProtocolClient MCPProtocolClient.world := {|
  client_new := fun cfg => (MCPProtocolClient.new cfg, net cfg);
  client_connect := MCPProtocolClient.connect;
  client_disconnect := MCPProtocolClient.disconnect;
  client_health_check := MCPProtocolClient.health_check;
  client_list_tools := MCPProtocolClient.list_tools;
  client_call_tool := MCPProtocolClient.call_tool;
  client_get_available_tools := MCPProtocolClient.get_available_tools
|}.

(** [self.clients], [self.connected_servers], [self.available_tools];
    the cached catalogue of a server is whatever its client returned. *)
Record t (C : Type) : Type := mk {
  config_manager : MCPConfigManager.state;
  clients : gmap string C;
  connected_servers : gset string;
  available_tools : gmap string pyval
}.
Arguments mk {C}.
Arguments config_manager {C}.
Arguments clients {C}.
Arguments connected_servers {C}.
Arguments available_tools {C}.

(** One tool-call specification of [call_tools_parallel]: a dict with the
    keys [server_name] and [tool_name], and optionally [parameters]. *)
Record call_spec : Type := mk_spec {
  spec_server_name : string;
  spec_tool_name : string;
  spec_parameters : option pydict
}.

(** [asyncio.gather( *tasks, return_exceptions=True)]: every task runs,
    each outcome is collected at the position of its task. *)
Definition attempt {S A : Type} (m : M S A) : M S (res A) :=
  fun s => let (r, s') := m s in (Ok r, s').

Fixpoint gather {S A : Type} (tasks : list (M S A)) : M S (list (res A)) :=
  match tasks with
  | [] => ret []
  | task :: rest =>
      let* r := attempt task in
      let* rs := gather rest in
      ret (r :: rs)
  end.

(** The basic types of [_validate_parameter_type]: [isinstance(value, T)]
    for the Python type [T] the mapping gives, [None] for a name the
    mapping does not have.  [bool] is a subclass of [int]. *)
Definition isinstance_of (expected_type : string) (value : pyval) : option bool :=
  if str_eqb expected_type "string" then
    Some (match value with PStr _ => true | _ => false end)
  else if str_eqb expected_type "number" then
    Some (match value with PInt _ | PBool _ | PFloat _ => true | _ => false end)
  else if str_eqb expected_type "integer" then
    Some (match value with PInt _ | PBool _ => true | _ => false end)
  else if str_eqb expected_type "boolean" then
    Some (match value with PBool _ => true | _ => false end)
  else if str_eqb expected_type "array" then
    Some (match value with PList _ => true | _ => false end)
  else if str_eqb expected_type "object" then
    Some (match value with PDict _ => true | _ => false end)
  else None.

Definition _validate_parameter_type (value expected_type : pyval) : res bool :=
  if negb (hashable expected_type) then Raise (Exn TypeError "unhashable type")
  else match expected_type with
       | PStr ty => Ok (match isinstance_of ty value with
                        | Some b => b
                        | None => true
                        end)
       | _ => Ok true
       end.

(** The search loop of [_validate_tool_parameters]. *)
Fixpoint find_tool (tools : list pyval) (tool_name : string) : res (option pyval) :=
  match tools with
  | [] => Ok None
  | tool :: rest =>
      res_bind (py_get tool "name" PNone) (fun n =>
      if py_eq_str n tool_name then Ok (Some tool) else find_tool rest tool_name)
  end.

(** The loop over [required_props]. *)
Fixpoint check_required (required_props : list pyval) (parameters : pydict)
  : res (option string) :=
  match required_props with
  | [] => Ok None
  | required_prop :: rest =>
      if negb (hashable required_prop) then Raise (Exn TypeError "unhashable type")
      else if negb (match required_prop with
                    | PStr k => dict_mem k parameters
                    | _ => false
                    end) then
        Ok (Some ("Required parameter '" +:+ py_str required_prop +:+ "' is missing"))
      else check_required rest parameters
  end.

(** The loop over [parameters.items()]. *)
Fixpoint check_types (items : pydict) (schema_properties : pyval)
  : res (option string) :=
  match items with
  | [] => Ok None
  | (param_name, param_value) :: rest =>
      res_bind (py_contains schema_properties param_name) (fun declared =>
      if declared then
        res_bind (py_getitem schema_properties param_name) (fun prop =>
        res_bind (py_get prop "type" PNone) (fun expected_type =>
        res_bind (if truthy expected_type
                  then res_bind (_validate_parameter_type param_value expected_type)
                         (fun ok => Ok (negb ok))
                  else Ok false) (fun bad =>
        if bad then
          Ok (Some ("Parameter '" +:+ param_name +:+ "' has invalid type. Expected: "
                      +:+ py_str expected_type))
        else check_types rest schema_properties)))
      else check_types rest schema_properties)
  end.

(** [_validate_tool_parameters], on the cached catalogue [server_tools]
    of the server: an error message, or [None] when valid. *)
Definition validate_against (server_tools : pyval) (server_name tool_name : string)
    (parameters : pydict) : res (option string) :=
  res_bind (py_iter server_tools) (fun tools =>
  res_bind (find_tool tools tool_name) (fun tool_def =>
  match tool_def with
  | None => Ok (Some ("Tool '" +:+ tool_name +:+ "' not found on server '"
                        +:+ server_name +:+ "'"))
  | Some tool_def =>
      if negb (truthy tool_def) then
        Ok (Some ("Tool '" +:+ tool_name +:+ "' not found on server '"
                    +:+ server_name +:+ "'"))
      else
        res_bind (py_get tool_def "inputSchema" (PDict [])) (fun input_schema =>
        if negb (truthy input_schema) then Ok None
        else
          res_bind (py_get input_schema "properties" (PDict [])) (fun schema_properties =>
          res_bind (py_get input_schema "required" (PList [])) (fun required_props =>
          res_bind (py_iter required_props) (fun required_list =>
          res_bind (check_required required_list parameters) (fun missing =>
          match missing with
          | Some msg => Ok (Some msg)
          | None => check_types parameters schema_properties
          end)))))
  end)).

Section Manager.

Context {C : Type} {P : ProtocolClient C}.

Definition set_config_manager (x : MCPConfigManager.state) (s : t C) : t C :=
  mk x (clients s) (connected_servers s) (available_tools s).
Definition set_clients (x : gmap string C) (s : t C) : t C :=
  mk (config_manager s) x (connected_servers s) (available_tools s).
Definition set_connected_servers (x : gset string) (s : t C) : t C :=
  mk (config_manager s) (clients s) x (available_tools s).
Definition set_available_tools (x : gmap string pyval) (s : t C) : t C :=
  mk (config_manager s) (clients s) (connected_servers s) x.

(** [MCPClientManager(config_manager)] *)
Definition init (cm : MCPConfigManager.state) : t C := mk cm ∅ ∅ ∅.

(** A method call on the client object registered under [name]. *)
Definition on_client {A : Type} (name : string) (m : M C A) : M (t C) A :=
  fun s => match clients s !! name with
           | Some c => let (r, c') := m c in
                       (r, set_clients (<[name := c']> (clients s)) s)
           | None => (Raise (Exn OtherError name), s)
           end.

(** A method call on [self.config_manager]. *)
Definition on_config {A : Type} (m : M MCPConfigManager.state A) : M (t C) A :=
  fun s => let (r, cm') := m (config_manager s) in (r, set_config_manager cm' s).

(** [self.connected_servers.add(n)], [.discard(n)];
    [self.available_tools[n] = tools], [.pop(n, None)]. *)
Definition add_connected (n : string) : M (t C) unit :=
  modify (fun s => set_connected_servers ({[n]} ∪ connected_servers s) s).
Definition discard_connected (n : string) : M (t C) unit :=
  modify (fun s => set_connected_servers (connected_servers s ∖ {[n]}) s).
Definition store_tools (n : string) (tools : pyval) : M (t C) unit :=
  modify (fun s => set_available_tools (<[n := tools]> (available_tools s)) s).
Definition pop_tools (n : string) : M (t C) unit :=
  modify (fun s => set_available_tools (delete n (available_tools s)) s).

(** *** Connecting *)

Definition _connect_single_server (server_name : string) : M (t C) unit :=
  try_except
    (let* success := on_client server_name client_connect in
     if success then
       do* add_connected server_name in
       let* tools := on_client server_name client_get_available_tools in
       store_tools server_name tools
     else ret tt)
    (fun _ => ret tt).

(** [self.config_manager.get_enabled_servers().items()], dereferenced. *)
Fixpoint deref_items (l : list (string * MCPConfigManager.ref))
  : M MCPConfigManager.state (list (string * MCPServerConfig.t)) :=
  match l with
  | [] => ret []
  | (n, r) :: rest =>
      let* c := MCPConfigManager.deref_config r in
      let* more := deref_items rest in
      ret ((n, c) :: more)
  end.

Definition enabled_servers : M (t C) (list (string * MCPServerConfig.t)) :=
  on_config (let* view := MCPConfigManager.get_enabled_servers in
             let* entries := MCPConfigManager.deref_dict view in
             deref_items entries).

(** The loop of [connect_to_servers] that creates a client per enabled
    server not yet in [self.clients]; the result names the servers for
    which a connection task was created. *)
Fixpoint create_clients (enabled : list (string * MCPServerConfig.t))
  : M (t C) (list string) :=
  match enabled with
  | [] => ret []
  | (server_name, server_config) :: rest =>
      let* cs := gets clients in
      if bool_decide (is_Some (cs !! server_name)) then create_clients rest
      else
        do* modify (fun s => set_clients
                               (<[server_name := client_new server_config]> (clients s)) s) in
        let* more := create_clients rest in
        ret (server_name :: more)
  end.

Definition connect_to_servers : M (t C) unit :=
  let* enabled := enabled_servers in
  match enabled with
  | [] => ret tt
  | _ =>
      let* names := create_clients enabled in
      match names with
      | [] => ret tt
      | _ => let* _ := gather (map _connect_single_server names) in ret tt
      end
  end.

(** *** Disconnecting, reconnecting *)

Definition disconnect_from_servers : M (t C) unit :=
  let* cs := gets clients in
  let* connected := gets connected_servers in
  let names := filter (fun n => bool_decide (n ∈ connected))
                      (map fst (map_to_list cs)) in
  do* (match names with
       | [] => ret tt
       | _ => let* _ := gather (map (fun n => on_client n client_disconnect) names) in
              ret tt
       end) in
  do* modify (set_connected_servers ∅) in
  do* modify (set_available_tools ∅) in
  modify (set_clients ∅).

Definition reconnect_server (server_name : string) : M (t C) bool :=
  let* cs := gets clients in
  if negb (bool_decide (is_Some (cs !! server_name))) then ret false
  else
    try_except
      (let* connected := gets connected_servers in
       do* (if bool_decide (server_name ∈ connected) then
              do* on_client server_name client_disconnect in
              do* discard_connected server_name in
              pop_tools server_name
            else ret tt) in
       let* success := on_client server_name client_connect in
       if success then
         do* add_connected server_name in
         let* tools := on_client server_name client_get_available_tools in
         do* store_tools server_name tools in
         ret true
       else ret false)
      (fun _ => ret false).

(** *** Health checks, refresh *)





(** *** Tool calls *)

Definition _validate_tool_parameters (server_name tool_name : string)
    (parameters : pydict) : M (t C) (option string) :=
  let* cache := gets available_tools in
  let server_tools := match cache !! server_name with
                      | Some tools => tools
                      | None => PList []
                      end in
  lift (validate_against server_tools server_name tool_name parameters).

(** A fresh tool call marked failed with [msg]. *)
Definition failed_call {S : Type} (server_name tool_name : string)
    (parameters : pydict) (msg : string) : M S MCPToolCall.t :=
  let* tool_call := lift (MCPToolCall.new server_name tool_name parameters) in
  ret (MCPToolCall.mark_error msg 0 tool_call).

Definition call_tool (server_name tool_name : string) (parameters : pydict)
  : M (t C) MCPToolCall.t :=
  let* connected := gets connected_servers in
  if negb (bool_decide (server_name ∈ connected)) then
    failed_call server_name tool_name parameters
      ("Server '" +:+ server_name +:+ "' is not connected")
  else
    let* cs := gets clients in
    if negb (bool_decide (is_Some (cs !! server_name))) then
      failed_call server_name tool_name parameters
        ("Client for server '" +:+ server_name +:+ "' not found")
    else
      let* validation_error :=
        _validate_tool_parameters server_name tool_name parameters in
      match validation_error with
      | Some msg =>
          if str_eqb msg "" then
            on_client server_name (client_call_tool tool_name parameters)
          else
            failed_call server_name tool_name parameters
              ("Parameter validation failed: " +:+ msg)
      | None => on_client server_name (client_call_tool tool_name parameters)
      end.

Definition spec_params (call_spec_ : call_spec) : pydict :=
  match spec_parameters call_spec_ with
  | Some p => p
  | None => []
  end.

(** The loop of [call_tools_parallel] that turns exceptions into error
    tool calls. *)
Fixpoint convert_results (tool_calls : list call_spec)
    (results : list (res MCPToolCall.t)) : M (t C) (list MCPToolCall.t) :=
  match results, tool_calls with
  | r :: results', call_spec_ :: specs' =>
      let* final :=
        match r with
        | Raise e =>
            failed_call (spec_server_name call_spec_) (spec_tool_name call_spec_)
              (spec_params call_spec_) ("Tool call failed: " +:+ exn_msg e)
        | Ok tool_call => ret tool_call
        end in
      let* more := convert_results specs' results' in
      ret (final :: more)
  | _, _ => ret []
  end.

Definition call_tools_parallel (tool_calls : list call_spec)
  : M (t C) (list MCPToolCall.t) :=
  match tool_calls with
  | [] => ret []
  | _ =>
      let tasks := map (fun call_spec_ =>
                          call_tool (spec_server_name call_spec_)
                            (spec_tool_name call_spec_) (spec_params call_spec_))
                       tool_calls in
      let* results := gather tasks in
      convert_results tool_calls results
  end.

(** The aggregate-state invariant: the connected servers are exactly
    the servers with a cached catalogue. *)
Definition aggregate_invariant (s : t C) : Prop :=
  connected_servers s = dom (available_tools s).

End Manager.

(** *** Tool lookup

    The lookups below walk [self.available_tools.items()]; [items] stands
    for that sequence, in the dict's iteration order. *)

(** [tool.copy()] followed by [tool_with_server['server_name'] = n]. *)
Definition with_server (server_name : string) (tool : pyval) : res pydict :=
  match tool with
  | PDict d => Ok (dict_set "server_name" (PStr server_name) d)
  | PList _ => Raise (Exn TypeError "list indices must be integers")
  | _ => Raise (Exn AttributeError "object has no attribute 'copy'")
  end.

(** A loop over the tools of every server that appends the outcome of
    [body], when there is one. *)
Fixpoint each_tool (body : string -> pyval -> res (option pydict))
    (server_name : string) (tools : list pyval) : res (list pydict) :=
  match tools with
  | [] => Ok []
  | tool :: rest =>
      res_bind (body server_name tool) (fun found =>
      res_bind (each_tool body server_name rest) (fun more =>
      Ok (match found with Some d => d :: more | None => more end)))
  end.

Fixpoint each_server (body : string -> pyval -> res (option pydict))
    (items : list (string * pyval)) : res (list pydict) :=
  match items with
  | [] => Ok []
  | (server_name, tools) :: rest =>
      res_bind (py_iter tools) (fun tool_list =>
      res_bind (each_tool body server_name tool_list) (fun here =>
      res_bind (each_server body rest) (fun more => Ok (here ++ more))))
  end.

Definition get_all_tools_flat (items : list (string * pyval)) : res (list pydict) :=
  each_server (fun server_name tool =>
                 res_bind (with_server server_name tool) (fun d => Ok (Some d))) items.

Definition find_tools_by_name (items : list (string * pyval)) (tool_name : string)
  : res (list pydict) :=
  each_server (fun server_name tool =>
                 res_bind (py_get tool "name" PNone) (fun n =>
                 if py_eq_str n tool_name then
                   res_bind (with_server server_name tool) (fun d => Ok (Some d))
                 else Ok None)) items.

(** [v.lower()]: a method of [str]. *)
Definition py_lower (v : pyval) : res string :=
  match v with
  | PStr s => Ok (lower s)
  | _ => Raise (Exn AttributeError "object has no attribute 'lower'")
  end.

(** The relevance score: 3 per keyword found in the name, 1 per keyword
    found in the description. *)
Definition relevance (keywords : list string) (tool_name description : string) : Z :=
  fold_left (fun score keyword =>
               let keyword_lower := lower keyword in
               let score := if str_in keyword_lower tool_name then score + 3 else score in
               if str_in keyword_lower description then score + 1 else score)
            keywords 0.

(** [x.get('relevance_score', 0)], the sort key. *)
Definition score_of (d : pydict) : Z :=
  match dict_get "relevance_score" d with
  | Some (PInt z) => z
  | _ => 0
  end.

(** [list.sort(key=score_of, reverse=True)]: a stable sort, largest score
    first. *)
Fixpoint insert_by_score (x : pydict) (l : list pydict) : list pydict :=
  match l with
  | [] => [x]
  | y :: rest =>
      if score_of y <=? score_of x then x :: y :: rest
      else y :: insert_by_score x rest
  end.

Definition sort_by_score (l : list pydict) : list pydict :=
  fold_right insert_by_score [] l.

(** The matches of [find_tools_by_description], before they are sorted. *)
Definition scored_matches (items : list (string * pyval)) (keywords : list string)
  : res (list pydict) :=
  each_server (fun server_name tool =>
                 res_bind (res_bind (py_get tool "description" (PStr "")) py_lower)
                   (fun description =>
                 res_bind (res_bind (py_get tool "name" (PStr "")) py_lower)
                   (fun tool_name =>
                 let score := relevance keywords tool_name description in
                 if 0 <? score then
                   res_bind (with_server server_name tool) (fun d =>
                   Ok (Some (dict_set "relevance_score" (PInt score) d)))
                 else Ok None))) items.

Definition find_tools_by_description (items : list (string * pyval))
    (keywords : list string) : res (list pydict) :=
  res_bind (scored_matches items keywords) (fun matching_tools =>
  Ok (sort_by_score matching_tools)).

(** [s.split()]: the maximal runs of non-whitespace characters. *)
Fixpoint split_go (s : string) (word : string) : list string :=
  match s with
  | EmptyString => match word with EmptyString => [] | _ => [word] end
  | String c r =>
      if is_space c then
        match word with
        | EmptyString => split_go r EmptyString
        | _ => word :: split_go r EmptyString
        end
      else split_go r (word +:+ String c EmptyString)
  end.

Definition split (s : string) : list string := split_go s EmptyString.





End MCPClientManager.

(* ===================================================================== *)
(** * The patterns of the [re] module used by the chat service            *)
(* ===================================================================== *)

Module Re.

(** The pattern language: literals, character classes, sequence, the
    greedy quantifiers, one capturing group and the word boundary. *)
Inductive regex : Type :=
| Lit (c : ascii)
| Class (p : ascii -> bool)
| Seq (r1 r2 : regex)
| Star (r : regex)
| Plus (r : regex)
| Opt (r : regex)
| Group (r : regex)
| WordBoundary.

(** The matcher's position: the character before it, the text after it,
    and the text captured by the group so far. *)
Record mstate : Type := mk_mstate {
  prev : option ascii;
  rest : string;
  group1 : option string
}.

Fixpoint take_str (n : nat) (s : string) : string :=
  match n, s with
  | S n', String c r => String c (take_str n' r)
  | _, _ => EmptyString
  end.

Fixpoint last_char (p : option ascii) (s : string) : option ascii :=
  match s with
  | EmptyString => p
  | String c r => last_char (Some c) r
  end.

Definition is_word_opt (c : option ascii) : bool :=
  match c with Some x => is_word x | None => false end.

Definition next_char (s : string) : option ascii :=
  match s with String c _ => Some c | EmptyString => None end.

(** Consume one character satisfying [p]. *)
Definition eat {R : Type} (p : ascii -> bool) (st : mstate) (k : mstate -> option R)
  : option R :=
  match rest st with
  | String c r => if p c then k (mk_mstate (Some c) r (group1 st)) else None
  | EmptyString => None
  end.

(** Greedy repetition of [step], with backtracking: try one more round,
    fall back to the continuation.  A round must consume text. *)
Fixpoint repeat_greedy {R : Type} (step : mstate -> (mstate -> option R) -> option R)
    (fuel : nat) (st : mstate) (k : mstate -> option R) : option R :=
  match fuel with
  | O => k st
  | S fuel' =>
      match step st (fun st' =>
                       if Nat.ltb (String.length (rest st')) (String.length (rest st))
                       then repeat_greedy step fuel' st' k else None) with
      | Some x => Some x
      | None => k st
      end
  end.

(** Backtracking match of [r] at [st], then the continuation [k]. *)
Fixpoint run {R : Type} (r : regex) (st : mstate) (k : mstate -> option R) : option R :=
  match r with
  | Lit c => eat (Ascii.eqb c) st k
  | Class p => eat p st k
  | Seq a b => run a st (fun st' => run b st' k)
  | Star a => repeat_greedy (run a) (String.length (rest st)) st k
  | Plus a =>
      run a st (fun st' => repeat_greedy (run a) (String.length (rest st')) st' k)
  | Opt a =>
      match run a st k with
      | Some x => Some x
      | None => k st
      end
  | Group a =>
      run a st (fun st' =>
        k (mk_mstate (prev st') (rest st')
             (Some (take_str (String.length (rest st) - String.length (rest st'))
                      (rest st)))))
  | WordBoundary =>
      if xorb (is_word_opt (prev st)) (is_word_opt (next_char (rest st)))
      then k st else None
  end.

(** [re.search(r, s)]: the leftmost match; the result is its group 1. *)
Fixpoint search_from (r : regex) (before : option ascii) (s : string)
  : option (option string) :=
  match run r (mk_mstate before s None) (fun st => Some (group1 st)) with
  | Some g => Some g
  | None =>
      match s with
      | EmptyString => None
      | String c t => search_from r (Some c) t
      end
  end.

Definition search (r : regex) (s : string) : option (option string) :=
  search_from r None s.

(** A literal string. *)
Fixpoint lits (s : string) : regex :=
  match s with
  | EmptyString => Opt (Class (fun _ => false))
  | String c EmptyString => Lit c
  | String c r => Seq (Lit c) (lits r)
  end.

Definition digit_value (c : ascii) : Z := Z.of_nat (ord c) - 48.

(** [int(s)] for a string of decimal digits. *)
Definition int_of_digits (s : string) : Z :=
  (fix go (acc : Z) (s : string) : Z :=
     match s with
     | EmptyString => acc
     | String c r => go (10 * acc + digit_value c) r
     end) 0 s.

End Re.

(* ===================================================================== *)
(** * services/chat_service.py                                            *)
(* ===================================================================== *)

Module ChatService.

Import Re.

Definition tool_keywords : list string :=
  ["search"; "find"; "lookup"; "get"; "fetch"; "retrieve";
   "weather"; "temperature"; "forecast";
   "file"; "read"; "write"; "save"; "open";
   "database"; "query"; "data"; "information";
   "api"; "call"; "request"; "http";
   "calculate"; "compute"; "math";
   "translate"; "language";
   "time"; "date"; "schedule"; "calendar"].

(** The keyword gate of [_should_use_mcp_tools]:
    [any(keyword in message.lower() for keyword in self.tool_keywords)]. *)
Definition has_tool_keywords (message : string) : bool :=
  existsb (fun keyword => str_in keyword (lower message)) tool_keywords.

(** The group shared by the location patterns: a capitalised word,
    followed by any number of further capitalised words, each after one
    space. *)
Definition capitalised_words : regex :=
  Group (Seq (Class is_upper)
          (Seq (Plus (Class is_lower))
             (Star (Seq (Lit " ") (Seq (Class is_upper) (Plus (Class is_lower))))))).

(** The three location patterns: [in ...], [at ...], [for ...]. *)
Definition location_patterns : list regex :=
  [Seq (lits "in ") capitalised_words;
   Seq (lits "at ") capitalised_words;
   Seq (lits "for ") capitalised_words].

(** The loop [for pattern in patterns: match = re.search(...); if match:
    return match.group(1)]. *)
Fixpoint first_group (patterns : list regex) (s : string) : option string :=
  match patterns with
  | [] => None
  | pattern :: more =>
      match search pattern s with
      | Some g => g
      | None => first_group more s
      end
  end.

Definition _extract_location (message : string) : option string :=
  first_group location_patterns message.

(** A conversation, as far as the service reads it: the contents of its
    messages, oldest first. *)
Definition conversation : Type := list string.

Definition truthy_str (o : option string) : bool :=
  match o with
  | Some s => negb (str_eqb s "")
  | None => false
  end.

(** [messages[-5:]] *)
Definition last_five {A : Type} (l : list A) : list A :=
  skipn (length l - 5) l.

(** The loop over [reversed(recent_messages)]. *)
Fixpoint first_location (contents : list string) : option string :=
  match contents with
  | [] => None
  | c :: more =>
      if truthy_str (_extract_location c) then _extract_location c
      else first_location more
  end.

Definition _extract_location_from_conversation (conv : conversation) : option string :=
  match conv with
  | [] => None
  | _ => first_location (rev (last_five conv))
  end.

(** The three day patterns: digits, optional whitespace, [day] and an
    optional [s]; digits and [-day]; digits, optional whitespace, [d] and
    a word boundary.  The digits are group 1. *)
Definition day_patterns : list regex :=
  [Seq (Group (Plus (Class is_digit)))
     (Seq (Star (Class is_space)) (Seq (lits "day") (Opt (Lit "s"))));
   Seq (Group (Plus (Class is_digit))) (lits "-day");
   Seq (Group (Plus (Class is_digit)))
     (Seq (Star (Class is_space)) (Seq (Lit "d") WordBoundary))].

(** The loop over [day_patterns]; group 1 takes part in every match of
    these patterns and holds decimal digits, so [int] succeeds. *)
Fixpoint first_day_count (patterns : list regex) (s : string) : option Z :=
  match patterns with
  | [] => None
  | pattern :: more =>
      match search pattern s with
      | Some (Some digits) => Some (int_of_digits digits)
      | _ => first_day_count more s
      end
  end.

Definition _extract_days_from_message (message : string) : option Z :=
  match first_day_count day_patterns (lower message) with
  | Some n => Some n
  | None =>
      if str_in "tomorrow" (lower message) then Some 1
      else if str_in "week" (lower message) then Some 7
      else None
  end.

(** [name.lower() in [...]] and [prop_type in [...]]. *)
Definition lower_in (name : string) (l : list string) : bool :=
  str_in_list (lower name) l.
Definition type_in (prop_type : pyval) (l : list string) : bool :=
  existsb (py_eq_str prop_type) l.

(** [v[0]] *)
Definition py_first (v : pyval) : res pyval :=
  match v with
  | PList (x :: _) => Ok x
  | PList [] => Raise (Exn OtherError "list index out of range")
  | PStr (String c _) => Ok (PStr (String c EmptyString))
  | PStr EmptyString => Raise (Exn OtherError "string index out of range")
  | PDict _ => Raise (Exn OtherError "0")
  | _ => Raise (Exn TypeError "object is not subscriptable")
  end.

(** The body of the loop of [_generate_tool_parameters] for one declared
    property. *)
Definition assign_parameter (message : string) (conv : option conversation)
    (parameters : pydict) (prop_name : string) (prop_def : pyval) : res pydict :=
  res_bind (py_get prop_def "type" (PStr "string")) (fun prop_type =>
  if lower_in prop_name ["query"; "q"; "search"; "term"] then
    Ok (dict_set prop_name (PStr message) parameters)
  else if lower_in prop_name ["text"; "content"; "input"] then
    Ok (dict_set prop_name (PStr message) parameters)
  else if lower_in prop_name ["location"; "city"] then
    let location := _extract_location message in
    let location :=
      match conv with
      | Some c =>
          if negb (truthy_str location) then _extract_location_from_conversation c
          else location
      | None => location
      end in
    match location with
    | Some l => if truthy_str location then Ok (dict_set prop_name (PStr l) parameters)
                else Ok parameters
    | None => Ok parameters
    end
  else if lower_in prop_name ["limit"; "count"; "max"]
          && type_in prop_type ["integer"; "number"] then
    Ok (dict_set prop_name (PInt 5) parameters)
  else if lower_in prop_name ["format"; "type"]
          && match prop_def with PDict d => dict_mem "enum" d | _ => false end then
    res_bind (py_get prop_def "enum" (PList [])) (fun enum_values =>
    if truthy enum_values then
      res_bind (py_first enum_values) (fun v => Ok (dict_set prop_name v parameters))
    else Ok parameters)
  else if str_eqb (lower prop_name) "days" && type_in prop_type ["integer"; "number"] then
    match _extract_days_from_message message with
    | Some days => if days =? 0 then Ok parameters
                   else Ok (dict_set prop_name (PInt days) parameters)
    | None => Ok parameters
    end
  else Ok parameters).

(** The loop over [properties.items()]. *)
Fixpoint assign_parameters (message : string) (conv : option conversation)
    (items : pydict) (parameters : pydict) : res pydict :=
  match items with
  | [] => Ok parameters
  | (prop_name, prop_def) :: more =>
      res_bind (assign_parameter message conv parameters prop_name prop_def)
        (assign_parameters message conv more)
  end.

(** [properties.items()]: only a dict has it. *)
Definition py_items (v : pyval) : res pydict :=
  match v with
  | PDict d => Ok d
  | _ => Raise (Exn AttributeError "object has no attribute 'items'")
  end.

Definition _generate_tool_parameters (message : string) (tool : pydict)
    (conv : option conversation) : res pydict :=
  res_bind (py_get (PDict tool) "inputSchema" (PDict [])) (fun input_schema =>
  res_bind (py_get input_schema "properties" (PDict [])) (fun properties =>
  res_bind (py_items properties) (fun items =>
  res_bind (assign_parameters message conv items []) (fun parameters =>
  match parameters with
  | [] =>
      if dict_mem "query" items then Ok (dict_set "query" (PStr message) parameters)
      else match items with
           | [(param_name, _)] => Ok (dict_set param_name (PStr message) parameters)
           | _ => Ok parameters
           end
  | _ => Ok parameters
  end)))).

(** [s[:n]] for [n >= 0]. *)
Definition truncate (n : nat) (s : string) : string := take_str n s.

(** [r.status == "success" and r.result] *)
Definition useful (r : MCPToolCall.t) : bool :=
  str_eqb (MCPToolCall.status r) "success" && truthy (MCPToolCall.result r).

(** [mcp_tools_used] of [process_message]. *)
Definition mcp_tools_used (mcp_results : list MCPToolCall.t) : list string :=
  map MCPToolCall.tool_name
    (filter (fun r => str_eqb (MCPToolCall.status r) "success" = true) mcp_results).

Definition newline : string := String (ascii_of_nat 10) EmptyString.

(** The context built by [_generate_ai_response] from the tool results. *)
Definition additional_context (mcp_results : list MCPToolCall.t) : option string :=
  let context_parts :=
    map (fun r => "Tool '" +:+ MCPToolCall.tool_name r +:+ "' returned: "
                    +:+ truncate 500 (py_str (MCPToolCall.result r)))
        (List.filter useful mcp_results) in
  match context_parts with
  | [] => None
  | _ => Some ("Available information from tools:" +:+ newline
                 +:+ join newline context_parts)
  end.

Definition hedging_phrases : list string :=
  ["i don't have"; "i cannot"; "i'm not able"; "i don't know"].

(** The bullet line of one result, as [_integrate_mcp_results] appends it;
    the bullet is the three bytes of its UTF-8 encoding. *)
Definition bullet_line (r : MCPToolCall.t) : string :=
  newline +:+ "• " +:+ MCPToolCall.tool_name r +:+ ": "
    +:+ truncate 200 (py_str (MCPToolCall.result r))
    +:+ (if Nat.ltb 200 (String.length (py_str (MCPToolCall.result r))) then "..." else "").

Definition _integrate_mcp_results (ai_response : string) (mcp_results : list MCPToolCall.t)
  : string :=
  match mcp_results with
  | [] => ai_response
  | _ =>
      if Nat.ltb (String.length (strip ai_response)) 50
         || existsb (fun phrase => str_in phrase (lower ai_response)) hedging_phrases
      then
        match List.filter useful mcp_results with
        | [] => ai_response
        | successful_results =>
            ai_response +:+
              fold_left (fun result_text r => result_text +:+ bullet_line r)
                successful_results
                (newline +:+ newline +:+ "Here's what I found using available tools:"
                   +:+ newline)
        end
      else ai_response
  end.

End ChatService.

(* ===================================================================== *)
(** * Specification predicates and example data                           *)
(* ===================================================================== *)

(** The shape of a tool call after its last transition. *)
Definition well_marked (c : MCPToolCall.t) : Prop :=
  (MCPToolCall.status c = "pending" /\ MCPToolCall.result c = PNone
   /\ MCPToolCall.error c = None)
  \/ (MCPToolCall.status c = "success" /\ MCPToolCall.error c = None)
  \/ (MCPToolCall.status c = "error" /\ MCPToolCall.result c = PNone
      /\ MCPToolCall.has_error c = true)
  \/ (MCPToolCall.status c = "timeout" /\ MCPToolCall.result c = PNone
      /\ MCPToolCall.error c = Some "Tool call timed out").

(** *** The protocol client on a concrete server, used in examples *)

Definition demo_config (n endpoint_ : string) : MCPServerConfig.t :=
  MCPServerConfig.mk n endpoint_ [] [] true 30 3.

Definition demo_io (script_ : nat -> MCPProtocolClient.io_outcome) : MCPProtocolClient.io :=
  MCPProtocolClient.mk_io script_ (fun n => Z.of_nat n) 0 [].

(** A client connected over HTTP to the server [n]. *)
Definition http_client (n : string) : MCPProtocolClient.t :=
  MCPProtocolClient.mk (demo_config n "http://localhost:8001")
    (Some (MCPProtocolClient.Handle "http://localhost:8001")) None (Some "http") true
    (PList []) (PDict []) 2.

(** A client connected over a websocket to the server [n]. *)
Definition ws_client (n : string) : MCPProtocolClient.t :=
  MCPProtocolClient.mk (demo_config n "ws://localhost:8002")
    None (Some (MCPProtocolClient.Handle "ws://localhost:8002")) (Some "websocket") true
    (PList []) (PDict []) 2.

Definition rpc_result (payload : pyval) : pyval :=
  PDict [("jsonrpc", PStr "2.0"); ("id", PStr "srv-3"); ("result", payload)].

Definition demo_call : MCPToolCall.t :=
  MCPToolCall.mk "weather-server" "get_weather" [] PNone None 0 "pending".

(** Unfolding of the monad's combinators. *)
Ltac munfold :=
  unfold Py.bind, Py.ret, Py.raise, Py.get, Py.gets, Py.modify, Py.put, Py.lift,
    Py.try_except_class, Py.try_except in *.

(** A transport whose first close fails and whose later operations succeed. *)
Definition close_fails_once (n : nat) : MCPProtocolClient.io_outcome :=
  match n with
  | O => MCPProtocolClient.IoError "close failed"
  | S _ => MCPProtocolClient.IoOk PNone
  end.

(** *** Configuration documents used in examples *)

Definition server_entry (n endpoint_ : string) (enabled_ : bool) : pyval :=
  PDict [("name", PStr n); ("endpoint", PStr endpoint_); ("enabled", PBool enabled_)].

(** Two servers, both named [x]. *)
Definition duplicate_doc : pyval :=
  PDict [("servers", PList [server_entry "x" "http://localhost:8001" true;
                            server_entry "x" "http://localhost:8002" true])].

(** Two servers, the first enabled and the second disabled. *)
Definition two_server_doc : pyval :=
  PDict [("servers", PList [server_entry "test-server" "http://localhost:8001" true;
                            server_entry "another-server" "ws://localhost:8002" false])].

(** The store after loading [two_server_doc] into a fresh manager. *)
Definition two_server_store : MCPConfigManager.state :=
  snd (MCPConfigManager.load_configuration (fun _ => MCPConfigManager.Parsed two_server_doc)
         None (MCPConfigManager.init None)).

(** The store after [view = get_all_servers()], and after one more
    statement on [view]. *)
Definition after_get_all : MCPConfigManager.state :=
  snd (MCPConfigManager.get_all_servers two_server_store).

Definition after_mutation (mu : MCPConfigManager.view_mutation) : MCPConfigManager.state :=
  snd (MCPConfigManager.mutate_view 4%nat mu after_get_all).

(** *** A manager over three configured servers *)

Definition three_server_doc : pyval :=
  PDict [("servers", PList [server_entry "weather-server" "http://localhost:8001" true;
                            server_entry "calc-server" "ws://localhost:8002" true;
                            server_entry "disabled-server" "http://localhost:8003" false])].

Definition three_server_store : MCPConfigManager.state :=
  snd (MCPConfigManager.load_configuration
         (fun _ => MCPConfigManager.Parsed three_server_doc) None
         (MCPConfigManager.init None)).

Definition tool_descriptor (n : string) (schema : pyval) : pyval :=
  PDict [("name", PStr n); ("description", PStr "a tool"); ("inputSchema", schema)].

Definition weather_schema : pyval :=
  PDict [("type", PStr "object");
         ("properties", PDict [("location", PDict [("type", PStr "string")]);
                               ("days", PDict [("type", PStr "integer")])]);
         ("required", PList [PStr "location"])].

(** A reply that serves as the answer to [initialize], to the
    notification, and to [tools/list]. *)
Definition catalogue_reply (tools : pyval) : pyval :=
  PDict [("jsonrpc", PStr "2.0"); ("id", PStr "1");
         ("result", PDict [("tools", tools)])].

(** The network: [weather-server] is unreachable, every other server
    answers each request with a catalogue of one tool. *)
Definition demo_net (cfg : MCPServerConfig.t) : MCPProtocolClient.io :=
  if str_eqb (MCPServerConfig.name cfg) "weather-server" then
    demo_io (fun _ => MCPProtocolClient.IoClosed "connection refused")
  else
    demo_io (fun _ => MCPProtocolClient.IoOk
                        (catalogue_reply (PList [tool_descriptor "calculate" weather_schema]))).

Definition demo_manager : MCPClientManager.t MCPProtocolClient.world :=
  MCPClientManager.init three_server_store.

Definition demo_enabled : list (string * MCPServerConfig.t) :=
  [("weather-server", demo_config "weather-server" "http://localhost:8001");
   ("calc-server", demo_config "calc-server" "ws://localhost:8002")].

(** A stand-in client, as a test would patch it in: its [connect()]
    raises, returns false or returns true according to its tag; it has an
    empty catalogue and its other methods do nothing. *)
Inductive stub : Type := StubRaises | StubFalse | StubTrue.

Definition stub_client (tag : string -> stub) : MCPClientManager.ProtocolClient stub := {|
  MCPClientManager.client_new := fun cfg => tag (MCPServerConfig.name cfg);
  MCPClientManager.client_connect := fun c =>
    match c with
    | StubRaises => (Raise (Exn OtherError "boom"), c)
    | StubFalse => (Ok false, c)
    | StubTrue => (Ok true, c)
    end;
  MCPClientManager.client_disconnect := ret tt;
  MCPClientManager.client_health_check := ret true;
  MCPClientManager.client_list_tools := ret (PList []);
  MCPClientManager.client_call_tool := fun tool_name parameters =>
    let* c := lift (MCPToolCall.new "stub" tool_name parameters) in
    ret (MCPToolCall.mark_success PNone 0 c);
  MCPClientManager.client_get_available_tools := ret (PList [])
|}.

(** Server A raises on connect; B and C connect. *)
Definition abc_doc : pyval :=
  PDict [("servers", PList [server_entry "A" "http://localhost:8001" true;
                            server_entry "B" "http://localhost:8002" true;
                            server_entry "C" "http://localhost:8003" true])].

Definition abc_tag (n : string) : stub :=
  if str_eqb n "A" then StubRaises else StubTrue.

Definition abc_manager : MCPClientManager.t stub :=
  MCPClientManager.init
    (snd (MCPConfigManager.load_configuration (fun _ => MCPConfigManager.Parsed abc_doc)
            None (MCPConfigManager.init None))).

(** A server whose reply to [tools/list] carries [null] for [tools]. *)
Definition null_catalogue_doc : pyval :=
  PDict [("servers", PList [server_entry "srv" "http://localhost:8001" true])].

Definition null_catalogue_net (cfg : MCPServerConfig.t) : MCPProtocolClient.io :=
  demo_io (fun _ => MCPProtocolClient.IoOk (catalogue_reply PNone)).

Definition null_catalogue_manager : MCPClientManager.t MCPProtocolClient.world :=
  MCPClientManager.init
    (snd (MCPConfigManager.load_configuration
            (fun _ => MCPConfigManager.Parsed null_catalogue_doc) None
            (MCPConfigManager.init None))).

(** A computation of the manager that keeps the aggregate invariant,
    whether it returns or raises. *)
Definition preserves {C A : Type} (m : M (MCPClientManager.t C) A) : Prop :=
  forall s, MCPClientManager.aggregate_invariant s ->
            MCPClientManager.aggregate_invariant (snd (m s)).

(** Every value a computation can return satisfies [P]. *)
Definition returns_only {S A : Type} (P : A -> Prop) (m : M S A) : Prop :=
  forall s a s', m s = (Ok a, s') -> P a.

(** [c] is the tool call [c0] after one [mark_*] call. *)
Definition marked_from (c0 c : MCPToolCall.t) : Prop :=
  exists tr, c = MCPToolCall.step c0 tr.

(** *** The cached catalogue and its schemas, read as the specification
    describes them: a list of descriptors [{name, description,
    inputSchema}], the schema being [{type, properties: {prop: {type}},
    required: [prop]}] *)

Definition is_dict (v : pyval) : bool :=
  match v with PDict _ => true | _ => false end.

Definition is_str (v : pyval) : bool :=
  match v with PStr _ => true | _ => false end.

(** The catalogue cached for a server; no entry reads as the empty list. *)
Definition cached_catalogue {C : Type} (s : MCPClientManager.t C) (server : string) : pyval :=
  match MCPClientManager.available_tools s !! server with
  | Some tools => tools
  | None => PList []
  end.

Definition well_formed_catalogue (v : pyval) : bool :=
  match v with
  | PList l => forallb is_dict l
  | _ => false
  end.

Definition named (tool : string) (d : pydict) : bool :=
  match dict_get "name" d with
  | Some v => py_eq_str v tool
  | None => false
  end.

(** The first descriptor of the catalogue with the given name. *)
Fixpoint descriptor_of (tool : string) (l : list pyval) : option pydict :=
  match l with
  | [] => None
  | PDict d :: rest => if named tool d then Some d else descriptor_of tool rest
  | _ :: rest => descriptor_of tool rest
  end.

Definition cached_descriptor {C : Type} (s : MCPClientManager.t C) (server tool : string)
  : option pydict :=
  match cached_catalogue s server with
  | PList l => descriptor_of tool l
  | _ => None
  end.

(** No [inputSchema], or an empty one. *)
Definition no_input_schema (d : pydict) : bool :=
  match dict_get "inputSchema" d with
  | None | Some (PDict []) => true
  | _ => false
  end.

Definition str_of (v : pyval) : string :=
  match v with PStr s => s | _ => "" end.

(** The names in [required], for a schema whose [required] is a list of
    names (or is absent). *)
Definition required_names (d : pydict) : option (list string) :=
  match dict_get "inputSchema" d with
  | Some (PDict sch) =>
      match dict_get "required" sch with
      | None => Some []
      | Some (PList req) => if forallb is_str req then Some (map str_of req) else None
      | Some _ => None
      end
  | _ => None
  end.

Definition well_formed_property (v : pyval) : bool :=
  match v with
  | PDict pd => match dict_get "type" pd with
                | None | Some (PStr _) => true
                | Some _ => false
                end
  | _ => false
  end.

(** The declared properties, for a schema whose [properties] maps names to
    [{type}] objects (or is absent). *)
Definition declared_properties (d : pydict) : option pydict :=
  match dict_get "inputSchema" d with
  | Some (PDict sch) =>
      match dict_get "properties" sch with
      | None => Some []
      | Some (PDict props) =>
          if forallb (fun kv => well_formed_property (snd kv)) props then Some props else None
      | Some _ => None
      end
  | _ => None
  end.

(** The type a property declaration gives. *)
Definition declared_type (props : pydict) (p : string) : option string :=
  match dict_get p props with
  | Some (PDict pd) => match dict_get "type" pd with
                       | Some (PStr ty) => Some ty
                       | _ => None
                       end
  | _ => None
  end.

Definition basic_types : list string :=
  ["string"; "number"; "integer"; "boolean"; "array"; "object"].

(** Whether a JSON value has a declared basic type. *)
Definition json_type_matches (ty : string) (v : pyval) : bool :=
  if str_eqb ty "string" then is_str v
  else if str_eqb ty "number" then
    match v with PInt _ | PFloat _ => true | _ => false end
  else if str_eqb ty "integer" then
    match v with PInt _ => true | _ => false end
  else if str_eqb ty "boolean" then
    match v with PBool _ => true | _ => false end
  else if str_eqb ty "array" then
    match v with PList _ => true | _ => false end
  else if str_eqb ty "object" then is_dict v
  else true.

(** A value of another JSON type than the declared basic type. *)
Definition type_mismatch (ty : string) (v : pyval) : bool :=
  str_in_list ty basic_types && negb (json_type_matches ty v).

(** A boolean supplied where a number or an integer is declared. *)
Definition bool_for_number (ty : string) (v : pyval) : bool :=
  match v with
  | PBool _ => str_eqb ty "number" || str_eqb ty "integer"
  | _ => false
  end.

(** [p] is required by the schema and not supplied. *)
Definition missing_required (req : list string) (ps : pydict) (p : string) : Prop :=
  In p req /\ dict_mem p ps = false.

(** [p] is supplied with a value of another type than declared, other than
    a boolean for a number. *)
Definition mistyped (props ps : pydict) (p : string) : Prop :=
  exists v ty,
    In (p, v) ps /\ declared_type props p = Some ty
    /\ type_mismatch ty v = true /\ bool_for_number ty v = false.

(** The first required name that is not supplied. *)
Definition first_missing (req : list string) (ps : pydict) : option string :=
  List.find (fun q => negb (dict_mem q ps)) req.

(** The check [_validate_tool_parameters] applies to one supplied value. *)
Definition rejected (props : pydict) (kv : string * pyval) : bool :=
  match declared_type props (fst kv) with
  | Some ty => match MCPClientManager.isinstance_of ty (snd kv) with
               | Some false => true
               | _ => false
               end
  | None => false
  end.

(** The first supplied property that is rejected. *)
Definition first_rejected (props ps : pydict) : option (string * pyval) :=
  List.find (rejected props) ps.

Definition missing_message (q : string) : string :=
  "Required parameter '" +:+ q +:+ "' is missing".

Definition type_message (props : pydict) (kv : string * pyval) : string :=
  "Parameter '" +:+ fst kv +:+ "' has invalid type. Expected: "
    +:+ match declared_type props (fst kv) with Some ty => ty | None => "" end.

Definition not_found_message (server tool : string) : string :=
  "Tool '" +:+ tool +:+ "' not found on server '" +:+ server +:+ "'".

(** *** A manager with one connected server and a cached catalogue *)

Definition forecast_reply : pyval :=
  PDict [("jsonrpc", PStr "2.0"); ("id", PStr "weather-server-3");
         ("result", PDict [("forecast", PStr "sunny")])].

Definition gate_world : MCPProtocolClient.world :=
  (http_client "weather-server", demo_io (fun _ => MCPProtocolClient.IoOk forecast_reply)).

(** [get_forecast] has a schema, [ping_tool] has none. *)
Definition gate_catalogue : pyval :=
  PList [tool_descriptor "get_forecast" weather_schema;
         PDict [("name", PStr "ping_tool"); ("description", PStr "no schema")]].

Definition gate_manager : MCPClientManager.t MCPProtocolClient.world :=
  MCPClientManager.mk three_server_store
    {["weather-server" := gate_world]} {["weather-server"]}
    {["weather-server" := gate_catalogue]}.

Definition forecast_descriptor : pydict :=
  [("name", PStr "get_forecast"); ("description", PStr "a tool");
   ("inputSchema", weather_schema)].

Definition forecast_properties : pydict :=
  [("location", PDict [("type", PStr "string")]);
   ("days", PDict [("type", PStr "integer")])].

(** The messages the client of [s] for [server] has handed to its transport. *)
Definition wire (s : MCPClientManager.t MCPProtocolClient.world) (server : string)
  : list pyval :=
  match MCPClientManager.clients s !! server with
  | Some w => MCPProtocolClient.sent (snd w)
  | None => []
  end.

(** The JSON-RPC request of a tool call. *)
Definition tools_call_request (id tool : string) (ps : pydict) : pyval :=
  PDict [("jsonrpc", PStr "2.0"); ("id", PStr id); ("method", PStr "tools/call");
         ("params", PDict [("name", PStr tool); ("arguments", PDict ps)])].

(** What [call_tools_parallel] puts at the place of an outcome of [gather]:
    the returned tool call, or an error call built from the spec. *)
Definition settle (sp : MCPClientManager.call_spec) (r : res MCPToolCall.t) : MCPToolCall.t :=
  match r with
  | Ok c => c
  | Raise e =>
      MCPToolCall.mk (strip (MCPClientManager.spec_server_name sp))
        (strip (MCPClientManager.spec_tool_name sp)) (MCPClientManager.spec_params sp)
        PNone (Some ("Tool call failed: " +:+ exn_msg e)) 0 "error"
  end.

(** Both names of a spec are non-blank. *)
Definition named_spec (sp : MCPClientManager.call_spec) : Prop :=
  strip (MCPClientManager.spec_server_name sp) <> ""
  /\ strip (MCPClientManager.spec_tool_name sp) <> "".

(** The task [call_tools_parallel] creates for a spec. *)
Definition spec_task (net : MCPServerConfig.t -> MCPProtocolClient.io)
    (sp : MCPClientManager.call_spec)
  : M (MCPClientManager.t MCPProtocolClient.world) MCPToolCall.t :=
  @MCPClientManager.call_tool _ (MCPClientManager.protocol_client net)
    (MCPClientManager.spec_server_name sp) (MCPClientManager.spec_tool_name sp)
    (MCPClientManager.spec_params sp).

(** A batch of two well-named specs, the second for a server that is not
    connected. *)
Definition demo_batch : list MCPClientManager.call_spec :=
  [MCPClientManager.mk_spec "weather-server" "get_forecast"
     (Some [("location", PStr "Boston")]);
   MCPClientManager.mk_spec "calc-server" "calculate" None].

(** A manager whose cached descriptor of [broken] carries a string where
    the schema object should be. *)
Definition broken_manager : MCPClientManager.t MCPProtocolClient.world :=
  MCPClientManager.mk three_server_store
    {["weather-server" := gate_world]} {["weather-server"]}
    {["weather-server" := PList [tool_descriptor "broken" (PStr "not a schema")]]}.

(** *** Further specification predicates *)

(** The id of the [n]-th request of the client of server [name]. *)
Definition request_id (name : string) (n : nat) : string :=
  name +:+ "-" +:+ pretty n.

(** The JSON-RPC request [_send_request] builds. *)
Definition rpc_request (id method : string) (params : pyval) : pyval :=
  PDict [("jsonrpc", PStr "2.0"); ("id", PStr id); ("method", PStr method);
         ("params", params)].

(** The client talks over an open HTTP session. *)
Definition http_ready (c : MCPProtocolClient.t) : Prop :=
  MCPProtocolClient.connection_type c = Some "http"
  /\ MCPProtocolClient.session c <> None.

(** The connection type agrees with the handle that is open. *)
Definition transport_open (c : MCPProtocolClient.t) : Prop :=
  (MCPProtocolClient.connection_type c = Some "websocket"
   /\ MCPProtocolClient.websocket c <> None)
  \/ (MCPProtocolClient.connection_type c = Some "http"
      /\ MCPProtocolClient.session c <> None).

(** A computation of the client that leaves the observation [f] of the
    client as it was. *)
Definition keeps {X A : Type} (f : MCPProtocolClient.t -> X)
    (m : M MCPProtocolClient.world A) : Prop :=
  forall w, f (fst (snd (m w))) = f (fst w).

(** The content of a store that holds the configurations [cfgs], each
    under its own name, in this order. *)
Definition listing (cfgs : list MCPServerConfig.t)
  : list (string * option MCPServerConfig.t) :=
  map (fun c => (MCPServerConfig.name c, Some c)) cfgs.

(** [entries] of a document validate to the configurations [cfgs]. *)
Definition validated (entries : list pyval) (cfgs : list MCPServerConfig.t) : Prop :=
  Forall2 (fun e c => MCPServerConfig.new e = Ok c) entries cfgs.

(** The operations of the store that change one server. *)
Inductive store_op : Type :=
| AddServer (cfg : nat)
| UpdateServer (server_name : string) (cfg : nat)
| RemoveServer (server_name : string)
| EnableServer (server_name : string)
| DisableServer (server_name : string).

Definition run_op (op : store_op) : M MCPConfigManager.state unit :=
  match op with
  | AddServer cfg => MCPConfigManager.add_server cfg
  | UpdateServer n cfg => MCPConfigManager.update_server n cfg
  | RemoveServer n => MCPConfigManager.remove_server n
  | EnableServer n => MCPConfigManager.enable_server n
  | DisableServer n => MCPConfigManager.disable_server n
  end.

(** [two_server_store] after [remove_server("test-server")]: the removed
    configuration object, at address 2, is still alive. *)
Definition one_server_store : MCPConfigManager.state :=
  snd (MCPConfigManager.remove_server "test-server" two_server_store).

(** The entry [kv] of the store's dict refers to a configuration whose
    name is the entry's key. *)
Definition stored_under_own_name (h : list MCPConfigManager.obj) (kv : string * nat) : Prop :=
  exists c, MCPConfigManager.lookup_config h (snd kv) = Some c
            /\ MCPServerConfig.name c = fst kv.

(** Every server of the store is kept under its own name. *)
Definition keyed (s : MCPConfigManager.state) : Prop :=
  exists entries,
    MCPConfigManager.heap s !! MCPConfigManager.servers s
    = Some (MCPConfigManager.ODict entries)
    /\ Forall (stored_under_own_name (MCPConfigManager.heap s)) entries.

(** [tool.get('name')] on a tool that is a dict. *)
Definition name_of (d : pydict) : pyval :=
  match dict_get "name" d with Some v => v | None => PNone end.

(** Largest relevance score first. *)
Fixpoint descending (l : list pydict) : Prop :=
  match l with
  | [] => True
  | x :: rest =>
      Forall (fun y => MCPClientManager.score_of y <= MCPClientManager.score_of x) rest
      /\ descending rest
  end.

(** The tool [d] is attributed to one of the servers of [items]. *)
Definition attributed (items : list (string * pyval)) (d : pydict) : Prop :=
  exists server, dict_get "server_name" d = Some (PStr server) /\ In server (map fst items).

(** A cached catalogue with two forecast tools and an alert tool. *)
Definition demo_items : list (string * pyval) :=
  [("weather-server", PList [tool_descriptor "get_alerts" weather_schema;
                             tool_descriptor "get_forecast" weather_schema]);
   ("travel-server", PList [tool_descriptor "trip_forecast" weather_schema])].

(** [tool.get('inputSchema', {}).get('properties', {}).items()] *)
Definition properties_of (tool : pydict) : res pydict :=
  res_bind (py_get (PDict tool) "inputSchema" (PDict [])) (fun input_schema =>
  res_bind (py_get input_schema "properties" (PDict [])) ChatService.py_items).

(** A tool with one integer property [days]. *)
Definition days_tool : pydict :=
  [("name", PStr "get_forecast");
   ("inputSchema",
    PDict [("properties", PDict [("days", PDict [("type", PStr "integer")])])])].

(** A tool with a location, a day count, a result limit and an output
    format. *)
Definition forecast_tool : pydict :=
  [("name", PStr "get_forecast");
   ("inputSchema",
    PDict [("properties",
            PDict [("location", PDict [("type", PStr "string")]);
                   ("days", PDict [("type", PStr "integer")]);
                   ("limit", PDict [("type", PStr "number")]);
                   ("format", PDict [("type", PStr "string");
                                     ("enum", PList [PStr "json"; PStr "text"])])])])].

(** The reply does not read as a short or a hedging answer. *)
Definition confident (ai_response : string) : bool :=
  negb (Nat.ltb (String.length (strip ai_response)) 50)
  && negb (existsb (fun phrase => str_in phrase (lower ai_response))
             ChatService.hedging_phrases).

Definition demo_results : list MCPToolCall.t :=
  [MCPToolCall.mk "weather-server" "get_forecast" [] (PStr "sunny") None 1 "success";
   MCPToolCall.mk "weather-server" "get_alerts" [] PNone (Some "boom") 1 "error"].

(** *** Proof steps shared by the properties of the store and of the chat service *)

(** Unfold the operations of the configuration store. *)
Ltac store_unfold :=
  unfold MCPConfigManager.add_server, MCPConfigManager.update_server,
    MCPConfigManager.remove_server, MCPConfigManager.enable_server,
    MCPConfigManager.disable_server, MCPConfigManager.set_server_enabled,
    MCPConfigManager.get_server, MCPConfigManager.has_server,
    MCPConfigManager.deref_config, MCPConfigManager.deref_dict,
    MCPConfigManager.deref, MCPConfigManager.assign in *;
  munfold.

(** Close a case of the loop body of the parameter generation. *)
Ltac shape_done :=
  intros [= <-]; eexists; (split; [reflexivity|]);
  first [left; split; reflexivity | right; eexists; split; reflexivity].

(** A lower-cased name found in one list of names is in none of the others. *)
Ltac other_list H :=
  unfold ChatService.lower_in, str_in_list in *; cbn [existsb] in *;
  rewrite ?orb_false_r in H;
  repeat (apply orb_true_iff in H as [H|H]);
  unfold str_eqb in H; apply bool_decide_eq_true in H; rewrite H; vm_compute; reflexivity.

(* ===================================================================== *)
(** * Properties                                                          *)
(* ===================================================================== *)

(** ** Tool calls: the state machine of [MCPToolCall] *)

Lemma step_terminal (c : MCPToolCall.t) (tr : MCPToolCall.transition) :
  MCPToolCall.is_terminal (MCPToolCall.step c tr) = true.
Proof. destruct tr; reflexivity. Qed.

Lemma run_snoc (c : MCPToolCall.t) (path : list MCPToolCall.transition)
    (tr : MCPToolCall.transition) :
  MCPToolCall.run c (path ++ [tr]) = MCPToolCall.step (MCPToolCall.run c path) tr.
Proof. unfold MCPToolCall.run. now rewrite fold_left_app. Qed.

Lemma run_app (c : MCPToolCall.t) (p q : list MCPToolCall.transition) :
  MCPToolCall.run c (p ++ q) = MCPToolCall.run (MCPToolCall.run c p) q.
Proof. unfold MCPToolCall.run. now rewrite fold_left_app. Qed.

Lemma run_terminal (c : MCPToolCall.t) (path : list MCPToolCall.transition) :
  MCPToolCall.is_terminal c = true ->
  MCPToolCall.is_terminal (MCPToolCall.run c path) = true.
Proof.
  revert c. induction path as [|tr path IH]; intros c Hc; [exact Hc|].
  cbn. apply IH, step_terminal.
Qed.

Lemma step_well_marked (c : MCPToolCall.t) (tr : MCPToolCall.transition) :
  well_marked (MCPToolCall.step c tr).
Proof.
  destruct tr; cbn; unfold well_marked; cbn; [right; left | right; right; left | do 3 right];
    auto.
Qed.

Lemma run_well_marked (c : MCPToolCall.t) (path : list MCPToolCall.transition) :
  well_marked c -> well_marked (MCPToolCall.run c path).
Proof.
  induction path as [|tr p _] using rev_ind; [auto|].
  intros _. rewrite run_snoc. apply step_well_marked.
Qed.
Lemma new_pending (sn tn : string) (ps : pydict) (c : MCPToolCall.t) :
  MCPToolCall.new sn tn ps = Ok c ->
  MCPToolCall.status c = "pending" /\ MCPToolCall.result c = PNone
  /\ MCPToolCall.error c = None /\ MCPToolCall.tool_name c = strip tn
  /\ MCPToolCall.server_name c = strip sn /\ MCPToolCall.parameters c = ps.
Proof.
  unfold MCPToolCall.new, MCPToolCall.validate_names.
  destruct (str_eqb (strip sn) ""); cbn; [discriminate|].
  destruct (str_eqb (strip tn) ""); cbn; [discriminate|].
  intros [= <-]. cbn. repeat split.
Qed.

(** C4 (claim as stated fails): a server that answers a [tools/call]
    request with the result [null] leaves the tool call in the terminal
    state [success] with neither [result] nor [error] set. *)
Lemma tool_call_exclusive_counterexample :
  exists c w,
    MCPProtocolClient.call_tool "echo" []
      (http_client "srv", demo_io (fun _ => MCPProtocolClient.IoOk (rpc_result PNone)))
    = (Ok c, w)
    /\ MCPToolCall.status c = "success"
    /\ MCPToolCall.is_terminal c = true
    /\ MCPToolCall.has_result c = false /\ MCPToolCall.has_error c = false
    /\ MCPToolCall.result_nonempty c = false /\ MCPToolCall.error_nonempty c = false.
Proof. eexists _, _. split; [vm_compute; reflexivity|]. repeat split. Qed.

(** C4 (amended): after construction and any sequence of [mark_*] calls the
    status is one of the four defined values; a terminal state never has
    both [result] and [error] set ([success] has [error] cleared, [error]
    and [timeout] have [result] cleared and [error] set); and a terminal
    tool call stays terminal under any further [mark_*] calls. *)
Theorem tool_call_terminal_states (sn tn : string) (ps : pydict) (c0 : MCPToolCall.t)
    (path more : list MCPToolCall.transition) :
  MCPToolCall.new sn tn ps = Ok c0 ->
  let c := MCPToolCall.run c0 path in
  In (MCPToolCall.status c) MCPToolCall.valid_statuses
  /\ (MCPToolCall.is_terminal c = true ->
      (MCPToolCall.status c = "success" /\ MCPToolCall.has_error c = false)
      \/ (MCPToolCall.status c <> "success" /\ MCPToolCall.has_result c = false
          /\ MCPToolCall.has_error c = true))
  /\ (path <> [] -> MCPToolCall.is_terminal c = true)
  /\ (MCPToolCall.is_terminal c = true ->
      MCPToolCall.is_terminal (MCPToolCall.run c more) = true).
Proof.
  intros Hnew c.
  destruct (new_pending _ _ _ _ Hnew) as (Hs & Hr & He & _).
  assert (Hw : well_marked c).
  { apply run_well_marked. left. auto. }
  split; [|split; [|split]].
  - destruct Hw as [(H & _) | [(H & _) | [(H & _) | (H & _)]]]; rewrite H; cbn; auto.
  - intros Ht.
    destruct Hw as [(H & _) | [(H & E) | [(H & R & E) | (H & R & E)]]].
    + unfold MCPToolCall.is_terminal in Ht. rewrite H in Ht. discriminate.
    + left. split; [exact H|]. unfold MCPToolCall.has_error. now rewrite E.
    + right. unfold MCPToolCall.has_result. rewrite R, H. repeat split; [discriminate|exact E].
    + right. unfold MCPToolCall.has_result, MCPToolCall.has_error. rewrite R, H, E.
      repeat split. discriminate.
  - intros Hne. subst c. induction path as [|tr p _] using rev_ind; [congruence|].
    rewrite run_snoc. apply step_terminal.
  - apply run_terminal.
Qed.

Lemma tool_call_terminal_states_witness :
  MCPToolCall.new "weather-server" "get_weather" [] = Ok demo_call
  /\ MCPToolCall.is_terminal
       (MCPToolCall.run demo_call
          [MCPToolCall.MarkTimeout 3; MCPToolCall.MarkSuccess (PInt 1) 4])
     = true.
Proof.
  split; [reflexivity|].
  refine (proj1 (proj2 (proj2
    (tool_call_terminal_states "weather-server" "get_weather" [] demo_call
       [MCPToolCall.MarkTimeout 3; MCPToolCall.MarkSuccess (PInt 1) 4] [] eq_refl))) _).
  discriminate.
Defined.

(** ** Protocol client: [disconnect] *)

(** [disconnect] never raises. *)
Lemma disconnect_never_raises (w : MCPProtocolClient.world) :
  exists w', MCPProtocolClient.disconnect w = (Ok tt, w').
Proof.
  unfold MCPProtocolClient.disconnect, Py.try_except.
  match goal with |- context [match ?m w with _ => _ end] => destruct (m w) as [[[]|e] w1] end;
    eexists; reflexivity.
Qed.

(** On a client that is already reset, [disconnect] touches nothing: no
    transport is closed and the state stays as it is. *)
Lemma disconnect_reset_noop (c : MCPProtocolClient.t) (e : MCPProtocolClient.io) :
  MCPProtocolClient.is_reset c = true ->
  MCPProtocolClient.disconnect (c, e) = (Ok tt, (c, e)).
Proof.
  destruct c as [cfg ss ws ct up tools info n].
  unfold MCPProtocolClient.is_reset. cbn.
  destruct up, ct, ss, ws; cbn; try discriminate. reflexivity.
Qed.

(** When every close succeeds, [disconnect] leaves the client reset. *)
Lemma disconnect_resets_when_closes_succeed (c : MCPProtocolClient.t)
    (e : MCPProtocolClient.io) :
  (forall n, exists p, MCPProtocolClient.script e n = MCPProtocolClient.IoOk p) ->
  exists w', MCPProtocolClient.disconnect (c, e) = (Ok tt, w')
             /\ MCPProtocolClient.is_reset (fst w') = true.
Proof.
  intros Hok.
  destruct c as [cfg ss ws ct up tools info n], e as [sc ck cur snt]. cbn in Hok.
  destruct (Hok cur) as [p0 H0]. destruct (Hok (S cur)) as [p1 H1].
  unfold MCPProtocolClient.disconnect.
  destruct ws, ss; munfold; cbn; rewrite ?H0, ?H1; cbn; rewrite ?H0, ?H1; cbn;
    eexists; split; reflexivity.
Qed.

(** C3 (the code departs from the claim): on a client connected over a
    websocket whose [close()] raises, [disconnect] returns normally but
    leaves the client connected, with its handle and connection type in
    place; a second [disconnect], whose close succeeds, ends in a
    different state than the first. *)
Theorem disconnect_keeps_state_when_close_raises :
  exists w1 w2,
    MCPProtocolClient.disconnect (ws_client "srv", demo_io close_fails_once) = (Ok tt, w1)
    /\ MCPProtocolClient.is_connected (fst w1) = true
    /\ MCPProtocolClient.connection_type (fst w1) = Some "websocket"
    /\ MCPProtocolClient.websocket (fst w1)
       = Some (MCPProtocolClient.Handle "ws://localhost:8002")
    /\ MCPProtocolClient.is_reset (fst w1) = false
    /\ MCPProtocolClient.disconnect w1 = (Ok tt, w2)
    /\ MCPProtocolClient.is_reset (fst w2) = true
    /\ fst w2 <> fst w1.
Proof.
  eexists _, _. split; [vm_compute; reflexivity|].
  cbn. repeat split. discriminate.
Qed.

(** ** Configuration store *)

Lemma lookup_config_snoc_dict (h : list MCPConfigManager.obj)
    (x : list (string * MCPConfigManager.ref)) (r : MCPConfigManager.ref) :
  MCPConfigManager.lookup_config (h ++ [MCPConfigManager.ODict x]) r
  = MCPConfigManager.lookup_config h r.
Proof.
  unfold MCPConfigManager.lookup_config.
  destruct (decide (r < length h)%nat) as [Hlt|Hge].
  - now rewrite lookup_app_l.
  - rewrite lookup_app_r by lia.
    rewrite (lookup_ge_None_2 h r) by lia.
    destruct (r - length h)%nat; reflexivity.
Qed.

(** Appending a dict object to the heap, or replacing the last object of
    the heap when it is a dict, is invisible to the store. *)
Lemma contents_snoc_dict (s s' : MCPConfigManager.state)
    (x : list (string * nat)) :
  MCPConfigManager.heap s' = MCPConfigManager.heap s ++ [MCPConfigManager.ODict x] ->
  MCPConfigManager.servers s' = MCPConfigManager.servers s ->
  is_Some (MCPConfigManager.heap s !! MCPConfigManager.servers s) ->
  MCPConfigManager.contents s' = MCPConfigManager.contents s.
Proof.
  intros Hh Hsv Hs. unfold MCPConfigManager.contents. rewrite Hh, Hsv.
  rewrite lookup_app_l by (eapply lookup_lt_is_Some; exact Hs).
  destruct (MCPConfigManager.heap s !! MCPConfigManager.servers s) as [[entries|c]|];
    try reflexivity.
  f_equal. apply map_ext. intros [k r]. cbn. now rewrite lookup_config_snoc_dict.
Qed.

Lemma insert_last {A : Type} (h : list A) (x y : A) :
  <[length h := y]> (h ++ [x]) = h ++ [y].
Proof.
  rewrite insert_app_r_alt by lia. now rewrite Nat.sub_diag.
Qed.

Lemma enabled_entries_pure (l : list (string * MCPConfigManager.ref))
    (s : MCPConfigManager.state) :
  snd (MCPConfigManager.enabled_entries l s) = s.
Proof.
  induction l as [|[n r] l IH]; [reflexivity|].
  cbn. unfold MCPConfigManager.deref_config, MCPConfigManager.deref. munfold.
  destruct (MCPConfigManager.heap s !! r) as [[e|c]|]; cbn; try reflexivity.
  destruct (MCPConfigManager.enabled_entries l s) as [[x|x] s'] eqn:E; cbn in *; now subst.
Qed.

(** What [get_all_servers] and [get_enabled_servers] return: a dict object
    allocated by the call, at the end of the heap. *)
Lemma get_all_servers_fresh (s s1 : MCPConfigManager.state) (view : MCPConfigManager.ref) :
  MCPConfigManager.get_all_servers s = (Ok view, s1) ->
  exists entries,
    MCPConfigManager.heap s !! MCPConfigManager.servers s
    = Some (MCPConfigManager.ODict entries)
    /\ view = length (MCPConfigManager.heap s)
    /\ s1 = MCPConfigManager.set_heap
              (MCPConfigManager.heap s ++ [MCPConfigManager.ODict entries]) s.
Proof.
  unfold MCPConfigManager.get_all_servers, MCPConfigManager.deref_dict,
    MCPConfigManager.deref, MCPConfigManager.alloc. munfold.
  destruct (MCPConfigManager.heap s !! MCPConfigManager.servers s) as [[entries|c]|];
    cbn; try discriminate.
  intros [= <- <-]. eauto.
Qed.

Lemma get_enabled_servers_fresh (s s1 : MCPConfigManager.state)
    (view : MCPConfigManager.ref) :
  MCPConfigManager.get_enabled_servers s = (Ok view, s1) ->
  exists chosen,
    is_Some (MCPConfigManager.heap s !! MCPConfigManager.servers s)
    /\ view = length (MCPConfigManager.heap s)
    /\ s1 = MCPConfigManager.set_heap
              (MCPConfigManager.heap s ++ [MCPConfigManager.ODict chosen]) s.
Proof.
  unfold MCPConfigManager.get_enabled_servers, MCPConfigManager.deref_dict,
    MCPConfigManager.deref, MCPConfigManager.alloc. munfold.
  destruct (MCPConfigManager.heap s !! MCPConfigManager.servers s) as [[entries|c]|];
    cbn; try discriminate.
  pose proof (enabled_entries_pure entries s) as Hp.
  destruct (MCPConfigManager.enabled_entries entries s) as [[chosen|e] s'];
    cbn in *; subst s'; try discriminate.
  intros [= <- <-]. eauto.
Qed.

(** A mutation of a fresh dict object leaves the store's content alone. *)
Lemma mutate_fresh_view (s : MCPConfigManager.state)
    (x : list (string * MCPConfigManager.ref)) (mu : MCPConfigManager.view_mutation)
    (r : res unit) (s2 : MCPConfigManager.state) :
  is_Some (MCPConfigManager.heap s !! MCPConfigManager.servers s) ->
  MCPConfigManager.on_dict_only mu = true ->
  MCPConfigManager.mutate_view (length (MCPConfigManager.heap s)) mu
    (MCPConfigManager.set_heap (MCPConfigManager.heap s ++ [MCPConfigManager.ODict x]) s)
  = (r, s2) ->
  MCPConfigManager.contents s2 = MCPConfigManager.contents s.
Proof.
  intros Hs Hmu.
  unfold MCPConfigManager.mutate_view, MCPConfigManager.deref_dict,
    MCPConfigManager.deref, MCPConfigManager.assign. munfold. cbn.
  rewrite lookup_app_r by lia. rewrite Nat.sub_diag. cbn.
  destruct mu as [k v|k| |k b]; cbn in *; try discriminate.
  - intros [= <- <-]. eapply contents_snoc_dict; [cbn; apply insert_last|reflexivity|exact Hs].
  - destruct (dict_mem k x); cbn.
    + intros [= <- <-].
      eapply contents_snoc_dict; [cbn; apply insert_last|reflexivity|exact Hs].
    + intros [= <- <-]. eapply contents_snoc_dict; [reflexivity|reflexivity|exact Hs].
  - intros [= <- <-]. eapply contents_snoc_dict; [cbn; apply insert_last|reflexivity|exact Hs].
Qed.

(** C7 (amended): the dict returned by [get_all_servers] or
    [get_enabled_servers] is a copy: setting, deleting or clearing its keys
    leaves the store's content unchanged. *)
Theorem returned_views_are_dict_copies (s s1 s2 : MCPConfigManager.state)
    (view : MCPConfigManager.ref) (mu : MCPConfigManager.view_mutation) (r : res unit) :
  MCPConfigManager.get_all_servers s = (Ok view, s1)
  \/ MCPConfigManager.get_enabled_servers s = (Ok view, s1) ->
  MCPConfigManager.on_dict_only mu = true ->
  MCPConfigManager.mutate_view view mu s1 = (r, s2) ->
  MCPConfigManager.contents s2 = MCPConfigManager.contents s.
Proof.
  intros [H|H] Hmu Hrun.
  - apply get_all_servers_fresh in H as (entries & Hs & -> & ->).
    eapply mutate_fresh_view; eauto.
  - apply get_enabled_servers_fresh in H as (chosen & Hs & -> & ->).
    eapply mutate_fresh_view; eauto.
Qed.

Lemma returned_views_are_dict_copies_witness :
  (MCPConfigManager.get_all_servers two_server_store = (Ok 4%nat, after_get_all)
   \/ MCPConfigManager.get_enabled_servers two_server_store = (Ok 4%nat, after_get_all))
  /\ MCPConfigManager.on_dict_only (MCPConfigManager.SetItem "new-server" 0%nat) = true
  /\ MCPConfigManager.mutate_view 4%nat (MCPConfigManager.SetItem "new-server" 0%nat)
       after_get_all
     = (Ok tt, after_mutation (MCPConfigManager.SetItem "new-server" 0%nat))
  /\ MCPConfigManager.contents (after_mutation (MCPConfigManager.SetItem "new-server" 0%nat))
     = MCPConfigManager.contents two_server_store.
Proof.
  assert (H1 : MCPConfigManager.get_all_servers two_server_store = (Ok 4%nat, after_get_all))
    by (vm_compute; reflexivity).
  assert (H2 : MCPConfigManager.mutate_view 4%nat
                 (MCPConfigManager.SetItem "new-server" 0%nat) after_get_all
               = (Ok tt, after_mutation (MCPConfigManager.SetItem "new-server" 0%nat)))
    by (vm_compute; reflexivity).
  split; [left; exact H1|]. split; [reflexivity|]. split; [exact H2|].
  exact (returned_views_are_dict_copies _ _ _ _
           (MCPConfigManager.SetItem "new-server" 0%nat) _ (or_introl H1) eq_refl H2).
Defined.

(** C7 (claim as stated fails): flipping [enabled] on an entry reached
    through the dict returned by [get_all_servers] disables the server in
    the store itself. *)
Lemma returned_views_share_entries :
  MCPConfigManager.get_all_servers two_server_store = (Ok 4%nat, after_get_all)
  /\ MCPConfigManager.mutate_view 4%nat
       (MCPConfigManager.SetEntryEnabled "test-server" false) after_get_all
     = (Ok tt, after_mutation (MCPConfigManager.SetEntryEnabled "test-server" false))
  /\ MCPConfigManager.contents two_server_store
     = Some [("test-server", Some (MCPServerConfig.mk "test-server" "http://localhost:8001"
                                     [] [] true 30 3));
             ("another-server", Some (MCPServerConfig.mk "another-server"
                                        "ws://localhost:8002" [] [] false 30 3))]
  /\ MCPConfigManager.contents
       (after_mutation (MCPConfigManager.SetEntryEnabled "test-server" false))
     = Some [("test-server", Some (MCPServerConfig.mk "test-server" "http://localhost:8001"
                                     [] [] false 30 3));
             ("another-server", Some (MCPServerConfig.mk "another-server"
                                        "ws://localhost:8002" [] [] false 30 3))]
  /\ MCPConfigManager.contents
       (after_mutation (MCPConfigManager.SetEntryEnabled "test-server" false))
     <> MCPConfigManager.contents two_server_store.
Proof.
  repeat split; try (vm_compute; reflexivity).
  intros H. vm_compute in H. discriminate.
Qed.

(** ** Configuration store: loading a document with a duplicate name *)

(** C2 (the code departs from the claim): loading a document whose two
    servers are both named [x] into a fresh store raises a configuration
    error that reports the duplicate, and leaves the first of the two
    servers loaded. *)
Theorem load_duplicate_leaves_partial_state :
  exists msg s',
    MCPConfigManager.load_configuration (fun _ => MCPConfigManager.Parsed duplicate_doc)
      None (MCPConfigManager.init None)
    = (Raise (Exn MCPConfigurationError msg), s')
    /\ str_in "Duplicate server name: x" msg = true
    /\ MCPConfigManager.server_count s' = Some 1%nat
    /\ MCPConfigManager.contents s'
       = Some [("x", Some (MCPServerConfig.mk "x" "http://localhost:8001" [] [] true 30 3))].
Proof.
  eexists _, _. split; [vm_compute; reflexivity|].
  repeat split.
Qed.

(** ** Client manager: connecting *)

(** A [try] whose handler only logs never raises. *)
Lemma try_except_swallow {S : Type} (m : M S unit) (s : S) :
  fst (try_except m (fun _ => ret tt) s) = Ok tt.
Proof.
  unfold try_except, ret. destruct (m s) as [[[]|e] s1]; reflexivity.
Qed.

Section ConnectFacts.

Context {C : Type} {P : MCPClientManager.ProtocolClient C}.

Local Abbreviation manager := (MCPClientManager.t C).

Lemma gather_ok {S A : Type} (tasks : list (M S A)) (s : S) :
  exists rs, fst (MCPClientManager.gather tasks s) = Ok rs /\ length rs = length tasks.
Proof.
  revert s. induction tasks as [|task tasks IH]; intros s; cbn.
  - exists []. split; reflexivity.
  - unfold Py.bind, MCPClientManager.attempt at 1.
    destruct (task s) as [r s1].
    destruct (IH s1) as (rs & Hrs & Hlen).
    destruct (MCPClientManager.gather tasks s1) as [x s2]. cbn in Hrs. subst x.
    exists (r :: rs). cbn. split; [reflexivity|]. now rewrite Hlen.
Qed.

Lemma gather_state {S A X : Type} (f : X -> M S A) (xs : list X) (s : S) :
  snd (MCPClientManager.gather (map f xs) s) = fold_left (fun s x => snd (f x s)) xs s.
Proof.
  revert s. induction xs as [|x xs IH]; intros s; cbn; [reflexivity|].
  unfold Py.bind, MCPClientManager.attempt at 1.
  destruct (f x s) as [r s1] eqn:E. cbn. rewrite <- IH.
  destruct (gather_ok (map f xs) s1) as (rs & Hrs & _).
  destruct (MCPClientManager.gather (map f xs) s1) as [y s2]. cbn in *. now subst y.
Qed.

(** One connection task touches nothing that belongs to another server. *)
Lemma connect_single_frame (s : manager) (n m : string) :
  m <> n ->
  let s' := snd (MCPClientManager._connect_single_server n s) in
  MCPClientManager.clients s' !! m = MCPClientManager.clients s !! m
  /\ (m ∈ MCPClientManager.connected_servers s'
      <-> m ∈ MCPClientManager.connected_servers s)
  /\ MCPClientManager.available_tools s' !! m = MCPClientManager.available_tools s !! m.
Proof.
  intros Hne. unfold MCPClientManager._connect_single_server, MCPClientManager.on_client,
    MCPClientManager.add_connected, MCPClientManager.store_tools. munfold.
  destruct (MCPClientManager.clients s !! n) as [c|] eqn:Hc; cbn; [|tauto].
  destruct (MCPClientManager.client_connect c) as [[[|]|e] c1]; cbn;
    rewrite ?lookup_insert_ne by congruence; try tauto.
  rewrite lookup_insert_eq.
  destruct (MCPClientManager.client_get_available_tools c1) as [[tools|e] c2]; cbn;
    rewrite ?lookup_insert_ne by congruence;
    (split; [reflexivity|split; [|reflexivity]]);
    rewrite elem_of_union, elem_of_singleton; (split; [intros [?|?]; [congruence|assumption]|auto]).
Qed.

(** What one connection task does for its own server. *)
Lemma connect_single_own (s : manager) (n : string) (c : C) :
  MCPClientManager.clients s !! n = Some c ->
  let s' := snd (MCPClientManager._connect_single_server n s) in
  (fst (MCPClientManager.client_connect c) = Ok true ->
   n ∈ MCPClientManager.connected_servers s')
  /\ (fst (MCPClientManager.client_connect c) <> Ok true ->
      MCPClientManager.connected_servers s' = MCPClientManager.connected_servers s
      /\ MCPClientManager.available_tools s' = MCPClientManager.available_tools s).
Proof.
  intros Hc. unfold MCPClientManager._connect_single_server, MCPClientManager.on_client,
    MCPClientManager.add_connected, MCPClientManager.store_tools. munfold.
  rewrite Hc. cbn.
  destruct (MCPClientManager.client_connect c) as [[[|]|e] c1]; cbn;
    try (split; [discriminate|tauto]).
  rewrite lookup_insert_eq.
  destruct (MCPClientManager.client_get_available_tools c1) as [[tools|e] c2]; cbn;
    (split; [intros _; apply elem_of_union; left; now apply elem_of_singleton|congruence]).
Qed.

Lemma connect_single_never_raises (s : manager) (n : string) :
  fst (MCPClientManager._connect_single_server n s) = Ok tt.
Proof.
  unfold MCPClientManager._connect_single_server.
  apply try_except_swallow.
Qed.

Lemma fold_connect_frame (names : list string) (s : manager) (m : string) :
  m ∉ names ->
  let s' := fold_left (fun s n => snd (MCPClientManager._connect_single_server n s)) names s in
  MCPClientManager.clients s' !! m = MCPClientManager.clients s !! m
  /\ (m ∈ MCPClientManager.connected_servers s'
      <-> m ∈ MCPClientManager.connected_servers s)
  /\ MCPClientManager.available_tools s' !! m = MCPClientManager.available_tools s !! m.
Proof.
  revert s. induction names as [|n names IH]; intros s Hm; cbn; [tauto|].
  apply not_elem_of_cons in Hm as [Hne Hm].
  destruct (IH (snd (MCPClientManager._connect_single_server n s)) Hm) as (H1 & H2 & H3).
  destruct (connect_single_frame s n m Hne) as (F1 & F2 & F3).
  cbn in *. rewrite H1, H2, H3, F1, F2, F3. tauto.
Qed.

(** The outcome of a batch of connection tasks, server by server. *)
Lemma fold_connect_own (names : list string) (s : manager) (n : string) (c : C) :
  NoDup names -> n ∈ names ->
  MCPClientManager.clients s !! n = Some c ->
  let s' := fold_left (fun s n => snd (MCPClientManager._connect_single_server n s)) names s in
  (fst (MCPClientManager.client_connect c) = Ok true ->
   n ∈ MCPClientManager.connected_servers s')
  /\ (fst (MCPClientManager.client_connect c) <> Ok true ->
      (n ∈ MCPClientManager.connected_servers s'
       <-> n ∈ MCPClientManager.connected_servers s)
      /\ MCPClientManager.available_tools s' !! n = MCPClientManager.available_tools s !! n).
Proof.
  revert s. induction names as [|k names IH]; intros s Hnd Hin Hc; [inversion Hin|].
  apply NoDup_cons in Hnd as [Hk Hnd]. cbn.
  destruct (decide (n = k)) as [->|Hne].
  - destruct (fold_connect_frame names
                (snd (MCPClientManager._connect_single_server k s)) k Hk) as (_ & F2 & F3).
    destruct (connect_single_own s k c Hc) as (O1 & O2). cbn in *.
    rewrite F2, F3. split; [exact O1|].
    intros Hf. destruct (O2 Hf) as [-> ->]. tauto.
  - apply elem_of_cons in Hin as [?|Hin]; [congruence|].
    destruct (connect_single_frame s k n Hne) as (F1 & F2 & F3). cbn in *.
    rewrite <- F2, <- F3. apply IH; [assumption|assumption|]. now rewrite F1.
Qed.

(** The clients created by [connect_to_servers], and the servers for which
    a connection task is created: the enabled servers without a client. *)
Lemma create_clients_spec (enabled : list (string * MCPServerConfig.t)) (s : manager) :
  NoDup (map fst enabled) ->
  exists names s1,
    MCPClientManager.create_clients enabled s = (Ok names, s1)
    /\ MCPClientManager.connected_servers s1 = MCPClientManager.connected_servers s
    /\ MCPClientManager.available_tools s1 = MCPClientManager.available_tools s
    /\ NoDup names
    /\ (forall n, n ∈ names <-> n ∈ map fst enabled /\ MCPClientManager.clients s !! n = None)
    /\ (forall n c, MCPClientManager.clients s !! n = Some c ->
        MCPClientManager.clients s1 !! n = Some c)
    /\ (forall n cfg, (n, cfg) ∈ enabled -> MCPClientManager.clients s !! n = None ->
        MCPClientManager.clients s1 !! n = Some (MCPClientManager.client_new cfg)).
Proof.
  revert s. induction enabled as [|[k cfg] enabled IH]; intros s Hnd; cbn.
  - exists [], s. unfold ret. split; [reflexivity|]. do 2 (split; [reflexivity|]).
    split; [constructor|]. split; [|split].
    + intros n. split; [intros H; inversion H|intros [H _]; inversion H].
    + auto.
    + intros n cfg H. inversion H.
  - cbn in Hnd. apply NoDup_cons in Hnd as [Hk Hnd]. munfold.
    case_bool_decide as Hsome.
    + destruct (IH s Hnd) as (names & s1 & E & H1 & H2 & H3 & H4 & H5 & H6).
      exists names, s1. rewrite E. split; [reflexivity|]. do 3 (split; [assumption|]).
      split; [|split; [assumption|]].
      * intros n. rewrite H4. split.
        -- intros [Hn Hc]. split; [now right|exact Hc].
        -- intros [Hn Hc]. split; [|exact Hc].
           apply elem_of_cons in Hn as [->|Hn]; [|exact Hn].
           rewrite Hc in Hsome. now destruct Hsome.
      * intros n cfg' Hin Hc. apply elem_of_cons in Hin as [[= -> ->]|Hin].
        -- rewrite Hc in Hsome. now destruct Hsome.
        -- now apply H6.
    + cbn.
      destruct (IH (MCPClientManager.set_clients
                      (<[k := MCPClientManager.client_new cfg]> (MCPClientManager.clients s)) s)
                   Hnd) as (names & s1 & E & H1 & H2 & H3 & H4 & H5 & H6).
      rewrite E. exists (k :: names), s1. cbn in *.
      assert (Hknone : MCPClientManager.clients s !! k = None).
      { destruct (MCPClientManager.clients s !! k); [|reflexivity].
        exfalso. apply Hsome. eauto. }
      assert (Hkn : k ∉ names).
      { intros Hin. apply H4 in Hin as [_ Hc]. now rewrite lookup_insert_eq in Hc. }
      split; [reflexivity|]. do 2 (split; [assumption|]).
      split; [constructor; assumption|]. split; [|split].
      * intros n. split.
        -- intros Hn. apply elem_of_cons in Hn as [->|Hn].
           ++ split; [now left|exact Hknone].
           ++ apply H4 in Hn as [Hn Hc]. split; [now right|].
              destruct (decide (k = n)) as [->|Hne]; [now rewrite lookup_insert_eq in Hc|].
              now rewrite lookup_insert_ne in Hc.
        -- intros [Hn Hc]. apply elem_of_cons in Hn as [->|Hn]; [now left|].
           right. apply H4. split; [exact Hn|].
           destruct (decide (k = n)) as [->|Hne]; [contradiction|].
           now rewrite lookup_insert_ne.
      * intros n c Hc. apply H5.
        destruct (decide (k = n)) as [->|Hne]; [congruence|].
        now rewrite lookup_insert_ne.
      * intros n cfg' Hin Hc. apply elem_of_cons in Hin as [[= -> ->]|Hin].
        -- apply H5. now rewrite lookup_insert_eq.
        -- apply H6; [exact Hin|].
           destruct (decide (k = n)) as [->|Hne].
           ++ exfalso. apply Hk. apply list_elem_of_In.
              change n with (fst (n, cfg')). apply in_map. now apply list_elem_of_In.
           ++ now rewrite lookup_insert_ne.
Qed.

Lemma on_config_frame {A : Type} (m : M MCPConfigManager.state A) (s s' : manager)
    (r : res A) :
  MCPClientManager.on_config m s = (r, s') ->
  MCPClientManager.clients s' = MCPClientManager.clients s
  /\ MCPClientManager.connected_servers s' = MCPClientManager.connected_servers s
  /\ MCPClientManager.available_tools s' = MCPClientManager.available_tools s.
Proof.
  unfold MCPClientManager.on_config.
  destruct (m (MCPClientManager.config_manager s)) as [r' cm']. intros [= _ <-]. auto.
Qed.

(** C6: in [connect_to_servers], from a state whose connected servers and
    cached catalogues all have a client, every enabled server without a
    client gets a connection attempt whose outcome alone decides its fate:
    it ends up in [connected_servers] when its [connect()] returns true,
    and is absent from [connected_servers] and [available_tools] when its
    [connect()] returns false or raises -- whatever the other servers do.
    The batch itself never raises. *)
Theorem connect_failures_are_isolated (s s0 : manager)
    (enabled : list (string * MCPServerConfig.t)) :
  MCPClientManager.enabled_servers s = (Ok enabled, s0) ->
  NoDup (map fst enabled) ->
  MCPClientManager.connected_servers s ⊆ dom (MCPClientManager.clients s) ->
  dom (MCPClientManager.available_tools s) ⊆ dom (MCPClientManager.clients s) ->
  exists s',
    MCPClientManager.connect_to_servers s = (Ok tt, s')
    /\ forall n cfg,
        (n, cfg) ∈ enabled -> MCPClientManager.clients s !! n = None ->
        (fst (MCPClientManager.client_connect (MCPClientManager.client_new cfg)) = Ok true ->
         n ∈ MCPClientManager.connected_servers s')
        /\ (fst (MCPClientManager.client_connect (MCPClientManager.client_new cfg)) <> Ok true ->
            (n ∉ MCPClientManager.connected_servers s')
            /\ MCPClientManager.available_tools s' !! n = None).
Proof.
  intros Hen Hnd Hconn Htools.
  destruct (on_config_frame _ _ _ _ Hen) as (Hc0 & Hs0 & Ht0).
  unfold MCPClientManager.connect_to_servers, Py.bind at 1. rewrite Hen.
  destruct enabled as [|e0 enabled'].
  { exists s0. split; [reflexivity|]. intros n cfg H. inversion H. }
  remember (e0 :: enabled') as enabled eqn:Heq. clear Heq e0 enabled'.
  destruct (create_clients_spec enabled s0 Hnd)
    as (names & s1 & E & H1 & H2 & H3 & H4 & H5 & H6).
  assert (Hfresh : forall n, MCPClientManager.clients s !! n = None ->
                    (n ∉ MCPClientManager.connected_servers s)
                    /\ MCPClientManager.available_tools s !! n = None).
  { intros n Hn. apply not_elem_of_dom in Hn. split.
    - intros Hin. apply Hn, Hconn, Hin.
    - apply not_elem_of_dom. intros Hin. apply Hn, Htools, Hin. }
  assert (Hin_names : forall n cfg, (n, cfg) ∈ enabled ->
                       MCPClientManager.clients s !! n = None -> n ∈ names).
  { intros n cfg Hin Hn. apply H4. split; [|now rewrite Hc0].
    apply list_elem_of_In. change n with (fst (n, cfg)). apply in_map.
    now apply list_elem_of_In. }
  assert (Hgoal : exists s',
            (let* names := MCPClientManager.create_clients enabled in
             match names with
             | [] => ret tt
             | _ => let* _ := MCPClientManager.gather
                                (map MCPClientManager._connect_single_server names) in
                    ret tt
             end) s0 = (Ok tt, s')
            /\ (names = [] /\ s' = s1
                \/ s' = fold_left
                          (fun s n => snd (MCPClientManager._connect_single_server n s))
                          names s1)).
  { unfold Py.bind at 1. rewrite E. destruct names as [|k names'].
    - exists s1. split; [reflexivity|]. left. auto.
    - remember (k :: names') as names eqn:Heq. clear Heq.
      destruct (gather_ok (map MCPClientManager._connect_single_server names) s1)
        as (rs & Hrs & _).
      pose proof (gather_state MCPClientManager._connect_single_server names s1) as Hst.
      unfold Py.bind.
      destruct (MCPClientManager.gather
                  (map MCPClientManager._connect_single_server names) s1) as [x s2].
      cbn in Hrs, Hst. subst x. eexists. split; [reflexivity|]. right. exact Hst. }
  destruct Hgoal as (s' & Hrun & Hs').
  destruct enabled as [|e0 enabled']; [exists s0; split; [reflexivity|];
                                        intros n cfg H; inversion H|].
  exists s'. split; [exact Hrun|].
  intros n cfg Hin Hn.
  pose proof (Hin_names n cfg Hin Hn) as Hnames.
  destruct (Hfresh n Hn) as [Hnc Hnt].
  destruct Hs' as [[-> _] | ->]; [inversion Hnames|].
  assert (Hcl : MCPClientManager.clients s1 !! n = Some (MCPClientManager.client_new cfg)).
  { apply H6; [exact Hin|]. now rewrite Hc0. }
  destruct (fold_connect_own names s1 n _ H3 Hnames Hcl) as [O1 O2]. cbn in O1, O2.
  split; [exact O1|].
  intros Hf. destruct (O2 Hf) as [O3 O4]. rewrite O3, O4, H1, H2, Hs0, Ht0. auto.
Qed.

End ConnectFacts.

Lemma connect_failures_are_isolated_witness :
  @MCPClientManager.enabled_servers _ demo_manager
  = (Ok demo_enabled, snd (@MCPClientManager.enabled_servers _ demo_manager))
  /\ NoDup (map fst demo_enabled)
  /\ MCPClientManager.connected_servers demo_manager
     ⊆ dom (MCPClientManager.clients demo_manager)
  /\ dom (MCPClientManager.available_tools demo_manager)
     ⊆ dom (MCPClientManager.clients demo_manager)
  /\ exists s',
      @MCPClientManager.connect_to_servers _ (MCPClientManager.protocol_client demo_net)
        demo_manager = (Ok tt, s')
      /\ forall n cfg,
          (n, cfg) ∈ demo_enabled -> MCPClientManager.clients demo_manager !! n = None ->
          (fst (MCPProtocolClient.connect (MCPProtocolClient.new cfg, demo_net cfg)) = Ok true ->
           n ∈ MCPClientManager.connected_servers s')
          /\ (fst (MCPProtocolClient.connect (MCPProtocolClient.new cfg, demo_net cfg))
              <> Ok true ->
              (n ∉ MCPClientManager.connected_servers s')
              /\ MCPClientManager.available_tools s' !! n = None).
Proof.
  assert (H1 : @MCPClientManager.enabled_servers _ demo_manager
               = (Ok demo_enabled, snd (@MCPClientManager.enabled_servers _ demo_manager)))
    by (vm_compute; reflexivity).
  assert (H2 : NoDup (map fst demo_enabled)).
  { cbn. repeat constructor; rewrite ?elem_of_cons, ?elem_of_nil; intros H;
      repeat destruct H as [H|H]; try discriminate; assumption. }
  assert (H3 : MCPClientManager.connected_servers demo_manager
               ⊆ dom (MCPClientManager.clients demo_manager)) by (cbn; apply empty_subseteq).
  assert (H4 : dom (MCPClientManager.available_tools demo_manager)
               ⊆ dom (MCPClientManager.clients demo_manager))
    by (cbn; rewrite dom_empty_L; apply empty_subseteq).
  repeat (split; [assumption|]).
  exact (@connect_failures_are_isolated _ (MCPClientManager.protocol_client demo_net)
           demo_manager _ demo_enabled H1 H2 H3 H4).
Defined.

(** The scenario of the partial-failure test: A's [connect()] raises, B and
    C still end up connected, and A is neither connected nor cached. *)
Example connect_isolates_raising_server :
  let s' := snd (@MCPClientManager.connect_to_servers _ (stub_client abc_tag) abc_manager) in
  fst (@MCPClientManager.connect_to_servers _ (stub_client abc_tag) abc_manager) = Ok tt
  /\ "B" ∈ MCPClientManager.connected_servers s'
  /\ "C" ∈ MCPClientManager.connected_servers s'
  /\ ("A" ∉ MCPClientManager.connected_servers s')
  /\ MCPClientManager.available_tools s' !! "A" = None
  /\ MCPClientManager.available_tools s' !! "B" = Some (PList []).
Proof.
  cbv zeta. split; [vm_compute; reflexivity|].
  split; [apply (bool_decide_unpack _); vm_compute; reflexivity|].
  split; [apply (bool_decide_unpack _); vm_compute; reflexivity|].
  split; [apply (bool_decide_unpack _); vm_compute; reflexivity|].
  split; vm_compute; reflexivity.
Qed.

(** [connect] of the protocol client never raises. *)
Lemma connect_never_raises (w : MCPProtocolClient.world) :
  exists b w', MCPProtocolClient.connect w = (Ok b, w').
Proof.
  unfold MCPProtocolClient.connect, Py.try_except.
  match goal with |- context [match ?m w with _ => _ end] => destruct (m w) as [[b|e] w1] end.
  - eauto.
  - unfold MCPProtocolClient.update. munfold. eauto.
Qed.

(** ** Client manager: the aggregate-state invariant *)

(** C8 (the code departs from the claim): a server that answers
    [tools/list] with [{"tools": null}] is connected successfully, but
    [get_available_tools()] then raises inside [_connect_single_server],
    after the server was added to [connected_servers] and before its
    catalogue was stored: the server ends up connected without an entry in
    [available_tools]. *)
Theorem connect_breaks_invariant_on_null_catalogue :
  let run := @MCPClientManager.connect_to_servers _
               (MCPClientManager.protocol_client null_catalogue_net)
               null_catalogue_manager in
  MCPClientManager.aggregate_invariant null_catalogue_manager
  /\ fst run = Ok tt
  /\ "srv" ∈ MCPClientManager.connected_servers (snd run)
  /\ MCPClientManager.available_tools (snd run) !! "srv" = None
  /\ ~ MCPClientManager.aggregate_invariant (snd run).
Proof.
  cbv zeta.
  assert (Hin : "srv" ∈ MCPClientManager.connected_servers
                  (snd (@MCPClientManager.connect_to_servers _
                          (MCPClientManager.protocol_client null_catalogue_net)
                          null_catalogue_manager)))
    by (apply (bool_decide_unpack _); vm_compute; reflexivity).
  assert (Hno : MCPClientManager.available_tools
                  (snd (@MCPClientManager.connect_to_servers _
                          (MCPClientManager.protocol_client null_catalogue_net)
                          null_catalogue_manager)) !! "srv" = None)
    by (vm_compute; reflexivity).
  split; [|split; [|split; [|split]]].
  - unfold MCPClientManager.aggregate_invariant. cbn. now rewrite dom_empty_L.
  - vm_compute. reflexivity.
  - exact Hin.
  - exact Hno.
  - unfold MCPClientManager.aggregate_invariant. intros Heq.
    rewrite Heq in Hin. apply elem_of_dom in Hin. rewrite Hno in Hin. now destruct Hin.
Qed.

(** When [get_available_tools()] cannot raise, every orchestration-level
    operation preserves the invariant. *)
Section InvariantFacts.

Context {C : Type} {P : MCPClientManager.ProtocolClient C}.

Local Abbreviation manager := (MCPClientManager.t C).
Local Abbreviation inv := (@MCPClientManager.aggregate_invariant C).

Hypothesis catalogue_total :
  forall c : C, exists tools c', MCPClientManager.client_get_available_tools c = (Ok tools, c').




Lemma on_client_frame {A : Type} (n : string) (m : M C A) (s : manager) :
  let s' := snd (MCPClientManager.on_client n m s) in
  MCPClientManager.connected_servers s' = MCPClientManager.connected_servers s
  /\ MCPClientManager.available_tools s' = MCPClientManager.available_tools s
  /\ MCPClientManager.config_manager s' = MCPClientManager.config_manager s.
Proof.
  unfold MCPClientManager.on_client.
  destruct (MCPClientManager.clients s !! n) as [c|]; [|auto].
  destruct (m c) as [r c']. auto.
Qed.





Lemma disconnect_from_servers_spec (s : manager) :
  exists s', MCPClientManager.disconnect_from_servers s = (Ok tt, s')
    /\ MCPClientManager.connected_servers s' = ∅
    /\ MCPClientManager.available_tools s' = ∅
    /\ MCPClientManager.clients s' = ∅.
Proof.
  unfold MCPClientManager.disconnect_from_servers.
  unfold Py.bind at 1. unfold Py.gets at 1. unfold Py.bind at 1. unfold Py.gets at 1.
  set (names := filter _ _). unfold Py.bind at 1.
  assert (Hm : exists s1, (match names with
                           | [] => ret tt
                           | _ => let* _ := MCPClientManager.gather
                                    (map (fun n => MCPClientManager.on_client n
                                            MCPClientManager.client_disconnect) names) in
                                  ret tt
                           end) s = (Ok tt, s1)).
  { destruct names as [|k l]; [eexists; reflexivity|].
    destruct (gather_ok (map (fun n => MCPClientManager.on_client n
                                         MCPClientManager.client_disconnect) (k :: l)) s)
      as (rs & Hrs & _).
    unfold Py.bind.
    destruct (MCPClientManager.gather _ s) as [x s1]. cbn in Hrs. subst x.
    eexists. reflexivity. }
  destruct Hm as [s1 ->]. munfold. cbn. eexists. repeat split.
Qed.















End InvariantFacts.

(** ** Tool calls through the protocol client *)

Lemma returns_only_ret {S A : Type} (P : A -> Prop) (a : A) :
  P a -> returns_only (S := S) P (ret a).
Proof. intros Ha s a' s' [= <- _]. exact Ha. Qed.

Lemma returns_only_raise {S A : Type} (P : A -> Prop) (e : exn) :
  returns_only (S := S) P (raise e).
Proof. intros s a' s' H. discriminate H. Qed.

Lemma returns_only_bind {S A B : Type} (P : B -> Prop) (m : M S A) (k : A -> M S B) :
  (forall a, returns_only P (k a)) -> returns_only P (Py.bind m k).
Proof.
  intros Hk s b s'. unfold Py.bind. destruct (m s) as [[a|e] s1]; [apply Hk|discriminate].
Qed.

Lemma returns_only_try_except {S A : Type} (P : A -> Prop) (m : M S A) (h : exn -> M S A) :
  returns_only P m -> (forall e, returns_only P (h e)) -> returns_only P (try_except m h).
Proof.
  intros Hm Hh s a s'. unfold try_except. destruct (m s) as [[a'|e] s1] eqn:E.
  - intros [= <- <-]. eapply Hm, E.
  - apply Hh.
Qed.

Lemma str_eqb_false (a b : string) : str_eqb a b = false <-> a <> b.
Proof. unfold str_eqb. apply bool_decide_eq_false. Qed.

Lemma str_eqb_true (a b : string) : str_eqb a b = true <-> a = b.
Proof. unfold str_eqb. apply bool_decide_eq_true. Qed.

Lemma new_ok (sn tn : string) (ps : pydict) :
  strip sn <> "" -> strip tn <> "" ->
  MCPToolCall.new sn tn ps
  = Ok (MCPToolCall.mk (strip sn) (strip tn) ps PNone None 0 "pending").
Proof.
  intros Hs Ht. unfold MCPToolCall.new, MCPToolCall.validate_names.
  apply str_eqb_false in Hs, Ht. now rewrite Hs, Ht.
Qed.

Lemma new_blank_tool (sn tn : string) (ps : pydict) :
  strip tn = "" -> exists e, MCPToolCall.new sn tn ps = Raise e.
Proof.
  intros Ht. unfold MCPToolCall.new, MCPToolCall.validate_names.
  apply str_eqb_true in Ht. rewrite Ht.
  destruct (str_eqb (strip sn) ""); cbn; eauto.
Qed.

Lemma marked_from_fields (c0 c : MCPToolCall.t) :
  marked_from c0 c ->
  MCPToolCall.tool_name c = MCPToolCall.tool_name c0
  /\ MCPToolCall.server_name c = MCPToolCall.server_name c0
  /\ MCPToolCall.parameters c = MCPToolCall.parameters c0
  /\ MCPToolCall.is_terminal c = true.
Proof. intros [[r e|m e|e] ->]; cbn; auto. Qed.

(** Whatever the server does, a tool call returned by the protocol client
    is the freshly built call after exactly one [mark_*]. *)
Lemma client_call_tool_marks (tool : string) (ps : pydict) (w w' : MCPProtocolClient.world)
    (c : MCPToolCall.t) :
  MCPProtocolClient.call_tool tool ps w = (Ok c, w') ->
  exists c0,
    MCPToolCall.new (MCPServerConfig.name (MCPProtocolClient.config (fst w))) tool ps = Ok c0
    /\ marked_from c0 c.
Proof.
  unfold MCPProtocolClient.call_tool.
  unfold Py.bind at 1. unfold MCPProtocolClient.self at 1. unfold Py.gets at 1.
  unfold Py.bind at 1. unfold Py.lift at 1.
  destruct (MCPToolCall.new _ tool ps) as [c0|e]; [|discriminate].
  intros H. exists c0. split; [reflexivity|].
  assert (Hr : returns_only (marked_from c0)
                 (let* up := MCPProtocolClient.self MCPProtocolClient.is_connected in
                  if negb up
                  then ret (MCPToolCall.mark_error "Not connected to MCP server" 0 c0)
                  else
                    let* start_time := MCPProtocolClient.now in
                    try_except
                      (let* response :=
                         MCPProtocolClient._send_request "tools/call"
                           (PDict [("name", PStr tool); ("arguments", PDict ps)]) None in
                       let* stop := MCPProtocolClient.now in
                       let execution_time := stop - start_time in
                       let* err := lift (py_get response "error" PNone) in
                       if truthy err
                       then ret (MCPToolCall.mark_error (py_str err) execution_time c0)
                       else
                         let* result := lift (py_get response "result" (PDict [])) in
                         ret (MCPToolCall.mark_success result execution_time c0))
                      (fun e =>
                         let* stop := MCPProtocolClient.now in
                         let execution_time := stop - start_time in
                         if exn_class_eqb (exn_class_of e) MCPTimeoutError
                            || exn_class_eqb (exn_class_of e) TimeoutError
                         then ret (MCPToolCall.mark_timeout execution_time c0)
                         else ret (MCPToolCall.mark_error (exn_msg e) execution_time c0)))).
  { apply returns_only_bind. intros up. destruct (negb up).
    - apply returns_only_ret. eexists (MCPToolCall.MarkError _ _). reflexivity.
    - apply returns_only_bind. intros start.
      apply returns_only_try_except.
      + apply returns_only_bind. intros response.
        apply returns_only_bind. intros stop.
        apply returns_only_bind. intros err. destruct (truthy err).
        * apply returns_only_ret. eexists (MCPToolCall.MarkError _ _). reflexivity.
        * apply returns_only_bind. intros result.
          apply returns_only_ret. eexists (MCPToolCall.MarkSuccess _ _). reflexivity.
      + intros e. apply returns_only_bind. intros stop.
        destruct (_ || _); apply returns_only_ret.
        * eexists (MCPToolCall.MarkTimeout _). reflexivity.
        * eexists (MCPToolCall.MarkError _ _). reflexivity. }
  eapply Hr. exact H.
Qed.

Lemma client_call_tool_names (tool : string) (ps : pydict) (w w' : MCPProtocolClient.world)
    (c : MCPToolCall.t) :
  MCPProtocolClient.call_tool tool ps w = (Ok c, w') ->
  MCPToolCall.tool_name c = strip tool /\ MCPToolCall.parameters c = ps
  /\ MCPToolCall.is_terminal c = true.
Proof.
  intros H. apply client_call_tool_marks in H as (c0 & Hnew & Hm).
  apply new_pending in Hnew as (_ & _ & _ & Ht & _ & Hp).
  apply marked_from_fields in Hm as (H1 & _ & H3 & H4).
  rewrite H1, H3, Ht, Hp. auto.
Qed.

(** ** Client manager: parameter validation *)

Lemma find_tool_descriptor (tool : string) (l : list pyval) :
  forallb is_dict l = true ->
  MCPClientManager.find_tool l tool = Ok (option_map PDict (descriptor_of tool l)).
Proof.
  induction l as [|x l IH]; cbn; [reflexivity|].
  intros H. apply andb_true_iff in H as [Hx Hl].
  destruct x as [| | | | |?|d]; try discriminate. cbn.
  unfold named. destruct (dict_get "name" d) as [v|]; cbn.
  - destruct (py_eq_str v tool); [reflexivity|now apply IH].
  - now apply IH.
Qed.

Lemma descriptor_of_named (tool : string) (l : list pyval) (d : pydict) :
  descriptor_of tool l = Some d -> named tool d = true.
Proof.
  induction l as [|x l IH]; cbn; [discriminate|].
  destruct x; auto. destruct (named tool d0) eqn:E; [|auto]. now intros [= <-].
Qed.

Lemma named_truthy (tool : string) (d : pydict) :
  named tool d = true -> truthy (PDict d) = true.
Proof. unfold named. destruct d; [discriminate|reflexivity]. Qed.

Lemma check_required_names (req : list pyval) (ps : pydict) :
  forallb is_str req = true ->
  MCPClientManager.check_required req ps
  = Ok (option_map missing_message (first_missing (map str_of req) ps)).
Proof.
  unfold first_missing. induction req as [|x req IH]; cbn; [reflexivity|].
  intros H. apply andb_true_iff in H as [Hx Hr].
  destruct x; try discriminate. cbn.
  destruct (dict_mem s ps); cbn; [now apply IH|reflexivity].
Qed.

Lemma dict_get_forallb {V : Type} (f : string * V -> bool) (d : list (string * V))
    (k : string) (v : V) :
  forallb f d = true -> dict_get k d = Some v -> exists k', f (k', v) = true.
Proof.
  induction d as [|[k' v'] d IH]; cbn; [discriminate|].
  intros H. apply andb_true_iff in H as [H1 H2].
  destruct (str_eqb k k'); [intros [= <-]; eauto|auto].
Qed.

Lemma check_types_step (k : string) (v : pyval) (ps props : pydict) :
  forallb (fun kv => well_formed_property (snd kv)) props = true ->
  MCPClientManager.check_types ((k, v) :: ps) (PDict props)
  = if rejected props (k, v) then Ok (Some (type_message props (k, v)))
    else MCPClientManager.check_types ps (PDict props).
Proof.
  intros Hwf. unfold rejected, type_message, declared_type. cbn. unfold dict_mem.
  destruct (dict_get k props) as [prop|] eqn:Hk; cbn; [|reflexivity].
  destruct (dict_get_forallb _ _ _ _ Hwf Hk) as [k' Hp]. cbn in Hp.
  destruct prop as [| | | | | |pd]; try discriminate Hp. cbn. cbn in Hp.
  destruct (dict_get "type" pd) as [tyv|] eqn:Hty; cbn; [|reflexivity].
  destruct tyv as [| | | |ty| |]; try discriminate Hp. cbn.
  destruct (str_eqb ty "") eqn:Hempty; cbn.
  - apply str_eqb_true in Hempty. subst ty. reflexivity.
  - destruct (MCPClientManager.isinstance_of ty v) as [[|]|]; reflexivity.
Qed.

Lemma check_types_declared (props ps : pydict) :
  forallb (fun kv => well_formed_property (snd kv)) props = true ->
  MCPClientManager.check_types ps (PDict props)
  = Ok (option_map (type_message props) (first_rejected props ps)).
Proof.
  intros Hwf. unfold first_rejected.
  induction ps as [|[k v] ps IH]; [reflexivity|].
  rewrite check_types_step by exact Hwf. cbn [find].
  destruct (rejected props (k, v)); [reflexivity|exact IH].
Qed.

Lemma validate_against_catalogue (l : list pyval) (server tool : string) (ps : pydict) :
  forallb is_dict l = true ->
  MCPClientManager.validate_against (PList l) server tool ps
  = match descriptor_of tool l with
    | None => Ok (Some (not_found_message server tool))
    | Some d =>
        res_bind (py_get (PDict d) "inputSchema" (PDict [])) (fun input_schema =>
        if negb (truthy input_schema) then Ok None
        else
          res_bind (py_get input_schema "properties" (PDict [])) (fun schema_properties =>
          res_bind (py_get input_schema "required" (PList [])) (fun required_props =>
          res_bind (py_iter required_props) (fun required_list =>
          res_bind (MCPClientManager.check_required required_list ps) (fun missing =>
          match missing with
          | Some msg => Ok (Some msg)
          | None => MCPClientManager.check_types ps schema_properties
          end)))))
    end.
Proof.
  intros Hwf. unfold MCPClientManager.validate_against. cbn [py_iter res_bind].
  rewrite find_tool_descriptor by exact Hwf.
  destruct (descriptor_of tool l) as [d|] eqn:Hd; cbn [option_map res_bind]; [|reflexivity].
  rewrite (named_truthy tool d) by (eapply descriptor_of_named; exact Hd). reflexivity.
Qed.

(** A descriptor without a schema is not validated. *)
Lemma validate_against_no_schema (l : list pyval) (server tool : string) (ps d : pydict) :
  forallb is_dict l = true -> descriptor_of tool l = Some d -> no_input_schema d = true ->
  MCPClientManager.validate_against (PList l) server tool ps = Ok None.
Proof.
  intros Hwf Hd Hno. rewrite validate_against_catalogue by exact Hwf. rewrite Hd.
  unfold no_input_schema in Hno. cbn.
  destruct (dict_get "inputSchema" d) as [[| | | | | |[|x sch]]|]; try discriminate; reflexivity.
Qed.

Lemma first_rejected_nil (ps : pydict) : first_rejected [] ps = None.
Proof.
  unfold first_rejected. induction ps as [|[k v] ps IH]; [reflexivity|]. cbn. exact IH.
Qed.

(** Validation against a well-formed schema: the first missing required
    property is reported, else the first rejected supplied property. *)
Lemma validate_against_schema (l : list pyval) (server tool : string) (ps d : pydict)
    (req : list string) (props : pydict) :
  forallb is_dict l = true -> descriptor_of tool l = Some d ->
  required_names d = Some req -> declared_properties d = Some props ->
  MCPClientManager.validate_against (PList l) server tool ps
  = Ok (match first_missing req ps with
        | Some q => Some (missing_message q)
        | None => option_map (type_message props) (first_rejected props ps)
        end).
Proof.
  intros Hwf Hd Hreq Hprops. rewrite validate_against_catalogue by exact Hwf. rewrite Hd.
  unfold required_names in Hreq. unfold declared_properties in Hprops. cbn.
  destruct (dict_get "inputSchema" d) as [[| | | | | |sch]|]; try discriminate.
  destruct sch as [|x sch'].
  { cbn in *. injection Hreq as <-. injection Hprops as <-.
    now rewrite first_rejected_nil. }
  remember (x :: sch') as sch.
  assert (Ht : truthy (PDict sch) = true) by (subst sch; reflexivity).
  rewrite Ht. cbn [negb py_get res_bind].
  destruct (dict_get "required" sch) as [[| | | | |rq|]|]; try discriminate.
  - destruct (forallb is_str rq) eqn:Hrq; [|discriminate]. injection Hreq as <-.
    cbn [py_iter res_bind]. rewrite check_required_names by exact Hrq. cbn [res_bind].
    destruct (first_missing (map str_of rq) ps); cbn [option_map]; [reflexivity|].
    destruct (dict_get "properties" sch) as [[| | | | | |pp]|]; try discriminate.
    + destruct (forallb _ pp) eqn:Hpp; [|discriminate]. injection Hprops as <-.
      now apply check_types_declared.
    + injection Hprops as <-. now apply check_types_declared.
  - injection Hreq as <-. cbn.
    destruct (dict_get "properties" sch) as [[| | | | | |pp]|]; try discriminate.
    + destruct (forallb _ pp) eqn:Hpp; [|discriminate]. injection Hprops as <-.
      now apply check_types_declared.
    + injection Hprops as <-. now apply check_types_declared.
Qed.

Section CallFacts.

Context {C : Type} {P : MCPClientManager.ProtocolClient C}.

Local Abbreviation manager := (MCPClientManager.t C).

Lemma failed_call_ok {S : Type} (sn tn msg : string) (ps : pydict) (s : S) :
  strip sn <> "" -> strip tn <> "" ->
  MCPClientManager.failed_call sn tn ps msg s
  = (Ok (MCPToolCall.mk (strip sn) (strip tn) ps PNone (Some msg) 0 "error"), s).
Proof.
  intros Hs Ht. unfold MCPClientManager.failed_call. munfold.
  now rewrite (new_ok _ _ _ Hs Ht).
Qed.

(** [call_tool] on a connected server with a client, by the outcome of the
    validation. *)
Lemma call_tool_connected (s : manager) (server tool : string) (ps : pydict) :
  server ∈ MCPClientManager.connected_servers s ->
  is_Some (MCPClientManager.clients s !! server) ->
  MCPClientManager.call_tool server tool ps s
  = match MCPClientManager.validate_against (cached_catalogue s server) server tool ps with
    | Raise e => (Raise e, s)
    | Ok (Some msg) =>
        if str_eqb msg "" then
          MCPClientManager.on_client server (MCPClientManager.client_call_tool tool ps) s
        else
          MCPClientManager.failed_call server tool ps
            ("Parameter validation failed: " +:+ msg) s
    | Ok None =>
        MCPClientManager.on_client server (MCPClientManager.client_call_tool tool ps) s
    end.
Proof.
  intros Hin Hcl. unfold MCPClientManager.call_tool, MCPClientManager._validate_tool_parameters.
  munfold. cbn. rewrite (bool_decide_eq_true_2 _ Hin). cbn.
  rewrite (bool_decide_eq_true_2 _ Hcl). cbn.
  unfold cached_catalogue.
  destruct (MCPClientManager.validate_against _ server tool ps) as [[msg|]|e];
    [destruct (str_eqb msg "")|..]; reflexivity.
Qed.

End CallFacts.

(** The type check of the code rejects exactly the values of another JSON
    type, except that it lets a boolean pass for a number or an integer. *)
Lemma isinstance_false_iff (ty : string) (v : pyval) :
  MCPClientManager.isinstance_of ty v = Some false
  <-> type_mismatch ty v = true /\ bool_for_number ty v = false.
Proof.
  unfold type_mismatch, json_type_matches, MCPClientManager.isinstance_of,
    bool_for_number, str_in_list, basic_types. cbn [existsb].
  destruct (str_eqb ty "string") eqn:E1;
    [apply str_eqb_true in E1; subst ty; destruct v; vm_compute; intuition congruence|].
  destruct (str_eqb ty "number") eqn:E2;
    [apply str_eqb_true in E2; subst ty; destruct v; vm_compute; intuition congruence|].
  destruct (str_eqb ty "integer") eqn:E3;
    [apply str_eqb_true in E3; subst ty; destruct v; vm_compute; intuition congruence|].
  destruct (str_eqb ty "boolean") eqn:E4;
    [apply str_eqb_true in E4; subst ty; destruct v; vm_compute; intuition congruence|].
  destruct (str_eqb ty "array") eqn:E5;
    [apply str_eqb_true in E5; subst ty; destruct v; vm_compute; intuition congruence|].
  destruct (str_eqb ty "object") eqn:E6;
    [apply str_eqb_true in E6; subst ty; destruct v; vm_compute; intuition congruence|].
  cbn. intuition congruence.
Qed.

Lemma rejected_iff (props : pydict) (k : string) (v : pyval) :
  rejected props (k, v) = true
  <-> exists ty, declared_type props k = Some ty
                 /\ type_mismatch ty v = true /\ bool_for_number ty v = false.
Proof.
  unfold rejected. cbn. destruct (declared_type props k) as [ty|].
  - split.
    + intros H. exists ty. split; [reflexivity|]. apply isinstance_false_iff.
      destruct (MCPClientManager.isinstance_of ty v) as [[|]|]; congruence.
    + intros (ty' & [= <-] & H). apply isinstance_false_iff in H. now rewrite H.
  - split; [discriminate|]. intros (ty & H & _). discriminate.
Qed.

Lemma starts_with_app (q post : string) : starts_with q (q +:+ post) = true.
Proof.
  induction q as [|c q IH]; [reflexivity|].
  change (String c q +:+ post) with (String c (q +:+ post)).
  cbn [starts_with]. now rewrite Ascii.eqb_refl, IH.
Qed.

(** A message built around a name contains the name. *)
Lemma str_in_middle (pre q post : string) : str_in q (pre +:+ q +:+ post) = true.
Proof.
  induction pre as [|c pre IH].
  - change ("" +:+ q +:+ post) with (q +:+ post).
    pose proof (starts_with_app q post) as H.
    destruct (q +:+ post); cbn; now rewrite H.
  - change (String c pre +:+ q +:+ post) with (String c (pre +:+ q +:+ post)).
    cbn. rewrite IH. apply orb_true_r.
Qed.

Lemma append_assoc (a b c : string) : (a +:+ b) +:+ c = a +:+ b +:+ c.
Proof.
  induction a as [|x a IH]; [reflexivity|].
  change (String x ((a +:+ b) +:+ c) = String x (a +:+ b +:+ c)). now f_equal.
Qed.

Lemma validation_message_names (q rest : string) (pre : string) :
  str_in q ("Parameter validation failed: " +:+ pre +:+ q +:+ rest) = true.
Proof.
  replace ("Parameter validation failed: " +:+ pre +:+ q +:+ rest)
    with (("Parameter validation failed: " +:+ pre) +:+ q +:+ rest).
  - apply str_in_middle.
  - now rewrite append_assoc.
Qed.

Lemma str_eqb_cons_nil (c : ascii) (r : string) : str_eqb (String c r) "" = false.
Proof. apply str_eqb_false. discriminate. Qed.

Section GateFacts.

Context {C : Type} {P : MCPClientManager.ProtocolClient C}.

Local Abbreviation manager := (MCPClientManager.t C).

Lemma well_formed_catalogue_list (v : pyval) :
  well_formed_catalogue v = true -> exists l, v = PList l /\ forallb is_dict l = true.
Proof. destruct v; try discriminate. eauto. Qed.

(** C5 (amended): on a connected server, for a tool with a non-blank name
    whose cached descriptor has a well-formed schema, a missing required
    property or a supplied value of another JSON type than declared (other
    than a boolean for a number or an integer) makes [call_tool] return at
    once an [error] tool call whose message names such a property; the
    manager, its clients and their transports are left untouched. *)
Theorem validation_gate (s : manager) (server tool : string) (ps d : pydict)
    (req : list string) (props : pydict) :
  server ∈ MCPClientManager.connected_servers s ->
  is_Some (MCPClientManager.clients s !! server) ->
  strip server <> "" -> strip tool <> "" ->
  well_formed_catalogue (cached_catalogue s server) = true ->
  cached_descriptor s server tool = Some d ->
  required_names d = Some req -> declared_properties d = Some props ->
  (exists p, missing_required req ps p \/ mistyped props ps p) ->
  exists q msg,
    (missing_required req ps q \/ mistyped props ps q)
    /\ MCPClientManager.call_tool server tool ps s
       = (Ok (MCPToolCall.mk (strip server) (strip tool) ps PNone (Some msg) 0 "error"), s)
    /\ str_in q msg = true.
Proof.
  intros Hin Hcl Hsn Htn Hwf Hd Hreq Hprops Hbad.
  apply well_formed_catalogue_list in Hwf as (l & Hcat & Hl).
  unfold cached_descriptor in Hd. rewrite Hcat in Hd.
  rewrite call_tool_connected by assumption. rewrite Hcat.
  rewrite (validate_against_schema l server tool ps d req props) by assumption.
  destruct (first_missing req ps) as [q|] eqn:Hmiss.
  - apply find_some in Hmiss as [Hq Hm]. apply negb_true_iff in Hm.
    exists q, ("Parameter validation failed: " +:+ missing_message q).
    split; [left; split; assumption|]. split.
    + change (missing_message q) with (String "R" ("equired parameter '" +:+ q +:+ "' is missing")).
      rewrite str_eqb_cons_nil. now apply failed_call_ok.
    + apply validation_message_names.
  - assert (Hrej : exists kv, first_rejected props ps = Some kv).
    { destruct Hbad as [p [[Hp Hm]|(v & ty & Hv & Hty & Hmm & Hb)]].
      - pose proof (find_none _ _ Hmiss p Hp) as Hn. cbv beta in Hn.
        rewrite Hm in Hn. discriminate.
      - destruct (first_rejected props ps) as [kv|] eqn:Hf; [eauto|].
        pose proof (find_none _ _ Hf (p, v) Hv) as Hn.
        assert (Hr : rejected props (p, v) = true) by (apply rejected_iff; eauto).
        rewrite Hr in Hn. discriminate. }
    destruct Hrej as [[k v] Hf]. rewrite Hf. cbn [option_map].
    apply find_some in Hf as [Hkv Hr]. apply rejected_iff in Hr as (ty & Hty & Hmm & Hb).
    exists k, ("Parameter validation failed: " +:+ type_message props (k, v)).
    split; [right; exists v, ty; auto|]. split.
    + change (type_message props (k, v))
        with (String "P" ("arameter '" +:+ k +:+ "' has invalid type. Expected: "
                +:+ match declared_type props k with Some ty => ty | None => "" end)).
      rewrite str_eqb_cons_nil. now apply failed_call_ok.
    + apply validation_message_names.
Qed.

(** C10 (amended): on a connected server whose cached catalogue is a list
    of descriptors, a tool whose descriptor has no (or an empty)
    [inputSchema] is not validated -- the call is the protocol client's
    [call_tool] on the supplied name and parameters, whatever they are --
    while a non-blank tool name that no descriptor carries gives at once
    an [error] tool call, the manager, its clients and their transports
    being left untouched. *)
Theorem schemaless_tools_skip_validation (s : manager) (server tool : string)
    (ps : pydict) :
  server ∈ MCPClientManager.connected_servers s ->
  is_Some (MCPClientManager.clients s !! server) ->
  well_formed_catalogue (cached_catalogue s server) = true ->
  (forall d, cached_descriptor s server tool = Some d -> no_input_schema d = true ->
             MCPClientManager.call_tool server tool ps s
             = MCPClientManager.on_client server
                 (MCPClientManager.client_call_tool tool ps) s)
  /\ (cached_descriptor s server tool = None ->
      strip server <> "" -> strip tool <> "" ->
      MCPClientManager.call_tool server tool ps s
      = (Ok (MCPToolCall.mk (strip server) (strip tool) ps PNone
               (Some ("Parameter validation failed: " +:+ not_found_message server tool))
               0 "error"), s)).
Proof.
  intros Hin Hcl Hwf.
  apply well_formed_catalogue_list in Hwf as (l & Hcat & Hl).
  unfold cached_descriptor. rewrite Hcat. split.
  - intros d Hd Hno. rewrite call_tool_connected by assumption. rewrite Hcat.
    now rewrite (validate_against_no_schema l server tool ps d).
  - intros Hd Hsn Htn. rewrite call_tool_connected by assumption. rewrite Hcat.
    rewrite validate_against_catalogue by exact Hl. rewrite Hd.
    change (not_found_message server tool)
      with (String "T" ("ool '" +:+ tool +:+ "' not found on server '" +:+ server +:+ "'")).
    rewrite str_eqb_cons_nil. now apply failed_call_ok.
Qed.

End GateFacts.

Lemma gate_manager_connected :
  "weather-server" ∈ MCPClientManager.connected_servers gate_manager
  /\ is_Some (MCPClientManager.clients gate_manager !! "weather-server").
Proof.
  split; [apply elem_of_singleton; reflexivity|].
  cbn. rewrite lookup_singleton_eq. eauto.
Qed.

Lemma validation_gate_witness :
  "weather-server" ∈ MCPClientManager.connected_servers gate_manager
  /\ is_Some (MCPClientManager.clients gate_manager !! "weather-server")
  /\ strip "weather-server" <> "" /\ strip "get_forecast" <> ""
  /\ well_formed_catalogue (cached_catalogue gate_manager "weather-server") = true
  /\ cached_descriptor gate_manager "weather-server" "get_forecast"
     = Some forecast_descriptor
  /\ required_names forecast_descriptor = Some ["location"]
  /\ declared_properties forecast_descriptor = Some forecast_properties
  /\ (exists p, missing_required ["location"] [] p \/ mistyped forecast_properties [] p)
  /\ exists q msg,
      (missing_required ["location"] [] q \/ mistyped forecast_properties [] q)
      /\ @MCPClientManager.call_tool _ (MCPClientManager.protocol_client demo_net)
           "weather-server" "get_forecast" [] gate_manager
         = (Ok (MCPToolCall.mk (strip "weather-server") (strip "get_forecast") [] PNone
                  (Some msg) 0 "error"), gate_manager)
      /\ str_in q msg = true.
Proof.
  destruct gate_manager_connected as [H1 H2].
  assert (H3 : strip "weather-server" <> "") by (vm_compute; discriminate).
  assert (H4 : strip "get_forecast" <> "") by (vm_compute; discriminate).
  assert (H5 : well_formed_catalogue (cached_catalogue gate_manager "weather-server") = true)
    by (vm_compute; reflexivity).
  assert (H6 : cached_descriptor gate_manager "weather-server" "get_forecast"
               = Some forecast_descriptor) by (vm_compute; reflexivity).
  assert (H7 : required_names forecast_descriptor = Some ["location"])
    by (vm_compute; reflexivity).
  assert (H8 : declared_properties forecast_descriptor = Some forecast_properties)
    by (vm_compute; reflexivity).
  assert (H9 : exists p, missing_required ["location"] [] p
                         \/ mistyped forecast_properties [] p).
  { exists "location". left. split; [now left|reflexivity]. }
  repeat (split; [assumption|]).
  exact (@validation_gate _ (MCPClientManager.protocol_client demo_net) gate_manager
           "weather-server" "get_forecast" [] forecast_descriptor ["location"]
           forecast_properties H1 H2 H3 H4 H5 H6 H7 H8 H9).
Defined.

(** C5 (claim as stated fails): [days] is declared an integer and is
    supplied as the boolean [true], a value of another JSON type; the
    validation lets it pass, the request goes out on the wire and the call
    succeeds. *)
Lemma validation_gate_counterexample :
  let ps := [("location", PStr "Boston"); ("days", PBool true)] in
  let run := @MCPClientManager.call_tool _ (MCPClientManager.protocol_client demo_net)
               "weather-server" "get_forecast" ps gate_manager in
  cached_descriptor gate_manager "weather-server" "get_forecast" = Some forecast_descriptor
  /\ declared_type forecast_properties "days" = Some "integer"
  /\ type_mismatch "integer" (PBool true) = true
  /\ wire gate_manager "weather-server" = []
  /\ fst run
     = Ok (MCPToolCall.mk "weather-server" "get_forecast" ps
             (PDict [("forecast", PStr "sunny")]) None 1 "success")
  /\ wire (snd run) "weather-server"
     = [tools_call_request "weather-server-3" "get_forecast" ps].
Proof.
  cbv zeta. repeat split; vm_compute; reflexivity.
Qed.

Lemma schemaless_tools_skip_validation_witness :
  "weather-server" ∈ MCPClientManager.connected_servers gate_manager
  /\ is_Some (MCPClientManager.clients gate_manager !! "weather-server")
  /\ well_formed_catalogue (cached_catalogue gate_manager "weather-server") = true
  /\ (forall d, cached_descriptor gate_manager "weather-server" "ping_tool" = Some d ->
                no_input_schema d = true ->
                @MCPClientManager.call_tool _ (MCPClientManager.protocol_client demo_net)
                  "weather-server" "ping_tool" [("anything", PInt 1)] gate_manager
                = MCPClientManager.on_client "weather-server"
                    (MCPProtocolClient.call_tool "ping_tool" [("anything", PInt 1)])
                    gate_manager)
  /\ (cached_descriptor gate_manager "weather-server" "ping_tool" = None ->
      strip "weather-server" <> "" -> strip "ping_tool" <> "" ->
      @MCPClientManager.call_tool _ (MCPClientManager.protocol_client demo_net)
        "weather-server" "ping_tool" [("anything", PInt 1)] gate_manager
      = (Ok (MCPToolCall.mk (strip "weather-server") (strip "ping_tool")
               [("anything", PInt 1)] PNone
               (Some ("Parameter validation failed: "
                        +:+ not_found_message "weather-server" "ping_tool"))
               0 "error"), gate_manager)).
Proof.
  destruct gate_manager_connected as [H1 H2].
  assert (H3 : well_formed_catalogue (cached_catalogue gate_manager "weather-server") = true)
    by (vm_compute; reflexivity).
  repeat (split; [assumption|]).
  exact (@schemaless_tools_skip_validation _ (MCPClientManager.protocol_client demo_net)
           gate_manager "weather-server" "ping_tool" [("anything", PInt 1)] H1 H2 H3).
Defined.

(** C10 (claim as stated fails): the empty tool name is absent from the
    catalogue, yet [call_tool] does not return an [error] tool call: the
    construction of the tool call raises. *)
Lemma absent_tool_counterexample :
  cached_descriptor gate_manager "weather-server" "" = None
  /\ @MCPClientManager.call_tool _ (MCPClientManager.protocol_client demo_net)
       "weather-server" "" [] gate_manager
     = (Raise (Exn ValidationError "server_name and tool_name cannot be empty"),
        gate_manager).
Proof. split; vm_compute; reflexivity. Qed.

(** ** Client manager: parallel batches *)

Lemma returns_only_on_client {C A : Type} (P : A -> Prop) (n : string) (m : M C A) :
  returns_only P m -> returns_only P (MCPClientManager.on_client n m).
Proof.
  intros Hm s a s'. unfold MCPClientManager.on_client.
  destruct (MCPClientManager.clients s !! n) as [c|]; [|discriminate].
  destruct (m c) as [r c'] eqn:E. intros [= -> _]. eapply Hm, E.
Qed.

Lemma returns_only_failed_call {S : Type} (sn tn msg : string) (ps : pydict) :
  returns_only (S := S) (fun c => MCPToolCall.tool_name c = strip tn)
    (MCPClientManager.failed_call sn tn ps msg).
Proof.
  intros s c s'. unfold MCPClientManager.failed_call. munfold.
  destruct (MCPToolCall.new sn tn ps) as [c0|e] eqn:E; [|discriminate].
  intros [= <- _]. apply new_pending in E as (_ & _ & _ & Ht & _). exact Ht.
Qed.

(** A tool call returned by the manager's [call_tool] carries the
    requested tool name, stripped. *)
Lemma manager_call_tool_names (net : MCPServerConfig.t -> MCPProtocolClient.io)
    (server tool : string) (ps : pydict) :
  returns_only (fun c => MCPToolCall.tool_name c = strip tool)
    (@MCPClientManager.call_tool _ (MCPClientManager.protocol_client net) server tool ps).
Proof.
  assert (Hd : returns_only (fun c => MCPToolCall.tool_name c = strip tool)
                 (MCPClientManager.on_client (C := MCPProtocolClient.world) server
                    (MCPProtocolClient.call_tool tool ps))).
  { apply returns_only_on_client. intros w c w' H.
    now apply client_call_tool_names in H as [H _]. }
  unfold MCPClientManager.call_tool.
  apply returns_only_bind. intros connected.
  destruct (negb _); [apply returns_only_failed_call|].
  apply returns_only_bind. intros cs.
  destruct (negb _); [apply returns_only_failed_call|].
  apply returns_only_bind. intros [msg|]; [|exact Hd].
  destruct (str_eqb msg ""); [exact Hd|apply returns_only_failed_call].
Qed.

(** Outcome [i] of a batch is the outcome of task [i], run from some state. *)
Lemma gather_lookup {S A X : Type} (f : X -> M S A) (xs : list X) (s s' : S)
    (rs : list (res A)) :
  MCPClientManager.gather (map f xs) s = (Ok rs, s') ->
  length rs = length xs
  /\ forall i x r, xs !! i = Some x -> rs !! i = Some r ->
                   exists s0 s1, f x s0 = (r, s1).
Proof.
  revert s s' rs. induction xs as [|x xs IH]; intros s s' rs; cbn.
  - intros [= <- _]. split; [reflexivity|]. intros i x r H. now rewrite lookup_nil in H.
  - unfold Py.bind at 1. unfold MCPClientManager.attempt at 1.
    destruct (f x s) as [r0 s1] eqn:E0.
    unfold Py.bind at 1.
    destruct (MCPClientManager.gather (map f xs) s1) as [[rs'|e] s2] eqn:E1; [|discriminate].
    intros [= <- _]. destruct (IH _ _ _ E1) as [Hlen Hi]. split; [cbn; now rewrite Hlen|].
    intros [|i] y r; cbn.
    + intros [= <-] [= <-]. eauto.
    + apply Hi.
Qed.

Lemma convert_results_settles {C : Type} (specs : list MCPClientManager.call_spec)
    (rs : list (res MCPToolCall.t)) (s : MCPClientManager.t C) :
  Forall named_spec specs -> length rs = length specs ->
  MCPClientManager.convert_results specs rs s = (Ok (zip_with settle specs rs), s).
Proof.
  intros Hn. revert rs. induction Hn as [|sp specs [Hs Ht] Hn IH]; intros rs Hlen.
  - destruct rs; [reflexivity|discriminate].
  - destruct rs as [|r rs]; [discriminate|]. cbn in Hlen. injection Hlen as Hlen.
    cbn [MCPClientManager.convert_results zip_with]. unfold Py.bind at 1.
    assert (Hfin : (match r with
                    | Raise e =>
                        MCPClientManager.failed_call (MCPClientManager.spec_server_name sp)
                          (MCPClientManager.spec_tool_name sp) (MCPClientManager.spec_params sp)
                          ("Tool call failed: " +:+ exn_msg e)
                    | Ok tool_call => ret tool_call
                    end) s = (Ok (settle sp r), s)).
    { destruct r as [c|e]; [reflexivity|]. cbn [settle].
      unfold MCPClientManager.failed_call. munfold. now rewrite (new_ok _ _ _ Hs Ht). }
    rewrite Hfin. unfold Py.bind. rewrite (IH rs Hlen). reflexivity.
Qed.

(** C1 (amended): for every batch of specs whose server and tool names are
    non-blank, [call_tools_parallel] returns a list as long as the batch
    whose entry [i] carries the tool name of spec [i], stripped of
    surrounding whitespace; entry [i] is the tool call that call [i]
    returned, and for a call that raised it is an [error] tool call built
    from spec [i]. *)
Theorem call_tools_parallel_order (net : MCPServerConfig.t -> MCPProtocolClient.io)
    (s : MCPClientManager.t MCPProtocolClient.world)
    (specs : list MCPClientManager.call_spec) :
  Forall named_spec specs ->
  exists rs s' results,
    MCPClientManager.gather (map (spec_task net) specs) s = (Ok rs, s')
    /\ @MCPClientManager.call_tools_parallel _ (MCPClientManager.protocol_client net) specs s
       = (Ok results, s')
    /\ length results = length specs
    /\ forall i sp, specs !! i = Some sp ->
        exists r o, results !! i = Some r /\ rs !! i = Some o
          /\ r = settle sp o
          /\ MCPToolCall.tool_name r = strip (MCPClientManager.spec_tool_name sp)
          /\ (raises o = true -> MCPToolCall.status r = "error").
Proof.
  intros Hn.
  destruct (gather_ok (map (spec_task net) specs) s) as (rs & Hrs & _).
  destruct (MCPClientManager.gather (map (spec_task net) specs) s) as [x s'] eqn:Eg.
  cbn in Hrs. subst x.
  destruct (gather_lookup _ _ _ _ _ Eg) as [Hlen Hi].
  exists rs, s', (zip_with settle specs rs). split; [reflexivity|].
  split; [|split].
  - unfold MCPClientManager.call_tools_parallel.
    destruct specs as [|sp0 specs'].
    + cbn in Eg. injection Eg as <- <-. reflexivity.
    + remember (sp0 :: specs') as specs. unfold Py.bind.
      change (map _ specs) with (map (spec_task net) specs). rewrite Eg.
      now apply convert_results_settles.
  - rewrite length_zip_with. lia.
  - intros i sp Hsp.
    destruct (lookup_lt_is_Some_2 rs i) as [o Ho];
      [rewrite Hlen; eapply lookup_lt_Some; exact Hsp|].
    exists (settle sp o), o. split; [|split; [exact Ho|split; [reflexivity|split]]].
    + rewrite lookup_zip_with, Hsp. cbn. rewrite Ho. reflexivity.
    + destruct o as [c|e]; [|reflexivity]. cbn.
      destruct (Hi i sp (Ok c) Hsp Ho) as (s0 & s1 & Hrun).
      eapply manager_call_tool_names. exact Hrun.
    + destruct o; [discriminate|reflexivity].
Qed.

Lemma call_tools_parallel_order_witness :
  Forall named_spec demo_batch
  /\ exists rs s' results,
      MCPClientManager.gather (map (spec_task demo_net) demo_batch) gate_manager
      = (Ok rs, s')
      /\ @MCPClientManager.call_tools_parallel _ (MCPClientManager.protocol_client demo_net)
           demo_batch gate_manager = (Ok results, s')
      /\ length results = length demo_batch
      /\ forall i sp, demo_batch !! i = Some sp ->
          exists r o, results !! i = Some r /\ rs !! i = Some o
            /\ r = settle sp o
            /\ MCPToolCall.tool_name r = strip (MCPClientManager.spec_tool_name sp)
            /\ (raises o = true -> MCPToolCall.status r = "error").
Proof.
  assert (H : Forall named_spec demo_batch).
  { repeat constructor; cbn; vm_compute; discriminate. }
  split; [exact H|].
  exact (call_tools_parallel_order demo_net gate_manager demo_batch H).
Defined.

(** C1 (claim as stated fails): the tool name of a spec is stripped by the
    tool call's validator, so a name with surrounding whitespace does not
    come back as it went in. *)
Lemma call_tools_parallel_counterexample :
  let sp := MCPClientManager.mk_spec "calc-server" " calculate " None in
  exists r,
    fst (@MCPClientManager.call_tools_parallel _ (MCPClientManager.protocol_client demo_net)
           [sp] gate_manager) = Ok [r]
    /\ MCPToolCall.tool_name r = "calculate"
    /\ MCPToolCall.tool_name r <> MCPClientManager.spec_tool_name sp.
Proof.
  cbv zeta. eexists. split; [vm_compute; reflexivity|]. split; [reflexivity|].
  cbn. discriminate.
Qed.

(** A call that raises (here on a malformed cached schema) becomes an
    [error] tool call at its place in the batch. *)
Example call_tools_parallel_converts_raise :
  exists e,
    fst (@MCPClientManager.call_tool _ (MCPClientManager.protocol_client demo_net)
           "weather-server" "broken" [] broken_manager) = Raise e
    /\ fst (@MCPClientManager.call_tools_parallel _ (MCPClientManager.protocol_client demo_net)
              [MCPClientManager.mk_spec "calc-server" "calculate" None;
               MCPClientManager.mk_spec "weather-server" "broken" None] broken_manager)
       = Ok [MCPToolCall.mk "calc-server" "calculate" [] PNone
               (Some "Server 'calc-server' is not connected") 0 "error";
             MCPToolCall.mk "weather-server" "broken" [] PNone
               (Some ("Tool call failed: " +:+ exn_msg e)) 0 "error"].
Proof. eexists. split; vm_compute; reflexivity. Qed.

(** With a blank tool name in the batch, building the error call raises in
    turn and the whole batch raises. *)
Example call_tools_parallel_blank_name :
  fst (@MCPClientManager.call_tools_parallel _ (MCPClientManager.protocol_client demo_net)
         [MCPClientManager.mk_spec "calc-server" "calculate" None;
          MCPClientManager.mk_spec "weather-server" "  " None] gate_manager)
  = Raise (Exn ValidationError "server_name and tool_name cannot be empty").
Proof. vm_compute. reflexivity. Qed.

(** ** Protocol client: requests, connection, calls *)

Lemma keeps_ret {X A : Type} (f : MCPProtocolClient.t -> X) (a : A) : keeps f (ret a).
Proof. intros w. reflexivity. Qed.

Lemma keeps_raise {X A : Type} (f : MCPProtocolClient.t -> X) (e : exn) :
  keeps (A := A) f (raise e).
Proof. intros w. reflexivity. Qed.

Lemma keeps_lift {X A : Type} (f : MCPProtocolClient.t -> X) (r : res A) : keeps f (lift r).
Proof. intros w. reflexivity. Qed.

Lemma keeps_self {X A : Type} (f : MCPProtocolClient.t -> X) (g : MCPProtocolClient.t -> A) :
  keeps f (MCPProtocolClient.self g).
Proof. intros w. reflexivity. Qed.

Lemma keeps_now {X : Type} (f : MCPProtocolClient.t -> X) : keeps f MCPProtocolClient.now.
Proof. intros w. reflexivity. Qed.

Lemma keeps_await {X : Type} (f : MCPProtocolClient.t -> X) : keeps f MCPProtocolClient.await.
Proof. intros w. reflexivity. Qed.

Lemma keeps_await_send {X : Type} (f : MCPProtocolClient.t -> X) (msg : pyval) :
  keeps f (MCPProtocolClient.await_send msg).
Proof. intros w. reflexivity. Qed.

Lemma keeps_update {X : Type} (f : MCPProtocolClient.t -> X)
    (g : MCPProtocolClient.t -> MCPProtocolClient.t) :
  (forall c, f (g c) = f c) -> keeps f (MCPProtocolClient.update g).
Proof. intros H w. apply H. Qed.

Lemma keeps_bind {X A B : Type} (f : MCPProtocolClient.t -> X)
    (m : M MCPProtocolClient.world A) (k : A -> M MCPProtocolClient.world B) :
  keeps f m -> (forall a, keeps f (k a)) -> keeps f (Py.bind m k).
Proof.
  intros Hm Hk w. unfold Py.bind. specialize (Hm w).
  destruct (m w) as [[a|e] w1]; cbn in *; [|exact Hm].
  rewrite <- Hm. apply Hk.
Qed.

Lemma keeps_try_except {X A : Type} (f : MCPProtocolClient.t -> X)
    (m : M MCPProtocolClient.world A) (h : exn -> M MCPProtocolClient.world A) :
  keeps f m -> (forall e, keeps f (h e)) -> keeps f (try_except m h).
Proof.
  intros Hm Hh w. unfold try_except. specialize (Hm w).
  destruct (m w) as [[a|e] w1]; cbn in *; [exact Hm|].
  rewrite <- Hm. apply Hh.
Qed.

Lemma keeps_try_except_class {X A : Type} (f : MCPProtocolClient.t -> X) (c : exn_class)
    (m : M MCPProtocolClient.world A) (h : exn -> M MCPProtocolClient.world A) :
  keeps f m -> (forall e, keeps f (h e)) -> keeps f (try_except_class c m h).
Proof.
  intros Hm Hh. unfold try_except_class. apply keeps_try_except; [exact Hm|].
  intros e. destruct (exn_class_eqb _ _); [apply Hh|apply keeps_raise].
Qed.

Ltac keeps_step :=
  first
    [ apply keeps_ret | apply keeps_raise | apply keeps_lift | apply keeps_self
    | apply keeps_now | apply keeps_await | apply keeps_await_send
    | apply keeps_update; intros []; reflexivity
    | apply keeps_bind; [|intros ?]
    | apply keeps_try_except_class; [|intros ?]
    | apply keeps_try_except; [|intros ?]
    | match goal with |- keeps _ (if ?b then _ else _) => destruct b end
    | match goal with |- keeps _ (match ?x with _ => _ end) => destruct x end ].

(** The transport of a client: its connection type and both handles. *)
Lemma send_request_keeps_transport (method : string) (params : pyval) (timeout : option Z) :
  keeps (fun c => (MCPProtocolClient.connection_type c, MCPProtocolClient.session c,
                   MCPProtocolClient.websocket c))
    (MCPProtocolClient._send_request method params timeout).
Proof.
  unfold MCPProtocolClient._send_request, MCPProtocolClient._get_next_request_id,
    MCPProtocolClient._send_websocket_request, MCPProtocolClient._send_http_request.
  repeat keeps_step.
Qed.

(** * Further properties of the code *)

Lemma get_next_request_id_spec (c : MCPProtocolClient.t) (e : MCPProtocolClient.io) :
  MCPProtocolClient._get_next_request_id (c, e)
  = (Ok (request_id (MCPServerConfig.name (MCPProtocolClient.config c))
           (S (MCPProtocolClient._request_id_counter c))),
     (MCPProtocolClient.set_request_id_counter (S (MCPProtocolClient._request_id_counter c)) c,
      e)).
Proof. destruct c. reflexivity. Qed.

Lemma append_inj_l (p a b : string) : p +:+ a = p +:+ b -> a = b.
Proof.
  induction p as [|x p IH]; [auto|].
  change (String x (p +:+ a) = String x (p +:+ b) -> a = b). intros [= H]. auto.
Qed.

(** Distinct request numbers give distinct request ids. *)
Lemma request_id_inj (name : string) (n m : nat) :
  request_id name n = request_id name m -> n = m.
Proof.
  unfold request_id. intros H. apply append_inj_l in H.
  change (String "-" (pretty n) = String "-" (pretty m)) in H.
  injection H as H. now apply pretty_nat_inj in H.
Qed.

(** X1: every [_send_request] takes the next request number, whatever
    happens to the request: the counter grows by exactly one, and the only
    message the call can put on the wire is the request carrying the id
    built from the new number. *)
Theorem send_request_numbering (method : string) (params : pyval) (timeout : option Z)
    (c : MCPProtocolClient.t) (e : MCPProtocolClient.io) :
  let w' := snd (MCPProtocolClient._send_request method params timeout (c, e)) in
  let id := request_id (MCPServerConfig.name (MCPProtocolClient.config c))
              (S (MCPProtocolClient._request_id_counter c)) in
  MCPProtocolClient._request_id_counter (fst w') = S (MCPProtocolClient._request_id_counter c)
  /\ (MCPProtocolClient.sent (snd w') = MCPProtocolClient.sent e
      \/ MCPProtocolClient.sent (snd w')
         = MCPProtocolClient.sent e ++ [rpc_request id method params])
  /\ (forall n, (n <= MCPProtocolClient._request_id_counter c)%nat ->
                request_id (MCPServerConfig.name (MCPProtocolClient.config c)) n <> id).
Proof.
  cbv zeta. split; [|split].
  - unfold MCPProtocolClient._send_request. unfold Py.bind at 1.
    rewrite get_next_request_id_spec.
    match goal with
    | |- MCPProtocolClient._request_id_counter (fst (snd (?m ?w1))) = _ =>
        assert (Hk : keeps MCPProtocolClient._request_id_counter m);
        [|rewrite (Hk w1); destruct c; reflexivity]
    end.
    unfold MCPProtocolClient._send_websocket_request, MCPProtocolClient._send_http_request.
    repeat keeps_step.
  - destruct c as [cfg ss ws ct up tools info n], e as [sc ck cur snt].
    unfold MCPProtocolClient._send_request, MCPProtocolClient._get_next_request_id,
      MCPProtocolClient._send_websocket_request, MCPProtocolClient._send_http_request,
      MCPProtocolClient.self, MCPProtocolClient.update, MCPProtocolClient.await,
      MCPProtocolClient.await_send, rpc_request, request_id. munfold. cbn.
    destruct ct as [ct|]; cbn; [|now left].
    destruct (str_eqb ct "websocket"); cbn.
    + destruct ws; cbn; [|now left].
      destruct (sc cur); cbn; try (now right).
      destruct (sc (S cur)); cbn; now right.
    + destruct (str_eqb ct "http"); cbn; [|now left].
      destruct ss; cbn; [|now left].
      destruct (sc cur); cbn; now right.
  - intros n Hn H. apply request_id_inj in H. lia.
Qed.

Lemma send_request_numbering_witness :
  let w' := snd (MCPProtocolClient._send_request "ping" (PDict []) None
                   (http_client "srv", demo_io (fun _ => MCPProtocolClient.IoTimeout))) in
  MCPProtocolClient._request_id_counter (fst w') = 3%nat
  /\ (MCPProtocolClient.sent (snd w') = []
      \/ MCPProtocolClient.sent (snd w')
         = [] ++ [rpc_request (request_id "srv" 3) "ping" (PDict [])])
  /\ (forall n, (n <= 2)%nat -> request_id "srv" n <> request_id "srv" 3).
Proof.
  exact (send_request_numbering "ping" (PDict []) None (http_client "srv")
           (demo_io (fun _ => MCPProtocolClient.IoTimeout))).
Defined.

Lemma bind_ok {S A B : Type} (m : M S A) (k : A -> M S B) (s s' : S) (b : B) :
  Py.bind m k s = (Ok b, s') -> exists a s1, m s = (Ok a, s1) /\ k a s1 = (Ok b, s').
Proof. unfold Py.bind. destruct (m s) as [[a|e] s1]; [eauto|discriminate]. Qed.

Lemma connect_websocket_opens (w w1 : MCPProtocolClient.world) :
  MCPProtocolClient._connect_websocket w = (Ok tt, w1) ->
  MCPProtocolClient.connection_type (fst w1) = Some "websocket"
  /\ MCPProtocolClient.websocket (fst w1) <> None.
Proof.
  destruct w as [[cfg ss ws ct up tools info n] [sc ck cur snt]].
  unfold MCPProtocolClient._connect_websocket, MCPProtocolClient.await,
    MCPProtocolClient.self, MCPProtocolClient.update. munfold. cbn.
  destruct (sc cur); cbn; intros [= <-]. now split.
Qed.

Lemma connect_http_opens (w w1 : MCPProtocolClient.world) :
  MCPProtocolClient._connect_http w = (Ok tt, w1) ->
  MCPProtocolClient.connection_type (fst w1) = Some "http"
  /\ MCPProtocolClient.session (fst w1) <> None.
Proof.
  destruct w as [[cfg ss ws ct up tools info n] [sc ck cur snt]].
  unfold MCPProtocolClient._connect_http, MCPProtocolClient.await,
    MCPProtocolClient.self, MCPProtocolClient.update. munfold. cbn.
  destruct (sc cur); cbn; intros [= <-]. now split.
Qed.

Lemma send_notification_keeps_transport (method : string) :
  keeps (fun c => (MCPProtocolClient.connection_type c, MCPProtocolClient.session c,
                   MCPProtocolClient.websocket c))
    (MCPProtocolClient._send_notification method).
Proof. unfold MCPProtocolClient._send_notification. repeat keeps_step. Qed.

Lemma discover_tools_keeps_transport :
  keeps (fun c => (MCPProtocolClient.connection_type c, MCPProtocolClient.session c,
                   MCPProtocolClient.websocket c))
    MCPProtocolClient._discover_tools.
Proof.
  unfold MCPProtocolClient._discover_tools.
  apply keeps_try_except; [|intros ?; apply keeps_ret].
  apply keeps_bind; [apply send_request_keeps_transport|intros ?].
  repeat keeps_step.
Qed.

Lemma initialize_connection_keeps_transport :
  keeps (fun c => (MCPProtocolClient.connection_type c, MCPProtocolClient.session c,
                   MCPProtocolClient.websocket c))
    MCPProtocolClient._initialize_connection.
Proof.
  unfold MCPProtocolClient._initialize_connection.
  apply keeps_try_except; [|intros ?; apply keeps_raise].
  apply keeps_bind; [apply send_request_keeps_transport|intros ?].
  apply keeps_bind; [apply keeps_lift|intros ?].
  match goal with |- keeps _ (if ?b then _ else _) => destruct b end; [apply keeps_raise|].
  apply keeps_bind; [apply keeps_lift|intros ?].
  apply keeps_bind; [apply keeps_update; intros []; reflexivity|intros ?].
  apply keeps_bind; [apply send_notification_keeps_transport|intros ?].
  apply discover_tools_keeps_transport.
Qed.

(** X2: [connect] never raises; the flag it returns is the
    value it leaves in [is_connected]; and when it returns [True] the
    connection type names a transport whose handle is open. *)
Theorem connect_outcome (w : MCPProtocolClient.world) :
  exists b w',
    MCPProtocolClient.connect w = (Ok b, w')
    /\ MCPProtocolClient.is_connected (fst w') = b
    /\ (if b then transport_open (fst w') else True).
Proof.
  unfold MCPProtocolClient.connect. unfold Py.try_except at 1.
  match goal with |- context [match ?m w with _ => _ end] =>
    destruct (m w) as [[b|e] w1] eqn:Hm end.
  - exists b, w1. split; [reflexivity|].
    apply bind_ok in Hm as (ep & w2 & Hep & Hm).
    apply bind_ok in Hm as ([] & w3 & Hopen & Hm).
    apply bind_ok in Hm as ([] & w4 & Hinit & Hm).
    apply bind_ok in Hm as ([] & w5 & Hup & Hm).
    injection Hm as <- <-. injection Hup as <-. cbn. split; [reflexivity|].
    injection Hep as <- <-.
    pose proof (initialize_connection_keeps_transport w3) as Hk.
    rewrite Hinit in Hk. cbn in Hk. injection Hk as Hct Hss Hws.
    unfold transport_open. cbn. rewrite Hct, Hss, Hws.
    destruct (str_in_list _ ["ws"; "wss"]).
    + left. now apply connect_websocket_opens in Hopen.
    + destruct (str_in_list _ ["http"; "https"]); [|discriminate].
      right. now apply connect_http_opens in Hopen.
  - exists false, (MCPProtocolClient.set_is_connected false (fst w1), snd w1).
    repeat split.
Qed.

(** X3: an endpoint whose scheme is none of ws, wss,
    http, https is refused before any transport is touched: [connect]
    returns [False], nothing is sent or awaited, and the client only has
    its flag cleared. *)
Theorem connect_refuses_unsupported_scheme (c : MCPProtocolClient.t)
    (e : MCPProtocolClient.io) :
  str_in_list (MCPProtocolClient.url_scheme
                 (MCPServerConfig.endpoint (MCPProtocolClient.config c)))
    ["ws"; "wss"; "http"; "https"] = false ->
  MCPProtocolClient.connect (c, e)
  = (Ok false, (MCPProtocolClient.set_is_connected false c, e)).
Proof.
  intros H. unfold MCPProtocolClient.connect, MCPProtocolClient.self,
    MCPProtocolClient.update. munfold. cbn [fst snd].
  unfold str_in_list in *. cbn [existsb] in *.
  repeat (apply orb_false_elim in H as [? H]).
  repeat match goal with Hx : _ = false |- _ => rewrite Hx; clear Hx end.
  reflexivity.
Qed.

Lemma connect_refuses_unsupported_scheme_witness :
  MCPProtocolClient.connect
    (MCPProtocolClient.new (demo_config "files" "ftp://localhost:21"), demo_io (fun _ => MCPProtocolClient.IoTimeout))
  = (Ok false,
     (MCPProtocolClient.set_is_connected false
        (MCPProtocolClient.new (demo_config "files" "ftp://localhost:21")),
      demo_io (fun _ => MCPProtocolClient.IoTimeout))).
Proof.
  apply (connect_refuses_unsupported_scheme
           (MCPProtocolClient.new (demo_config "files" "ftp://localhost:21"))).
  vm_compute. reflexivity.
Defined.

Lemma try_except_total {S A : Type} (m : M S A) (h : exn -> M S A) (P : A -> Prop) :
  returns_only P m ->
  (forall e s, exists a s', h e s = (Ok a, s') /\ P a) ->
  forall s, exists a s', try_except m h s = (Ok a, s') /\ P a.
Proof.
  intros Hm Hh s. unfold try_except. destruct (m s) as [[a|e] s1] eqn:E.
  - exists a, s1. split; [reflexivity|]. eapply Hm, E.
  - apply Hh.
Qed.

(** X4: for names that pass the [MCPToolCall] validator,
    [call_tool] of the protocol client never raises and never returns a
    pending call: whatever the transport does, the call comes back marked
    success, error or timeout, for the tool and parameters asked for. *)
Theorem client_call_tool_settles (tool : string) (ps : pydict)
    (c : MCPProtocolClient.t) (e : MCPProtocolClient.io) (c0 : MCPToolCall.t) :
  MCPToolCall.new (MCPServerConfig.name (MCPProtocolClient.config c)) tool ps = Ok c0 ->
  exists r w',
    MCPProtocolClient.call_tool tool ps (c, e) = (Ok r, w')
    /\ MCPToolCall.is_terminal r = true
    /\ MCPToolCall.tool_name r = strip tool
    /\ MCPToolCall.parameters r = ps.
Proof.
  intros Hnew.
  assert (Hf : MCPToolCall.tool_name c0 = strip tool /\ MCPToolCall.parameters c0 = ps).
  { unfold MCPToolCall.new in Hnew.
    destruct (MCPServerConfig.as_validation_error (MCPToolCall.validate_names _)) as [sn|];
      [|discriminate]. cbn in Hnew.
    destruct (MCPServerConfig.as_validation_error (MCPToolCall.validate_names tool)) as [tn|] eqn:Et;
      [|discriminate]. cbn in Hnew. injection Hnew as <-. cbn. split; [|reflexivity].
    unfold MCPToolCall.validate_names in Et.
    destruct (str_eqb (strip tool) ""); cbn in Et; [discriminate|]. now injection Et. }
  destruct Hf as [Htn Hps].
  set (P := fun r : MCPToolCall.t =>
              MCPToolCall.is_terminal r = true /\ MCPToolCall.tool_name r = strip tool
              /\ MCPToolCall.parameters r = ps).
  assert (Pe : forall m t, P (MCPToolCall.mark_error m t c0)) by (intros; now split).
  assert (Pt : forall t, P (MCPToolCall.mark_timeout t c0)) by (intros; now split).
  assert (Ps : forall v t, P (MCPToolCall.mark_success v t c0)) by (intros; now split).
  unfold MCPProtocolClient.call_tool, MCPProtocolClient.self.
  unfold Py.bind at 1, gets. cbn [fst]. unfold Py.bind at 1, lift. rewrite Hnew.
  unfold Py.bind at 1, gets. cbn [fst].
  destruct (MCPProtocolClient.is_connected c); cbn [negb].
  - unfold Py.bind at 1, MCPProtocolClient.now at 1, gets. cbn [snd].
    apply try_except_total.
    + apply returns_only_bind; intros response.
      apply returns_only_bind; intros stop.
      apply returns_only_bind; intros err.
      destruct (truthy err); [apply returns_only_ret, Pe|].
      apply returns_only_bind; intros result. apply returns_only_ret, Ps.
    + intros x s. unfold Py.bind, MCPProtocolClient.now, gets, ret.
      destruct (_ || _); eexists; eexists; (split; [reflexivity|]); [apply Pt|apply Pe].
  - unfold ret. eexists; eexists; (split; [reflexivity|]). apply Pe.
Qed.

Lemma client_call_tool_settles_witness :
  MCPToolCall.new (MCPServerConfig.name (MCPProtocolClient.config (http_client "srv")))
    "get_weather" [("location", PStr "Boston")]
  = Ok (MCPToolCall.mk "srv" "get_weather" [("location", PStr "Boston")] PNone None 0 "pending")
  /\ exists r w',
       MCPProtocolClient.call_tool "get_weather" [("location", PStr "Boston")]
         (http_client "srv", demo_io (fun _ => MCPProtocolClient.IoBadJson "x")) = (Ok r, w')
       /\ MCPToolCall.is_terminal r = true
       /\ MCPToolCall.tool_name r = strip "get_weather"
       /\ MCPToolCall.parameters r = [("location", PStr "Boston")].
Proof.
  assert (H : MCPToolCall.new
                (MCPServerConfig.name (MCPProtocolClient.config (http_client "srv")))
                "get_weather" [("location", PStr "Boston")]
              = Ok (MCPToolCall.mk "srv" "get_weather" [("location", PStr "Boston")]
                      PNone None 0 "pending")) by (vm_compute; reflexivity).
  split; [exact H|].
  exact (client_call_tool_settles "get_weather" [("location", PStr "Boston")]
           (http_client "srv") (demo_io (fun _ => MCPProtocolClient.IoBadJson "x")) _ H).
Defined.

(** On a client that is not connected [call_tool]
    answers without touching the transport: the call is marked error with
    the message "Not connected to MCP server" and execution time 0, and
    client and environment stay as they were. *)
Lemma client_call_tool_offline (tool : string) (ps : pydict)
    (c : MCPProtocolClient.t) (e : MCPProtocolClient.io) (c0 : MCPToolCall.t) :
  MCPProtocolClient.is_connected c = false ->
  MCPToolCall.new (MCPServerConfig.name (MCPProtocolClient.config c)) tool ps = Ok c0 ->
  MCPProtocolClient.call_tool tool ps (c, e)
  = (Ok (MCPToolCall.mark_error "Not connected to MCP server" 0 c0), (c, e)).
Proof.
  intros Hup Hnew. unfold MCPProtocolClient.call_tool, MCPProtocolClient.self.
  munfold. cbn [fst]. rewrite Hnew, Hup. reflexivity.
Qed.

(** X5: when the first await of a tool call on an open
    transport times out, the [asyncio.TimeoutError] is turned into
    [MCPTimeoutError] by [_send_request] and then into a call marked
    timeout by [call_tool]; the execution time is the clock difference
    across that one await, and only the request itself was handed to the
    transport. *)
Theorem client_call_tool_timeout (tool : string) (ps : pydict)
    (c : MCPProtocolClient.t) (e : MCPProtocolClient.io) (c0 : MCPToolCall.t) :
  MCPProtocolClient.is_connected c = true ->
  transport_open c ->
  MCPProtocolClient.script e (MCPProtocolClient.cursor e) = MCPProtocolClient.IoTimeout ->
  MCPToolCall.new (MCPServerConfig.name (MCPProtocolClient.config c)) tool ps = Ok c0 ->
  exists w',
    MCPProtocolClient.call_tool tool ps (c, e)
    = (Ok (MCPToolCall.mark_timeout
             (MCPProtocolClient.clock e (S (MCPProtocolClient.cursor e))
              - MCPProtocolClient.clock e (MCPProtocolClient.cursor e)) c0), w')
    /\ MCPProtocolClient.is_connected (fst w') = true
    /\ MCPProtocolClient.sent (snd w')
       = MCPProtocolClient.sent e
         ++ [rpc_request
               (request_id (MCPServerConfig.name (MCPProtocolClient.config c))
                  (S (MCPProtocolClient._request_id_counter c)))
               "tools/call" (PDict [("name", PStr tool); ("arguments", PDict ps)])].
Proof.
  intros Hup Hopen Hsc Hnew.
  destruct c as [cfg ss ws ct up tools info n], e as [sc ck cur snt].
  cbn in Hup, Hsc, Hnew. subst up.
  unfold MCPProtocolClient.call_tool, MCPProtocolClient._send_request,
    MCPProtocolClient._get_next_request_id,
    MCPProtocolClient._send_websocket_request, MCPProtocolClient._send_http_request,
    MCPProtocolClient.self, MCPProtocolClient.update, MCPProtocolClient.await,
    MCPProtocolClient.await_send, MCPProtocolClient.now, rpc_request, request_id.
  munfold. cbn [fst snd MCPProtocolClient.config MCPProtocolClient.is_connected negb].
  rewrite Hnew. cbn.
  assert (E1 : str_eqb "websocket" "websocket" = true) by (vm_compute; reflexivity).
  assert (E2 : str_eqb "http" "websocket" = false) by (vm_compute; reflexivity).
  assert (E3 : str_eqb "http" "http" = true) by (vm_compute; reflexivity).
  destruct Hopen as [[Hct Hh]|[Hct Hh]]; cbn in Hct, Hh; subst ct.
  - cbn. rewrite E1. destruct ws; [|congruence]. cbn. rewrite Hsc. cbn. eexists. repeat split.
  - cbn. rewrite E2, E3. destruct ss; [|congruence]. cbn. rewrite Hsc. cbn. eexists. repeat split.
Qed.

Lemma client_call_tool_timeout_witness :
  exists w',
    MCPProtocolClient.call_tool "get_weather" []
      (ws_client "srv", demo_io (fun _ => MCPProtocolClient.IoTimeout))
    = (Ok (MCPToolCall.mark_timeout (1 - 0)
             (MCPToolCall.mk "srv" "get_weather" [] PNone None 0 "pending")), w')
    /\ MCPProtocolClient.is_connected (fst w') = true
    /\ MCPProtocolClient.sent (snd w')
       = [] ++ [rpc_request (request_id "srv" 3) "tools/call"
                  (PDict [("name", PStr "get_weather"); ("arguments", PDict [])])].
Proof.
  apply (client_call_tool_timeout "get_weather" []
           (ws_client "srv") (demo_io (fun _ => MCPProtocolClient.IoTimeout))).
  - reflexivity.
  - left. split; [reflexivity|discriminate].
  - reflexivity.
  - vm_compute. reflexivity.
Defined.

(** X6: a JSON-RPC reply over HTTP whose [error]
    member is truthy never raises: the call is marked error with
    [str(error)], timed by the clock across the request. *)
Theorem client_call_tool_error_reply (tool : string) (ps d : pydict) (err : pyval)
    (c : MCPProtocolClient.t) (e : MCPProtocolClient.io) (c0 : MCPToolCall.t) :
  MCPProtocolClient.is_connected c = true ->
  http_ready c ->
  MCPProtocolClient.script e (MCPProtocolClient.cursor e) = MCPProtocolClient.IoOk (PDict d) ->
  dict_get "error" d = Some err ->
  truthy err = true ->
  MCPToolCall.new (MCPServerConfig.name (MCPProtocolClient.config c)) tool ps = Ok c0 ->
  exists w',
    MCPProtocolClient.call_tool tool ps (c, e)
    = (Ok (MCPToolCall.mark_error (py_str err)
             (MCPProtocolClient.clock e (S (MCPProtocolClient.cursor e))
              - MCPProtocolClient.clock e (MCPProtocolClient.cursor e)) c0), w')
    /\ MCPProtocolClient.cursor (snd w') = S (MCPProtocolClient.cursor e).
Proof.
  intros Hup [Hct Hh] Hsc Herr Ht Hnew.
  destruct c as [cfg ss ws ct up tools info n], e as [sc ck cur snt].
  cbn in Hup, Hsc, Hnew, Hct, Hh. subst up ct.
  unfold MCPProtocolClient.call_tool, MCPProtocolClient._send_request,
    MCPProtocolClient._get_next_request_id,
    MCPProtocolClient._send_websocket_request, MCPProtocolClient._send_http_request,
    MCPProtocolClient.self, MCPProtocolClient.update, MCPProtocolClient.await,
    MCPProtocolClient.await_send, MCPProtocolClient.now.
  munfold. cbn [fst snd MCPProtocolClient.config MCPProtocolClient.is_connected negb].
  rewrite Hnew. cbn.
  assert (E2 : str_eqb "http" "websocket" = false) by (vm_compute; reflexivity).
  assert (E3 : str_eqb "http" "http" = true) by (vm_compute; reflexivity).
  cbn. rewrite E2, E3.
  destruct ss; [|congruence]. cbn. rewrite Hsc. cbn. rewrite Herr, Ht.
  eexists. split; reflexivity.
Qed.

Lemma client_call_tool_error_reply_witness :
  exists w',
    MCPProtocolClient.call_tool "get_weather" []
      (http_client "srv",
       demo_io (fun _ => MCPProtocolClient.IoOk (PDict [("error", PStr "no such tool")])))
    = (Ok (MCPToolCall.mark_error (py_str (PStr "no such tool")) (1 - 0)
             (MCPToolCall.mk "srv" "get_weather" [] PNone None 0 "pending")), w')
    /\ MCPProtocolClient.cursor (snd w') = 1%nat.
Proof.
  apply (client_call_tool_error_reply "get_weather" [] [("error", PStr "no such tool")]
           (PStr "no such tool") (http_client "srv")
           (demo_io (fun _ => MCPProtocolClient.IoOk (PDict [("error", PStr "no such tool")])))).
  - reflexivity.
  - split; [reflexivity|discriminate].
  - reflexivity.
  - reflexivity.
  - reflexivity.
  - vm_compute. reflexivity.
Defined.

(** X7: [health_check] never raises, and it answers [True]
    only for a client that was connected and has sent exactly one ping
    request; a client that is not connected is answered [False] without
    any traffic. *)
Theorem health_check_outcome (c : MCPProtocolClient.t) (e : MCPProtocolClient.io) :
  exists b w',
    MCPProtocolClient.health_check (c, e) = (Ok b, w')
    /\ (b = true ->
        MCPProtocolClient.is_connected c = true
        /\ MCPProtocolClient.sent (snd w')
           = MCPProtocolClient.sent e
             ++ [rpc_request
                   (request_id (MCPServerConfig.name (MCPProtocolClient.config c))
                      (S (MCPProtocolClient._request_id_counter c)))
                   "ping" (PDict [])])
    /\ (MCPProtocolClient.is_connected c = false -> b = false /\ w' = (c, e)).
Proof.
  destruct c as [cfg ss ws ct up tools info n], e as [sc ck cur snt].
  unfold MCPProtocolClient.health_check, MCPProtocolClient._send_request,
    MCPProtocolClient._get_next_request_id,
    MCPProtocolClient._send_websocket_request, MCPProtocolClient._send_http_request,
    MCPProtocolClient.self, MCPProtocolClient.update, MCPProtocolClient.await,
    MCPProtocolClient.await_send, rpc_request, request_id.
  munfold. cbn.
  destruct up; cbn; [|eexists; eexists; repeat split; discriminate].
  destruct ct as [ct|]; cbn;
    [|eexists; eexists; split; [reflexivity|split; [discriminate|discriminate]]].
  destruct (str_eqb ct "websocket"); cbn.
  - destruct ws; cbn;
      [|eexists; eexists; split; [reflexivity|split; [discriminate|discriminate]]].
    destruct (sc cur); cbn;
      try (eexists; eexists; split; [reflexivity|split; [discriminate|discriminate]]).
    destruct (sc (S cur)) as [p| | | |]; cbn;
      try (eexists; eexists; split; [reflexivity|split; [discriminate|discriminate]]).
    destruct p; cbn;
      try (eexists; eexists; split; [reflexivity|split; [discriminate|discriminate]]).
    eexists; eexists; split; [reflexivity|split; [|discriminate]]. intros _. now split.
  - destruct (str_eqb ct "http"); cbn;
      [|eexists; eexists; split; [reflexivity|split; [discriminate|discriminate]]].
    destruct ss; cbn;
      [|eexists; eexists; split; [reflexivity|split; [discriminate|discriminate]]].
    destruct (sc cur) as [p| | | |]; cbn;
      try (eexists; eexists; split; [reflexivity|split; [discriminate|discriminate]]).
    destruct p; cbn;
      try (eexists; eexists; split; [reflexivity|split; [discriminate|discriminate]]).
    eexists; eexists; split; [reflexivity|split; [|discriminate]]. intros _. now split.
Qed.

Lemma health_check_outcome_witness :
  exists b w',
    MCPProtocolClient.health_check
      (http_client "srv", demo_io (fun _ => MCPProtocolClient.IoOk (rpc_result (PDict []))))
    = (Ok b, w')
    /\ (b = true ->
        MCPProtocolClient.is_connected (http_client "srv") = true
        /\ MCPProtocolClient.sent (snd w')
           = [] ++ [rpc_request (request_id "srv" 3) "ping" (PDict [])])
    /\ (MCPProtocolClient.is_connected (http_client "srv") = false ->
        b = false
        /\ w' = (http_client "srv",
                 demo_io (fun _ => MCPProtocolClient.IoOk (rpc_result (PDict []))))).
Proof.
  exact (health_check_outcome (http_client "srv")
           (demo_io (fun _ => MCPProtocolClient.IoOk (rpc_result (PDict []))))).
Defined.

(** Neither the [notifications/initialized]
    notification nor tool discovery can fail a connection: both return
    normally whatever the transport does, and leave the connection type and
    the handles alone. *)
Lemma notification_and_discovery_never_raise (method : string)
    (w : MCPProtocolClient.world) :
  (exists w', MCPProtocolClient._send_notification method w = (Ok tt, w')
              /\ MCPProtocolClient.connection_type (fst w')
                 = MCPProtocolClient.connection_type (fst w))
  /\ (exists w', MCPProtocolClient._discover_tools w = (Ok tt, w')
                 /\ MCPProtocolClient.connection_type (fst w')
                    = MCPProtocolClient.connection_type (fst w)).
Proof.
  split.
  - pose proof (send_notification_keeps_transport method w) as Hk.
    unfold MCPProtocolClient._send_notification, Py.try_except in *.
    match goal with |- context [match ?m w with _ => _ end] =>
      destruct (m w) as [[[]|x] w1] end; (eexists; split; [reflexivity|]);
      cbn in Hk |- *; congruence.
  - pose proof (discover_tools_keeps_transport w) as Hk.
    unfold MCPProtocolClient._discover_tools, Py.try_except in *.
    match goal with |- context [match ?m w with _ => _ end] =>
      destruct (m w) as [[[]|x] w1] end; (eexists; split; [reflexivity|]);
      cbn in Hk |- *; congruence.
Qed.

(** Opening a transport raises nothing but
    [MCPConnectionError], and the handshake nothing but
    [MCPProtocolError]: every other exception is wrapped. *)
Lemma setup_exception_classes (w w' : MCPProtocolClient.world) (x : exn) :
  (MCPProtocolClient._connect_websocket w = (Raise x, w')
   \/ MCPProtocolClient._connect_http w = (Raise x, w') ->
   exn_class_of x = MCPConnectionError)
  /\ (MCPProtocolClient._initialize_connection w = (Raise x, w') ->
      exn_class_of x = MCPProtocolError).
Proof.
  split.
  - unfold MCPProtocolClient._connect_websocket, MCPProtocolClient._connect_http,
      Py.try_except, raise.
    intros [H|H];
      match type of H with context [match ?m w with _ => _ end] =>
        destruct (m w) as [[[]|y] w1] end; now inversion H.
  - unfold MCPProtocolClient._initialize_connection, Py.try_except, raise.
    intros H.
    match type of H with context [match ?m w with _ => _ end] =>
      destruct (m w) as [[[]|y] w1] end; now inversion H.
Qed.


(** ** Configuration store: loading *)

Lemma dict_mem_false_iff {V : Type} (k : string) (d : list (string * V)) :
  dict_mem k d = false <-> ~ In k (map fst d).
Proof.
  unfold dict_mem. induction d as [|[k' v] d IH]; cbn; [tauto|].
  unfold str_eqb. destruct (bool_decide_reflect (k = k')) as [->|Hne].
  - split; [discriminate|]. intros H. exfalso. apply H. now left.
  - rewrite IH. split; [intros H [E|Hin]; [congruence|tauto]|tauto].
Qed.

Lemma dict_set_fresh {V : Type} (k : string) (v : V) (d : list (string * V)) :
  dict_mem k d = false -> dict_set k v d = d ++ [(k, v)].
Proof.
  unfold dict_mem. induction d as [|[k' v'] d IH]; cbn; [reflexivity|].
  destruct (str_eqb k k'); [discriminate|]. intros H. now rewrite IH.
Qed.

Lemma dict_del_set_fresh {V : Type} (k : string) (v : V) (d : list (string * V)) :
  dict_mem k d = false -> dict_del k (dict_set k v d) = d.
Proof.
  unfold dict_mem. induction d as [|[k' v'] d IH]; cbn.
  - unfold str_eqb. now rewrite bool_decide_eq_true_2.
  - destruct (str_eqb k k') eqn:E; [discriminate|]. cbn. rewrite E.
    intros H. now rewrite IH.
Qed.

Lemma listing_names (cfgs : list MCPServerConfig.t) :
  map fst (listing cfgs) = map MCPServerConfig.name cfgs.
Proof. unfold listing. rewrite map_map. reflexivity. Qed.

Lemma listing_app (a b : list MCPServerConfig.t) : listing (a ++ b) = listing a ++ listing b.
Proof. apply map_app. Qed.

Lemma contents_inv (s : MCPConfigManager.state) (cfgs : list MCPServerConfig.t) :
  MCPConfigManager.contents s = Some (listing cfgs) ->
  exists entries,
    MCPConfigManager.heap s !! MCPConfigManager.servers s
    = Some (MCPConfigManager.ODict entries)
    /\ map (fun kv => (fst kv, MCPConfigManager.lookup_config (MCPConfigManager.heap s) (snd kv)))
         entries = listing cfgs
    /\ map fst entries = map MCPServerConfig.name cfgs.
Proof.
  unfold MCPConfigManager.contents.
  destruct (MCPConfigManager.heap s !! MCPConfigManager.servers s) as [[entries|]|];
    try discriminate.
  intros [= H]. exists entries. split; [reflexivity|split; [exact H|]].
  rewrite <- listing_names, <- H, map_map. reflexivity.
Qed.

Lemma listed_entry (h : list MCPConfigManager.obj) (entries : list (string * nat))
    (cfgs : list MCPServerConfig.t) (kv : string * nat) :
  map (fun kv => (fst kv, MCPConfigManager.lookup_config h (snd kv))) entries = listing cfgs ->
  In kv entries ->
  exists c, MCPConfigManager.lookup_config h (snd kv) = Some c.
Proof.
  intros H Hin.
  apply (in_map (fun kv => (fst kv, MCPConfigManager.lookup_config h (snd kv)))) in Hin.
  rewrite H in Hin. unfold listing in Hin. apply in_map_iff in Hin as (c & [= _ E] & _).
  eauto.
Qed.

Lemma lookup_config_frame (h : list MCPConfigManager.obj) (sv r : nat)
    (e e' : list (string * nat)) (o : MCPConfigManager.obj) (c : MCPServerConfig.t) :
  h !! sv = Some (MCPConfigManager.ODict e) ->
  MCPConfigManager.lookup_config h r = Some c ->
  MCPConfigManager.lookup_config (<[sv := MCPConfigManager.ODict e']> (h ++ [o])) r = Some c.
Proof.
  unfold MCPConfigManager.lookup_config. intros Hsv Hr.
  destruct (h !! r) as [[|c']|] eqn:E; try discriminate.
  assert (Hne : sv <> r) by (intros ->; congruence).
  rewrite list_lookup_insert_ne by exact Hne.
  rewrite lookup_app_l by (eapply lookup_lt_Some; exact E). now rewrite E.
Qed.

(** One turn of the loading loop on an entry that validates to a new
    name. *)
Lemma load_entry_ok (i : nat) (d : pyval) (c : MCPServerConfig.t)
    (s : MCPConfigManager.state) (cfgs : list MCPServerConfig.t) :
  MCPServerConfig.new d = Ok c ->
  MCPConfigManager.contents s = Some (listing cfgs) ->
  ~ In (MCPServerConfig.name c) (map MCPServerConfig.name cfgs) ->
  exists s',
    MCPConfigManager.load_entry i d s = (Ok tt, s')
    /\ MCPConfigManager.contents s' = Some (listing (cfgs ++ [c]))
    /\ MCPConfigManager.servers s' = MCPConfigManager.servers s
    /\ MCPConfigManager._config_data s' = MCPConfigManager._config_data s.
Proof.
  intros Hnew Hc Hfresh. apply contents_inv in Hc as (entries & Hsv & Hmap & Hkeys).
  assert (Hlt : (MCPConfigManager.servers s < length (MCPConfigManager.heap s))%nat)
    by (eapply lookup_lt_Some; exact Hsv).
  assert (Hmem : dict_mem (MCPServerConfig.name c) entries = false)
    by (apply dict_mem_false_iff; now rewrite Hkeys).
  destruct s as [h path sv cd]. cbn in *.
  unfold MCPConfigManager.load_entry, MCPConfigManager.alloc, MCPConfigManager.deref_dict,
    MCPConfigManager.deref, MCPConfigManager.assign. munfold. rewrite Hnew. cbn.
  rewrite lookup_app_l by exact Hlt. rewrite Hsv. cbn. rewrite Hmem. cbn.
  eexists. split; [reflexivity|]. split; [|split; reflexivity].
  unfold MCPConfigManager.contents. cbn.
  rewrite list_lookup_insert_eq by (rewrite length_app; cbn; lia).
  rewrite (dict_set_fresh _ _ _ Hmem). f_equal.
  rewrite map_app, listing_app. f_equal.
  - rewrite <- Hmap. apply map_ext_in. intros kv Hin. f_equal.
    destruct (listed_entry _ _ _ _ Hmap Hin) as [c' Hc']. rewrite Hc'.
    eapply lookup_config_frame; eassumption.
  - cbn. unfold MCPConfigManager.lookup_config.
    rewrite list_lookup_insert_ne by lia.
    rewrite lookup_app_r by lia. rewrite Nat.sub_diag. reflexivity.
Qed.

(** An entry the loop accepts validates to a name that is new. *)
Lemma load_entry_inv (i : nat) (d : pyval) (s s' : MCPConfigManager.state)
    (cfgs : list MCPServerConfig.t) :
  MCPConfigManager.load_entry i d s = (Ok tt, s') ->
  MCPConfigManager.contents s = Some (listing cfgs) ->
  exists c, MCPServerConfig.new d = Ok c
            /\ ~ In (MCPServerConfig.name c) (map MCPServerConfig.name cfgs).
Proof.
  intros Hrun Hc. apply contents_inv in Hc as (entries & Hsv & Hmap & Hkeys).
  assert (Hlt : (MCPConfigManager.servers s < length (MCPConfigManager.heap s))%nat)
    by (eapply lookup_lt_Some; exact Hsv).
  destruct s as [h path sv cd]. cbn in *.
  unfold MCPConfigManager.load_entry, MCPConfigManager.alloc, MCPConfigManager.deref_dict,
    MCPConfigManager.deref, MCPConfigManager.assign in Hrun. munfold.
  destruct (MCPServerConfig.new d) as [c|x] eqn:Hnew; cbn in Hrun.
  - rewrite lookup_app_l in Hrun by exact Hlt. rewrite Hsv in Hrun. cbn in Hrun.
    destruct (dict_mem (MCPServerConfig.name c) entries) eqn:Hmem; cbn in Hrun.
    + discriminate.
    + exists c. split; [reflexivity|]. rewrite <- Hkeys. now apply dict_mem_false_iff.
  - destruct (exn_class_eqb _ _); discriminate.
Qed.

Lemma load_entries_ok (l : list pyval) :
  forall (i : nat) (cs cfgs : list MCPServerConfig.t) (s : MCPConfigManager.state),
    validated l cs ->
    NoDup (map MCPServerConfig.name (cfgs ++ cs)) ->
    MCPConfigManager.contents s = Some (listing cfgs) ->
    exists s',
      MCPConfigManager.load_entries i l s = (Ok tt, s')
      /\ MCPConfigManager.contents s' = Some (listing (cfgs ++ cs))
      /\ MCPConfigManager.servers s' = MCPConfigManager.servers s
      /\ MCPConfigManager._config_data s' = MCPConfigManager._config_data s.
Proof.
  induction l as [|d l IH]; intros i cs cfgs s Hv Hnd Hc.
  - inversion Hv; subst. rewrite app_nil_r. exists s. now repeat split.
  - inversion Hv as [|? c ? cs' Hd Hrest]; subst.
    assert (Hfresh : ~ In (MCPServerConfig.name c) (map MCPServerConfig.name cfgs)).
    { rewrite map_app in Hnd. cbn in Hnd. apply NoDup_app in Hnd as (_ & Hdis & _).
      intros Hin. apply list_elem_of_In in Hin. apply (Hdis _ Hin). left. }
    destruct (load_entry_ok i d c s cfgs Hd Hc Hfresh) as (s1 & Hrun & Hc1 & Hsv1 & Hcd1).
    destruct (IH (S i) cs' (cfgs ++ [c]) s1 Hrest) as (s2 & Hrun2 & Hc2 & Hsv2 & Hcd2).
    + now rewrite <- app_assoc.
    + exact Hc1.
    + exists s2. cbn. unfold Py.bind. rewrite Hrun. split; [exact Hrun2|].
      rewrite <- app_assoc in Hc2. split; [exact Hc2|]. split; congruence.
Qed.

Lemma load_entries_inv (l : list pyval) :
  forall (i : nat) (cfgs : list MCPServerConfig.t) (s s' : MCPConfigManager.state),
    MCPConfigManager.load_entries i l s = (Ok tt, s') ->
    NoDup (map MCPServerConfig.name cfgs) ->
    MCPConfigManager.contents s = Some (listing cfgs) ->
    exists cs, validated l cs /\ NoDup (map MCPServerConfig.name (cfgs ++ cs)).
Proof.
  induction l as [|d l IH]; intros i cfgs s s' Hrun Hnd Hc.
  - exists []. split; [constructor|]. now rewrite app_nil_r.
  - cbn in Hrun. apply bind_ok in Hrun as ([] & s1 & H1 & H2).
    destruct (load_entry_inv i d s s1 cfgs H1 Hc) as (c & Hd & Hfresh).
    destruct (load_entry_ok i d c s cfgs Hd Hc Hfresh) as (s1' & Hrun1 & Hc1 & _).
    rewrite H1 in Hrun1. injection Hrun1 as <-.
    assert (Hnd1 : NoDup (map MCPServerConfig.name (cfgs ++ [c]))).
    { rewrite map_app. cbn. apply NoDup_app. split; [exact Hnd|]. split.
      - intros x Hx [->|Hn]%elem_of_cons; [|now apply elem_of_nil in Hn].
        apply Hfresh. now apply list_elem_of_In.
      - apply NoDup_singleton. }
    destruct (IH (S i) (cfgs ++ [c]) s1 s' H2 Hnd1 Hc1) as (cs & Hv & Hnd2).
    exists (c :: cs). split; [now constructor|]. now rewrite <- app_assoc in Hnd2.
Qed.

Lemma validate_and_load_unfold (d : pydict) (l : list pyval) (s : MCPConfigManager.state) :
  MCPConfigManager._config_data s = PDict d ->
  py_get (PDict d) "servers" (PList []) = Ok (PList l) ->
  MCPConfigManager._validate_and_load_servers s
  = MCPConfigManager.load_entries 0 l
      (MCPConfigManager.set_servers (length (MCPConfigManager.heap s))
         (MCPConfigManager.set_heap
            (MCPConfigManager.heap s ++ [MCPConfigManager.ODict []]) s)).
Proof.
  intros Hcd Hget. unfold MCPConfigManager._validate_and_load_servers,
    MCPConfigManager.alloc. munfold. rewrite Hcd, Hget. reflexivity.
Qed.

Lemma contents_fresh (s : MCPConfigManager.state) :
  MCPConfigManager.contents
    (MCPConfigManager.set_servers (length (MCPConfigManager.heap s))
       (MCPConfigManager.set_heap
          (MCPConfigManager.heap s ++ [MCPConfigManager.ODict []]) s))
  = Some (listing []).
Proof.
  unfold MCPConfigManager.contents. cbn.
  rewrite lookup_app_r by lia. rewrite Nat.sub_diag. reflexivity.
Qed.

(** A document whose entries validate to distinct names is imported in
    full. *)
Lemma import_configuration_ok (d : pydict) (l : list pyval)
    (cfgs : list MCPServerConfig.t) (s : MCPConfigManager.state) :
  py_get (PDict d) "servers" (PList []) = Ok (PList l) ->
  validated l cfgs ->
  NoDup (map MCPServerConfig.name cfgs) ->
  exists s',
    MCPConfigManager.import_configuration (PDict d) s = (Ok tt, s')
    /\ MCPConfigManager.contents s' = Some (listing cfgs)
    /\ MCPConfigManager._config_data s' = PDict d.
Proof.
  intros Hget Hv Hnd. unfold MCPConfigManager.import_configuration.
  unfold Py.bind at 1, modify.
  rewrite (validate_and_load_unfold d l) by (exact Hget || reflexivity).
  match goal with |- context [MCPConfigManager.load_entries 0 l ?s0] =>
    destruct (load_entries_ok l 0 cfgs [] s0 Hv Hnd (contents_fresh _))
      as (s' & Hrun & Hc & _ & Hcd) end.
  exists s'. split; [exact Hrun|]. split; [exact Hc|]. rewrite Hcd. reflexivity.
Qed.

Lemma import_configuration_inv (doc : pyval) (s s' : MCPConfigManager.state) :
  MCPConfigManager.import_configuration doc s = (Ok tt, s') ->
  exists (l : list pyval) (cfgs : list MCPServerConfig.t),
    py_get doc "servers" (PList []) = Ok (PList l)
    /\ validated l cfgs
    /\ NoDup (map MCPServerConfig.name cfgs)
    /\ MCPConfigManager.contents s' = Some (listing cfgs)
    /\ MCPConfigManager.server_count s' = Some (length l)
    /\ MCPConfigManager._config_data s' = doc.
Proof.
  intros Hrun. destruct doc as [| | | | | |d]; try discriminate.
  pose proof Hrun as Hrun0.
  unfold MCPConfigManager.import_configuration in Hrun.
  unfold Py.bind at 1, modify in Hrun.
  destruct (py_get (PDict d) "servers" (PList [])) as [sd|x] eqn:Hget; [|discriminate].
  injection Hget as Hsd.
  destruct sd as [| | | | |l|] eqn:Hl;
    try (unfold MCPConfigManager._validate_and_load_servers in Hrun; munfold;
         cbn in Hrun; rewrite Hsd in Hrun; discriminate).
  assert (Hget : py_get (PDict d) "servers" (PList []) = Ok (PList l))
    by (cbn; now rewrite Hsd).
  rewrite (validate_and_load_unfold d l) in Hrun by (exact Hget || reflexivity).
  destruct (load_entries_inv l 0 [] _ _ Hrun (NoDup_nil_2 (A:=string)) (contents_fresh _))
    as (cfgs & Hv & Hnd).
  destruct (import_configuration_ok d l cfgs s Hget Hv Hnd) as (s2 & Hrun2 & Hc & Hcd).
  rewrite Hrun0 in Hrun2. injection Hrun2 as <-.
  exists l, cfgs. repeat split; try assumption.
  unfold MCPConfigManager.server_count. rewrite Hc. unfold listing. rewrite length_map.
  f_equal. symmetry. eapply Forall2_length. exact Hv.
Qed.

(** X8: when [import_configuration] returns, the store holds
    exactly the entries of the document's [servers] list: one server for
    each entry, in the order of the document, each stored under the name
    of the configuration the entry validates to; the names are pairwise
    distinct and the document is kept as [_config_data]. *)
Theorem import_configuration_result (doc : pyval) (s s' : MCPConfigManager.state) :
  MCPConfigManager.import_configuration doc s = (Ok tt, s') ->
  exists (l : list pyval) (cfgs : list MCPServerConfig.t),
    py_get doc "servers" (PList []) = Ok (PList l)
    /\ validated l cfgs
    /\ NoDup (map MCPServerConfig.name cfgs)
    /\ MCPConfigManager.contents s' = Some (listing cfgs)
    /\ MCPConfigManager.server_count s' = Some (length l)
    /\ MCPConfigManager._config_data s' = doc.
Proof. apply import_configuration_inv. Qed.

Lemma import_configuration_result_witness :
  exists (l : list pyval) (cfgs : list MCPServerConfig.t),
    py_get two_server_doc "servers" (PList []) = Ok (PList l)
    /\ validated l cfgs
    /\ NoDup (map MCPServerConfig.name cfgs)
    /\ MCPConfigManager.contents
         (snd (MCPConfigManager.import_configuration two_server_doc
                 (MCPConfigManager.init None)))
       = Some (listing cfgs)
    /\ MCPConfigManager.server_count
         (snd (MCPConfigManager.import_configuration two_server_doc
                 (MCPConfigManager.init None)))
       = Some (length l)
    /\ MCPConfigManager._config_data
         (snd (MCPConfigManager.import_configuration two_server_doc
                 (MCPConfigManager.init None)))
       = two_server_doc.
Proof.
  apply (import_configuration_result two_server_doc (MCPConfigManager.init None)).
  vm_compute. reflexivity.
Defined.

Lemma load_entry_raises (i : nat) (d : pyval) (s s' : MCPConfigManager.state) (x : exn) :
  MCPConfigManager.load_entry i d s = (Raise x, s') ->
  exn_class_of x = MCPConfigurationError.
Proof.
  unfold MCPConfigManager.load_entry, Py.try_except.
  match goal with |- context [match ?m s with _ => _ end] =>
    destruct (m s) as [[[]|y] s1] end; [discriminate|].
  unfold raise. destruct (exn_class_eqb _ _); intros [= <- _]; reflexivity.
Qed.

Lemma load_entries_raises (l : list pyval) :
  forall (i : nat) (s s' : MCPConfigManager.state) (x : exn),
    MCPConfigManager.load_entries i l s = (Raise x, s') ->
    exn_class_of x = MCPConfigurationError.
Proof.
  induction l as [|d l IH]; intros i s s' x; cbn; [discriminate|].
  unfold Py.bind. destruct (MCPConfigManager.load_entry i d s) as [[[]|y] s1] eqn:E.
  - apply IH.
  - intros [= <- _]. eapply load_entry_raises, E.
Qed.

(** X9: whatever the file system holds and whatever
    document is passed, [load_configuration] and [import_configuration]
    raise nothing but [MCPConfigurationError]. *)
Theorem loading_raises_only_configuration_error (fs : string -> MCPConfigManager.file)
    (path : option string) (doc : pyval) (s s' : MCPConfigManager.state) (x : exn) :
  MCPConfigManager.load_configuration fs path s = (Raise x, s')
  \/ MCPConfigManager.import_configuration doc s = (Raise x, s') ->
  exn_class_of x = MCPConfigurationError.
Proof.
  intros [H|H].
  - unfold MCPConfigManager.load_configuration in H.
    unfold Py.bind at 1, gets, Py.try_except in H.
    match type of H with context [match ?m s with _ => _ end] =>
      destruct (m s) as [[[]|y] s1] end; [discriminate|].
    unfold raise in H. destruct (exn_class_eqb _ _); now inversion H.
  - destruct doc as [| | | | | |d]; try (now inversion H).
    unfold MCPConfigManager.import_configuration, MCPConfigManager._validate_and_load_servers,
      MCPConfigManager.alloc in H.
    munfold. cbn in H.
    destruct (match dict_get "servers" d with Some v => v | None => PList [] end);
      try (now inversion H).
    eapply load_entries_raises. exact H.
Qed.

Lemma loading_raises_only_configuration_error_witness :
  exists x s',
    MCPConfigManager.load_configuration
      (fun _ => MCPConfigManager.Malformed "Expecting value") None (MCPConfigManager.init None)
    = (Raise x, s')
    /\ exn_class_of x = MCPConfigurationError.
Proof.
  eexists. eexists.
  assert (H : MCPConfigManager.load_configuration
                (fun _ => MCPConfigManager.Malformed "Expecting value") None
                (MCPConfigManager.init None)
              = (Raise (Exn MCPConfigurationError
                          "Invalid JSON in config file mcp_config.json: Expecting value"),
                 MCPConfigManager.init None)) by (vm_compute; reflexivity).
  split; [exact H|].
  exact (loading_raises_only_configuration_error _ None PNone _ _ _ (or_introl H)).
Defined.

(** X10: when the configuration file does not exist,
    [load_configuration] returns normally whatever the store held before:
    the store is left empty, with [{"servers": []}] as its document, and
    the objects handed out earlier are untouched. *)
Theorem load_missing_file_gives_empty_store (fs : string -> MCPConfigManager.file)
    (s : MCPConfigManager.state) :
  fs (MCPConfigManager.config_file_path s) = MCPConfigManager.Missing ->
  exists s',
    MCPConfigManager.load_configuration fs None s = (Ok tt, s')
    /\ MCPConfigManager.contents s' = Some []
    /\ MCPConfigManager._config_data s' = PDict [("servers", PList [])]
    /\ forall r o, MCPConfigManager.heap s !! r = Some o ->
                   MCPConfigManager.heap s' !! r = Some o.
Proof.
  intros Hfs. unfold MCPConfigManager.load_configuration, MCPConfigManager.alloc.
  munfold. rewrite Hfs. cbn. eexists. split; [reflexivity|].
  split; [|split; [reflexivity|]].
  - unfold MCPConfigManager.contents. cbn.
    rewrite lookup_app_r by lia. now rewrite Nat.sub_diag.
  - intros r o Hr. cbn. rewrite lookup_app_l; [exact Hr|]. eapply lookup_lt_Some, Hr.
Qed.

Lemma load_missing_file_gives_empty_store_witness :
  exists s',
    MCPConfigManager.load_configuration (fun _ => MCPConfigManager.Missing) None
      two_server_store = (Ok tt, s')
    /\ MCPConfigManager.contents s' = Some []
    /\ MCPConfigManager._config_data s' = PDict [("servers", PList [])]
    /\ forall r o, MCPConfigManager.heap two_server_store !! r = Some o ->
                   MCPConfigManager.heap s' !! r = Some o.
Proof.
  apply (load_missing_file_gives_empty_store (fun _ => MCPConfigManager.Missing)
           two_server_store).
  reflexivity.
Defined.

(** ** Configuration store: single-server operations *)

(** X11: [add_server], [update_server],
    [remove_server], [enable_server] and [disable_server] check before
    they write: when one of them raises, the store is exactly as it was. *)
Theorem store_op_failure_leaves_store (op : store_op) (s s' : MCPConfigManager.state)
    (x : exn) :
  run_op op s = (Raise x, s') -> s' = s.
Proof.
  destruct op as [cfg|n cfg|n|n|n]; cbn [run_op]; store_unfold;
    repeat match goal with
           | |- context [match ?h !! ?r with _ => _ end] => destruct (h !! r) as [[?|?]|]
           | |- context [match dict_get ?k ?d with _ => _ end] => destruct (dict_get k d)
           | |- context [if ?b then _ else _] => destruct b
           end; cbn; congruence.
Qed.

Lemma store_op_failure_leaves_store_witness :
  snd (run_op (RemoveServer "missing") two_server_store) = two_server_store.
Proof.
  apply (store_op_failure_leaves_store (RemoveServer "missing") two_server_store _
           (Exn MCPConfigurationError "Server 'missing' not found")).
  vm_compute. reflexivity.
Defined.

Lemma dict_get_set_eq {V : Type} (k : string) (v : V) (d : list (string * V)) :
  dict_get k (dict_set k v d) = Some v.
Proof.
  induction d as [|[k' v'] d IH]; cbn.
  - unfold str_eqb. now rewrite bool_decide_eq_true_2.
  - destruct (str_eqb k k') eqn:E; cbn.
    + unfold str_eqb. now rewrite bool_decide_eq_true_2.
    + now rewrite E.
Qed.

Lemma set_heap_id (s : MCPConfigManager.state) :
  MCPConfigManager.set_heap (MCPConfigManager.heap s) s = s.
Proof. now destruct s. Qed.

(** X12: a server that [add_server] accepted is found again
    under its name, as the very object that was added, and removing it
    puts the store back exactly where it was before the addition. *)
Theorem add_then_remove_restores_store (cfg : nat) (s s1 : MCPConfigManager.state) :
  MCPConfigManager.add_server cfg s = (Ok tt, s1) ->
  exists c,
    MCPConfigManager.lookup_config (MCPConfigManager.heap s) cfg = Some c
    /\ MCPConfigManager.has_server (MCPServerConfig.name c) s = (Ok false, s)
    /\ MCPConfigManager.has_server (MCPServerConfig.name c) s1 = (Ok true, s1)
    /\ MCPConfigManager.get_server (MCPServerConfig.name c) s1 = (Ok (Some cfg), s1)
    /\ MCPConfigManager.remove_server (MCPServerConfig.name c) s1 = (Ok tt, s).
Proof.
  destruct s as [h path sv cd]. unfold MCPConfigManager.lookup_config. store_unfold. cbn.
  destruct (h !! cfg) as [[?|c]|] eqn:Ecfg; cbn; try discriminate.
  destruct (h !! sv) as [[entries|?]|] eqn:Esv; cbn; try discriminate.
  destruct (dict_mem (MCPServerConfig.name c) entries) eqn:Emem; cbn; [discriminate|].
  intros [= <-]. exists c. cbn.
  assert (Hlt : (sv < length h)%nat) by (eapply lookup_lt_Some; exact Esv).
  rewrite list_lookup_insert_eq by exact Hlt. cbn.
  assert (Hmem : dict_mem (MCPServerConfig.name c)
                   (dict_set (MCPServerConfig.name c) cfg entries) = true)
    by (unfold dict_mem; now rewrite dict_get_set_eq).
  rewrite ?Hmem, ?Emem, ?dict_get_set_eq. cbn.
  rewrite dict_del_set_fresh by exact Emem.
  rewrite list_insert_insert_eq, (list_insert_id h sv _ Esv).
  repeat split.
Qed.

Lemma add_then_remove_restores_store_witness :
  exists c,
    MCPConfigManager.lookup_config (MCPConfigManager.heap one_server_store) 2%nat = Some c
    /\ MCPConfigManager.has_server (MCPServerConfig.name c) one_server_store
       = (Ok false, one_server_store)
    /\ MCPConfigManager.has_server (MCPServerConfig.name c)
         (snd (MCPConfigManager.add_server 2%nat one_server_store))
       = (Ok true, snd (MCPConfigManager.add_server 2%nat one_server_store))
    /\ MCPConfigManager.get_server (MCPServerConfig.name c)
         (snd (MCPConfigManager.add_server 2%nat one_server_store))
       = (Ok (Some 2%nat), snd (MCPConfigManager.add_server 2%nat one_server_store))
    /\ MCPConfigManager.remove_server (MCPServerConfig.name c)
         (snd (MCPConfigManager.add_server 2%nat one_server_store))
       = (Ok tt, one_server_store).
Proof.
  apply (add_then_remove_restores_store 2%nat one_server_store).
  vm_compute. reflexivity.
Defined.

(** X13: [enable_server] and [disable_server] (the two
    instances of [set_server_enabled]) write nothing but the flag of the
    named server's object: the object keeps its other fields, every name
    is present or absent as before, and a later call overrides an earlier
    one, so that disabling after enabling is the same as disabling. *)
Theorem set_server_enabled_last_wins (b b' : bool) (n : string)
    (s s1 : MCPConfigManager.state) :
  MCPConfigManager.set_server_enabled b n s = (Ok tt, s1) ->
  MCPConfigManager.set_server_enabled b' n s1 = MCPConfigManager.set_server_enabled b' n s
  /\ (forall m, fst (MCPConfigManager.has_server m s1) = fst (MCPConfigManager.has_server m s))
  /\ exists cfg c,
       MCPConfigManager.get_server n s1 = (Ok (Some cfg), s1)
       /\ MCPConfigManager.lookup_config (MCPConfigManager.heap s) cfg = Some c
       /\ MCPConfigManager.lookup_config (MCPConfigManager.heap s1) cfg
          = Some (MCPServerConfig.set_enabled b c).
Proof.
  destruct s as [h path sv cd]. unfold MCPConfigManager.lookup_config. store_unfold. cbn.
  destruct (h !! sv) as [[entries|?]|] eqn:Esv; cbn; try discriminate.
  destruct (dict_get n entries) as [cfg|] eqn:En; cbn; [|discriminate].
  destruct (h !! cfg) as [[?|c]|] eqn:Ecfg; cbn; try discriminate.
  intros [= <-]. cbn.
  assert (Hne : cfg <> sv) by (intros ->; congruence).
  assert (Hlt : (cfg < length h)%nat) by (eapply lookup_lt_Some; exact Ecfg).
  rewrite list_lookup_insert_ne by exact Hne. rewrite Esv. cbn. rewrite En. cbn.
  rewrite list_lookup_insert_eq by exact Hlt. cbn.
  rewrite list_insert_insert_eq.
  split; [reflexivity|]. split; [reflexivity|].
  exists cfg, c. split; [reflexivity|]. split; [now rewrite Ecfg|].
  now rewrite list_lookup_insert_eq by exact Hlt.
Qed.

Lemma set_server_enabled_last_wins_witness :
  let s1 := snd (MCPConfigManager.enable_server "another-server" two_server_store) in
  MCPConfigManager.disable_server "another-server" s1
  = MCPConfigManager.disable_server "another-server" two_server_store
  /\ (forall m, fst (MCPConfigManager.has_server m s1)
                = fst (MCPConfigManager.has_server m two_server_store))
  /\ exists cfg c,
       MCPConfigManager.get_server "another-server" s1 = (Ok (Some cfg), s1)
       /\ MCPConfigManager.lookup_config (MCPConfigManager.heap two_server_store) cfg = Some c
       /\ MCPConfigManager.lookup_config (MCPConfigManager.heap s1) cfg
          = Some (MCPServerConfig.set_enabled true c).
Proof.
  apply (set_server_enabled_last_wins true false "another-server" two_server_store).
  vm_compute. reflexivity.
Defined.

Lemma lookup_config_insert_dict (h : list MCPConfigManager.obj) (sv r : nat)
    (e e' : list (string * nat)) :
  h !! sv = Some (MCPConfigManager.ODict e) ->
  MCPConfigManager.lookup_config (<[sv := MCPConfigManager.ODict e']> h) r
  = MCPConfigManager.lookup_config h r.
Proof.
  intros Hsv. unfold MCPConfigManager.lookup_config.
  destruct (decide (sv = r)) as [<-|Hne].
  - rewrite list_lookup_insert_eq by (eapply lookup_lt_Some; exact Hsv). now rewrite Hsv.
  - now rewrite list_lookup_insert_ne.
Qed.

Lemma Forall_dict_set {V : Type} (P : string * V -> Prop) (k : string) (v : V)
    (d : list (string * V)) :
  Forall P d -> P (k, v) -> Forall P (dict_set k v d).
Proof.
  intros Hd Hkv. induction Hd as [|[k' v'] d Hx Hd IH]; cbn.
  - now constructor.
  - destruct (str_eqb k k'); now constructor.
Qed.

Lemma Forall_dict_del {V : Type} (P : string * V -> Prop) (k : string)
    (d : list (string * V)) :
  Forall P d -> Forall P (dict_del k d).
Proof.
  intros Hd. induction Hd as [|[k' v'] d Hx Hd IH]; cbn; [constructor|].
  destruct (str_eqb k k'); [assumption|now constructor].
Qed.

Lemma dict_get_Forall {V : Type} (P : string * V -> Prop) (k : string) (v : V)
    (d : list (string * V)) :
  Forall P d -> dict_get k d = Some v -> exists k', P (k', v).
Proof.
  intros Hd. induction Hd as [|[k' v'] d Hx Hd IH]; cbn; [discriminate|].
  destruct (str_eqb k k'); [intros [= <-]; eauto|exact IH].
Qed.

Lemma listing_keyed (s : MCPConfigManager.state) (cfgs : list MCPServerConfig.t) :
  MCPConfigManager.contents s = Some (listing cfgs) -> keyed s.
Proof.
  intros Hc. apply contents_inv in Hc as (entries & Hsv & Hmap & _).
  exists entries. split; [exact Hsv|]. apply Forall_forall. intros kv Hin.
  apply list_elem_of_In in Hin.
  apply (in_map (fun kv => (fst kv, MCPConfigManager.lookup_config
                                      (MCPConfigManager.heap s) (snd kv)))) in Hin.
  rewrite Hmap in Hin. unfold listing in Hin. apply in_map_iff in Hin as (c & [= E1 E2] & _).
  exists c. now split.
Qed.

(** X14: the store keeps every server under its own name: a
    successful [import_configuration] establishes this, and [add_server],
    [update_server], [remove_server], [enable_server] and
    [disable_server] preserve it, whether they return or raise. *)
Theorem servers_stay_under_their_names :
  (forall doc s0 s, MCPConfigManager.import_configuration doc s0 = (Ok tt, s) -> keyed s)
  /\ (forall op s, keyed s -> keyed (snd (run_op op s))).
Proof.
  split.
  - intros doc s0 s H.
    apply import_configuration_inv in H as (l & cfgs & _ & _ & _ & Hc & _).
    eapply listing_keyed, Hc.
  - intros op [h path sv cd] (entries & Hsv & Hall). cbn in Hsv, Hall.
    assert (Hset : forall e', Forall (stored_under_own_name h) e' ->
              keyed (MCPConfigManager.mk (<[sv := MCPConfigManager.ODict e']> h) path sv cd)).
    { intros e' He'. exists e'. cbn. split.
      - apply list_lookup_insert_eq. eapply lookup_lt_Some, Hsv.
      - eapply Forall_impl; [exact He'|]. intros kv (c & Hc & Hn). exists c.
        split; [|exact Hn]. now rewrite (lookup_config_insert_dict h sv _ entries). }
    assert (Hid : keyed (MCPConfigManager.mk h path sv cd)) by (exists entries; now split).
    assert (Hflag : forall b n,
              keyed (snd (MCPConfigManager.set_server_enabled b n
                            (MCPConfigManager.mk h path sv cd)))).
    { intros b n. store_unfold. cbn. rewrite Hsv. cbn.
      destruct (dict_get n entries) as [cfg|] eqn:En; cbn; [|exact Hid].
      destruct (h !! cfg) as [[?|c]|] eqn:Ecfg; cbn; try exact Hid.
      assert (Hne : cfg <> sv) by (intros ->; congruence).
      exists entries. cbn. split; [now rewrite list_lookup_insert_ne|].
      eapply Forall_impl; [exact Hall|]. intros kv (c' & Hc' & Hn').
      unfold stored_under_own_name, MCPConfigManager.lookup_config in *.
      destruct (decide (cfg = snd kv)) as [E|E].
      - rewrite <- E in *. rewrite Ecfg in Hc'. injection Hc' as <-.
        rewrite list_lookup_insert_eq by (eapply lookup_lt_Some; exact Ecfg).
        exists (MCPServerConfig.set_enabled b c). now split.
      - rewrite list_lookup_insert_ne by exact E. exists c'. now split. }
    destruct op as [cfg|n cfg|n|n|n]; cbn [run_op];
      try apply Hflag.
    + store_unfold. cbn.
      destruct (h !! cfg) as [[?|c]|] eqn:Ecfg; cbn; try exact Hid.
      rewrite Hsv. cbn.
      destruct (dict_mem (MCPServerConfig.name c) entries); cbn; [exact Hid|].
      apply Hset, Forall_dict_set; [exact Hall|].
      exists c. unfold MCPConfigManager.lookup_config. cbn. rewrite Ecfg. now split.
    + store_unfold. cbn.
      destruct (h !! cfg) as [[?|c]|] eqn:Ecfg; cbn; try exact Hid.
      rewrite Hsv. cbn.
      destruct (dict_mem n entries); cbn; [|exact Hid].
      unfold str_eqb. destruct (bool_decide_reflect (MCPServerConfig.name c = n)) as [E|E];
        cbn; [|exact Hid].
      apply Hset, Forall_dict_set; [exact Hall|].
      exists c. unfold MCPConfigManager.lookup_config. cbn. rewrite Ecfg. now split.
    + store_unfold. cbn. rewrite Hsv. cbn.
      destruct (dict_mem n entries); cbn; [|exact Hid].
      apply Hset, Forall_dict_del, Hall.
Qed.

Lemma servers_stay_under_their_names_witness :
  keyed (snd (run_op (DisableServer "test-server") two_server_store)).
Proof.
  apply (proj2 servers_stay_under_their_names).
  apply (proj1 servers_stay_under_their_names two_server_doc (MCPConfigManager.init None)).
  vm_compute. reflexivity.
Defined.

(** ** Server configurations: validation and [model_dump] *)

Lemma append_nil_r (s : string) : s +:+ "" = s.
Proof. induction s as [|c s IH]; [reflexivity|]. change (String c (s +:+ "") = String c s). now rewrite IH. Qed.

Lemma rev_app_spec (a b : string) : String.rev_app a b = String.rev a +:+ b.
Proof.
  unfold String.rev. revert b. induction a as [|c a IH]; intros b; [reflexivity|].
  cbn. rewrite (IH (String c b)), (IH (String c "")), append_assoc. reflexivity.
Qed.

Lemma rev_cons (c : ascii) (s : string) :
  String.rev (String c s) = String.rev s +:+ String c "".
Proof. unfold String.rev at 1. cbn. apply rev_app_spec. Qed.

Lemma rev_append (a b : string) : String.rev (a +:+ b) = String.rev b +:+ String.rev a.
Proof.
  induction a as [|c a IH].
  - change (String.rev b = String.rev b +:+ ""). now rewrite append_nil_r.
  - change (String c a +:+ b) with (String c (a +:+ b)).
    now rewrite !rev_cons, IH, append_assoc.
Qed.

Lemma rev_rev (s : string) : String.rev (String.rev s) = s.
Proof.
  induction s as [|c s IH]; [reflexivity|].
  rewrite rev_cons, rev_append, IH. reflexivity.
Qed.

Lemma lstrip_head (s : string) :
  lstrip s = "" \/ exists c r, lstrip s = String c r /\ is_space c = false.
Proof.
  induction s as [|c s IH]; [now left|]. cbn.
  destruct (is_space c) eqn:E; [exact IH|]. right. eauto.
Qed.

Lemma lstrip_fixed (s : string) :
  (s = "" \/ exists c r, s = String c r /\ is_space c = false) -> lstrip s = s.
Proof. intros [->|(c & r & -> & E)]; [reflexivity|]. cbn. now rewrite E. Qed.

Lemma lstrip_snoc (t : string) (c : ascii) :
  is_space c = false -> lstrip (t +:+ String c "") = lstrip t +:+ String c "".
Proof.
  intros E. induction t as [|x t IH].
  - change (lstrip (String c "") = String c ""). cbn. now rewrite E.
  - change (lstrip (String x (t +:+ String c "")) = lstrip (String x t) +:+ String c "").
    cbn. destruct (is_space x); [exact IH|reflexivity].
Qed.

Lemma rstrip_head (c : ascii) (r : string) :
  is_space c = false -> exists r', rstrip (String c r) = String c r'.
Proof.
  intros E. unfold rstrip.
  rewrite rev_cons.
  rewrite lstrip_snoc by exact E. rewrite rev_append. cbn. eauto.
Qed.

(** [strip] is idempotent. *)
Lemma strip_strip (s : string) : strip (strip s) = strip s.
Proof.
  unfold strip.
  assert (H : lstrip (rstrip (lstrip s)) = rstrip (lstrip s)).
  { apply lstrip_fixed. destruct (lstrip_head s) as [->|(c & r & -> & E)]; [now left|].
    right. destruct (rstrip_head c r E) as [r' ->]. eauto. }
  rewrite H. unfold rstrip. rewrite rev_rev.
  rewrite (lstrip_fixed (lstrip _)) by apply lstrip_head. reflexivity.
Qed.

Lemma alnum_not_space (c : ascii) : is_alnum c = true -> is_space c = false.
Proof.
  destruct c as [[] [] [] [] [] [] [] []]; vm_compute; congruence.
Qed.

Lemma all_chars_append (p : ascii -> bool) (a b : string) :
  all_chars p (a +:+ b) = all_chars p a && all_chars p b.
Proof.
  induction a as [|c a IH]; [reflexivity|].
  change (p c && all_chars p (a +:+ b) = p c && all_chars p a && all_chars p b).
  now rewrite IH, andb_assoc.
Qed.

Lemma all_chars_rev (p : ascii -> bool) (s : string) :
  all_chars p (String.rev s) = all_chars p s.
Proof.
  induction s as [|c s IH]; [reflexivity|].
  rewrite rev_cons.
  rewrite all_chars_append, IH. cbn. rewrite andb_true_r. apply andb_comm.
Qed.

Lemma lstrip_no_space (s : string) :
  all_chars (fun c => negb (is_space c)) s = true -> lstrip s = s.
Proof.
  destruct s as [|c s]; [reflexivity|]. cbn.
  destruct (is_space c); [discriminate|reflexivity].
Qed.

Lemma strip_no_space (s : string) :
  all_chars (fun c => negb (is_space c)) s = true -> strip s = s.
Proof.
  intros H. unfold strip, rstrip. rewrite (lstrip_no_space s H).
  rewrite lstrip_no_space by now rewrite all_chars_rev. apply rev_rev.
Qed.

Lemma name_chars_no_space (v : string) :
  all_chars is_alnum (remove_char "_" (remove_char "-" v)) = true ->
  all_chars (fun c => negb (is_space c)) v = true.
Proof.
  induction v as [|c v IH]; [reflexivity|]. cbn.
  destruct (Ascii.eqb c "-") eqn:E1.
  - apply Ascii.eqb_eq in E1 as ->. intros H. now rewrite (IH H).
  - cbn. destruct (Ascii.eqb c "_") eqn:E2.
    + apply Ascii.eqb_eq in E2 as ->. intros H. now rewrite (IH H).
    + cbn. intros [Hc H]%andb_true_iff. rewrite (IH H), (alnum_not_space c Hc). reflexivity.
Qed.

(** A name the validator accepts has no white space: it is returned as
    it is. *)
Lemma validate_name_fixed (v n : string) :
  MCPServerConfig.validate_name v = Ok n -> n = v /\ MCPServerConfig.validate_name n = Ok n.
Proof.
  unfold MCPServerConfig.validate_name.
  destruct (str_eqb (strip v) "") eqn:E1; [discriminate|].
  destruct (isalnum (remove_char "_" (remove_char "-" v))) eqn:E2; cbn; [|discriminate].
  intros [= <-].
  assert (Hs : strip v = v).
  { apply strip_no_space, name_chars_no_space. unfold isalnum in E2.
    destruct (remove_char "_" (remove_char "-" v)); [discriminate|exact E2]. }
  rewrite !Hs in *. rewrite E1, E2. now split.
Qed.

Lemma validate_endpoint_fixed (v n : string) :
  MCPServerConfig.validate_endpoint v = Ok n -> MCPServerConfig.validate_endpoint n = Ok n.
Proof.
  unfold MCPServerConfig.validate_endpoint.
  destruct (str_eqb (strip v) "") eqn:E1; [discriminate|].
  intros [= <-]. now rewrite strip_strip, E1.
Qed.

Lemma as_validation_error_ok {A : Type} (r : res A) (a : A) :
  MCPServerConfig.as_validation_error r = Ok a -> r = Ok a.
Proof. destruct r; cbn; congruence. Qed.

Lemma new_model_dump (server_data : pyval) (c : MCPServerConfig.t) :
  MCPServerConfig.new server_data = Ok c ->
  MCPServerConfig.new (MCPServerConfig.model_dump c) = Ok c.
Proof.
  destruct server_data as [| | | | | |d]; try discriminate.
  unfold MCPServerConfig.new, MCPServerConfig.from_dict.
  destruct (res_bind (MCPServerConfig.str_field "name" d) _) as [n|] eqn:En; [|discriminate].
  destruct (res_bind (MCPServerConfig.str_field "endpoint" d) _) as [ep|] eqn:Eep;
    [|discriminate].
  destruct (MCPServerConfig.dict_field "authentication" d) as [auth|]; [|discriminate].
  destruct (MCPServerConfig.str_list_field "available_tools" d) as [tools|] eqn:Et;
    [|discriminate].
  destruct (MCPServerConfig.bool_field "enabled" true d) as [en|]; [|discriminate].
  destruct (MCPServerConfig.int_field "timeout" 30 _ d) as [tm|] eqn:Etm; [|discriminate].
  destruct (MCPServerConfig.int_field "max_retries" 3 _ d) as [mr|] eqn:Emr; [|discriminate].
  cbn [res_bind]. intros [= <-].
  assert (Hn : MCPServerConfig.validate_name n = Ok n).
  { destruct (MCPServerConfig.str_field "name" d) as [v|]; [|discriminate]. cbn in En.
    apply as_validation_error_ok in En. now apply validate_name_fixed in En. }
  assert (Hep : MCPServerConfig.validate_endpoint ep = Ok ep).
  { destruct (MCPServerConfig.str_field "endpoint" d) as [v|]; [|discriminate]. cbn in Eep.
    apply as_validation_error_ok in Eep. now apply validate_endpoint_fixed in Eep. }
  assert (Htools : forallb MCPServerConfig.is_str tools = true).
  { unfold MCPServerConfig.str_list_field in Et.
    destruct (dict_get "available_tools" d) as [[| | | | |l|]|]; try discriminate.
    - destruct (forallb MCPServerConfig.is_str l) eqn:E; [|discriminate]. congruence.
    - now injection Et as <-. }
  assert (Htm : MCPServerConfig.validate_timeout tm = Ok tm).
  { unfold MCPServerConfig.int_field in Etm.
    destruct (dict_get "timeout" d) as [[| |z| | | |]|]; try discriminate.
    - apply as_validation_error_ok in Etm. unfold MCPServerConfig.validate_timeout in *.
      destruct (z <=? 0) eqn:E; [discriminate|]. injection Etm as <-. now rewrite E.
    - now injection Etm as <-. }
  assert (Hmr : MCPServerConfig.validate_max_retries mr = Ok mr).
  { unfold MCPServerConfig.int_field in Emr.
    destruct (dict_get "max_retries" d) as [[| |z| | | |]|]; try discriminate.
    - apply as_validation_error_ok in Emr. unfold MCPServerConfig.validate_max_retries in *.
      destruct (z <? 0) eqn:E; [discriminate|]. injection Emr as <-. now rewrite E.
    - now injection Emr as <-. }
  unfold MCPServerConfig.model_dump, MCPServerConfig.str_field, MCPServerConfig.dict_field,
    MCPServerConfig.str_list_field, MCPServerConfig.bool_field, MCPServerConfig.int_field.
  cbn [MCPServerConfig.name MCPServerConfig.endpoint MCPServerConfig.authentication
       MCPServerConfig.available_tools MCPServerConfig.enabled MCPServerConfig.timeout
       MCPServerConfig.max_retries].
  assert (G : forall k (v : pyval) l, dict_get k ((k, v) :: l) = Some v).
  { intros. cbn. unfold str_eqb. now rewrite bool_decide_eq_true_2. }
  assert (G' : forall k k' (v : pyval) l, k <> k' ->
                 dict_get k ((k', v) :: l) = dict_get k l).
  { intros. cbn. unfold str_eqb. now rewrite bool_decide_eq_false_2. }
  repeat (rewrite G || rewrite G' by discriminate).
  cbn [res_bind]. rewrite Hn, Hep, Htools, Htm, Hmr. reflexivity.
Qed.

(** X15: a configuration the constructor accepted is rebuilt
    unchanged by the constructor from its own [model_dump()]: validated
    names and endpoints are fixed points of their validators, and every
    default is made explicit by the dump. *)
Theorem model_dump_round_trip (server_data : pyval) (c : MCPServerConfig.t) :
  MCPServerConfig.new server_data = Ok c ->
  MCPServerConfig.new (MCPServerConfig.model_dump c) = Ok c.
Proof. apply new_model_dump. Qed.

Lemma model_dump_round_trip_witness :
  MCPServerConfig.new
    (MCPServerConfig.model_dump (demo_config "test-server" "http://localhost:8001"))
  = Ok (demo_config "test-server" "http://localhost:8001").
Proof.
  apply (model_dump_round_trip
           (PDict [("name", PStr "test-server"); ("endpoint", PStr " http://localhost:8001 ")])).
  vm_compute. reflexivity.
Defined.

(** ** Configuration store: export and import *)

Lemma dump_entries_listing (s : MCPConfigManager.state) (entries : list (string * nat)) :
  forall cfgs,
    map (fun kv => (fst kv, MCPConfigManager.lookup_config (MCPConfigManager.heap s) (snd kv)))
      entries = listing cfgs ->
    MCPConfigManager.dump_entries entries s = (Ok (map MCPServerConfig.model_dump cfgs), s).
Proof.
  induction entries as [|[k r] entries IH]; intros [|c cfgs]; cbn; try discriminate.
  - reflexivity.
  - intros [= _ Hr Hrest]. unfold MCPConfigManager.deref_config, MCPConfigManager.deref.
    unfold MCPConfigManager.lookup_config in Hr. munfold.
    destruct (MCPConfigManager.heap s !! r) as [[?|c']|]; try discriminate.
    injection Hr as ->. cbn. now rewrite (IH cfgs Hrest).
Qed.

Lemma dict_get_set_ne {V : Type} (k k' : string) (v : V) (d : list (string * V)) :
  k <> k' -> dict_get k (dict_set k' v d) = dict_get k d.
Proof.
  intros Hne. induction d as [|[k0 v0] d IH]; cbn.
  - unfold str_eqb. now rewrite bool_decide_eq_false_2.
  - unfold str_eqb. destruct (bool_decide_reflect (k' = k0)) as [<-|E]; cbn.
    + unfold str_eqb. now rewrite !bool_decide_eq_false_2.
    + unfold str_eqb. destruct (bool_decide (k = k0)); [reflexivity|exact IH].
Qed.

Lemma preserve_keys_servers (items config_data : pydict) :
  dict_get "servers" (MCPConfigManager.preserve_keys items config_data)
  = dict_get "servers" config_data.
Proof.
  revert config_data. induction items as [|[k v] items IH]; intros cd; [reflexivity|].
  cbn. rewrite IH. unfold str_eqb.
  destruct (bool_decide_reflect (k = "servers")) as [E|E]; cbn; [reflexivity|].
  apply dict_get_set_ne. congruence.
Qed.

Lemma validated_dumps (l : list pyval) (cfgs : list MCPServerConfig.t) :
  validated l cfgs -> validated (map MCPServerConfig.model_dump cfgs) cfgs.
Proof.
  induction 1 as [|e c l cfgs He _ IH]; [constructor|].
  cbn. constructor; [|exact IH]. eapply new_model_dump, He.
Qed.

(** X16: what [export_configuration] writes,
    [import_configuration] reads back: on a store filled by a successful
    import, the export returns a document without touching the store, and
    importing that document succeeds and yields the same servers, in the
    same order, with the same field values. *)
Theorem export_import_round_trip (doc : pyval) (s s1 : MCPConfigManager.state) :
  MCPConfigManager.import_configuration doc s = (Ok tt, s1) ->
  exists doc' s2,
    MCPConfigManager.export_configuration s1 = (Ok doc', s1)
    /\ MCPConfigManager.import_configuration doc' s1 = (Ok tt, s2)
    /\ MCPConfigManager.contents s2 = MCPConfigManager.contents s1.
Proof.
  intros Himp.
  destruct (import_configuration_inv doc s s1 Himp)
    as (l & cfgs & Hget & Hv & Hnd & Hc & _ & Hcd).
  destruct doc as [| | | | | |d]; try discriminate.
  destruct (contents_inv s1 cfgs Hc) as (entries & Hsv & Hmap & _).
  set (dumps := map MCPServerConfig.model_dump cfgs).
  set (d' := if truthy (PDict d)
             then MCPConfigManager.preserve_keys d [("servers", PList dumps)]
             else [("servers", PList dumps)]).
  assert (Hexp : MCPConfigManager.export_configuration s1 = (Ok (PDict d'), s1)).
  { unfold MCPConfigManager.export_configuration, MCPConfigManager.deref_dict,
      MCPConfigManager.deref.
    unfold Py.bind at 1, gets. unfold Py.bind at 1. unfold Py.bind at 1. rewrite Hsv.
    unfold ret at 1. unfold Py.bind at 1.
    rewrite (dump_entries_listing s1 entries cfgs Hmap).
    unfold Py.bind at 1. rewrite Hcd. subst d' dumps. destruct (truthy (PDict d)); reflexivity. }
  assert (Hget' : py_get (PDict d') "servers" (PList []) = Ok (PList dumps)).
  { cbn. subst d'. destruct (truthy (PDict d)).
    - rewrite preserve_keys_servers. reflexivity.
    - reflexivity. }
  destruct (import_configuration_ok d' dumps cfgs s1 Hget' (validated_dumps l cfgs Hv) Hnd)
    as (s2 & Hrun & Hc2 & _).
  exists (PDict d'), s2. split; [exact Hexp|]. split; [exact Hrun|]. congruence.
Qed.

Lemma export_import_round_trip_witness :
  exists doc' s2,
    MCPConfigManager.export_configuration two_server_store = (Ok doc', two_server_store)
    /\ MCPConfigManager.import_configuration doc' two_server_store = (Ok tt, s2)
    /\ MCPConfigManager.contents s2 = MCPConfigManager.contents two_server_store.
Proof.
  apply (export_import_round_trip two_server_doc (MCPConfigManager.init None)).
  vm_compute. reflexivity.
Defined.

(** ** Client manager: further operations *)

Section ManagerFacts.

Context {C : Type} {P : MCPClientManager.ProtocolClient C}.

Local Abbreviation manager := (MCPClientManager.t C).


(** X18: [reconnect_server] never raises; it answers
    [True] only when the server ends up in [connected_servers] with a
    cached catalogue, and for a name without a client it answers [False]
    and changes nothing. *)
Theorem reconnect_server_outcome (s : manager) (n : string) :
  exists b s',
    MCPClientManager.reconnect_server n s = (Ok b, s')
    /\ (b = true ->
        n ∈ MCPClientManager.connected_servers s'
        /\ is_Some (MCPClientManager.available_tools s' !! n))
    /\ (MCPClientManager.clients s !! n = None -> b = false /\ s' = s).
Proof.
  unfold MCPClientManager.reconnect_server. unfold Py.bind at 1, gets.
  destruct (MCPClientManager.clients s !! n) as [c|] eqn:Hc.
  - rewrite bool_decide_eq_true_2 by eauto. cbn [negb].
    unfold Py.try_except.
    match goal with |- context [match ?m s with _ => _ end] =>
      destruct (m s) as [[b|e] s1] eqn:Hm end.
    + exists b, s1. split; [reflexivity|]. split; [|discriminate].
      intros ->.
      apply bind_ok in Hm as (connected & s2 & _ & Hm).
      apply bind_ok in Hm as ([] & s3 & _ & Hm).
      apply bind_ok in Hm as (success & s4 & _ & Hm).
      destruct success; [|discriminate].
      apply bind_ok in Hm as ([] & s5 & Hadd & Hm).
      apply bind_ok in Hm as (tools & s6 & Hget & Hm).
      apply bind_ok in Hm as ([] & s7 & Hstore & Hm).
      injection Hm as <-. injection Hstore as <-. injection Hadd as <-.
      pose proof (on_client_frame n MCPClientManager.client_get_available_tools
                    (MCPClientManager.set_connected_servers
                       ({[n]} ∪ MCPClientManager.connected_servers s4) s4)) as Hf.
      rewrite Hget in Hf. cbn in Hf. destruct Hf as (Hcs & _).
      cbn. rewrite Hcs. split; [apply elem_of_union_l, elem_of_singleton; reflexivity|].
      rewrite lookup_insert_eq. eauto.
    + exists false, s1. split; [reflexivity|]. split; discriminate.
  - rewrite bool_decide_eq_false_2 by (intros [? ?]; discriminate). cbn [negb].
    exists false, s. split; [reflexivity|]. split; [discriminate|]. now split.
Qed.


(** X20: [disconnect_from_servers] never raises, whatever
    the clients do when asked to disconnect, and always leaves the manager
    without clients, connected servers or cached catalogues. *)
Theorem disconnect_from_servers_clears (s : manager) :
  exists s',
    MCPClientManager.disconnect_from_servers s = (Ok tt, s')
    /\ MCPClientManager.connected_servers s' = ∅
    /\ MCPClientManager.available_tools s' = ∅
    /\ MCPClientManager.clients s' = ∅
    /\ MCPClientManager.aggregate_invariant s'.
Proof.
  destruct (disconnect_from_servers_spec s) as (s' & Hrun & Hc & Ht & Hcl).
  exists s'. repeat split; try assumption.
  unfold MCPClientManager.aggregate_invariant. rewrite Hc, Ht. now rewrite dom_empty_L.
Qed.

End ManagerFacts.


Lemma reconnect_server_outcome_witness :
  exists b s',
    MCPClientManager.reconnect_server (P := MCPClientManager.protocol_client demo_net)
      "weather-server" demo_manager = (Ok b, s')
    /\ (b = true ->
        "weather-server" ∈ MCPClientManager.connected_servers s'
        /\ is_Some (MCPClientManager.available_tools s' !! "weather-server"))
    /\ (MCPClientManager.clients demo_manager !! "weather-server" = None ->
        b = false /\ s' = demo_manager).
Proof.
  exact (reconnect_server_outcome demo_manager "weather-server").
Defined.

Section OperationsKeepInvariant.

Context {C : Type} {P : MCPClientManager.ProtocolClient C}.

Hypothesis catalogue_total :
  forall c : C, exists tools c', MCPClientManager.client_get_available_tools c = (Ok tools, c').


Lemma preserves_raise {A : Type} (e : exn) : preserves (C := C) (A := A) (raise e).
Proof. intros s Hs. exact Hs. Qed.





End OperationsKeepInvariant.


(** X22: [disconnect] of the protocol client never
    raises; on a client that is already reset it closes nothing and
    changes nothing; and when every close succeeds it leaves the client
    reset: not connected, without connection type, session or websocket. *)
Theorem disconnect_outcome (c : MCPProtocolClient.t) (e : MCPProtocolClient.io) :
  exists w',
    MCPProtocolClient.disconnect (c, e) = (Ok tt, w')
    /\ (MCPProtocolClient.is_reset c = true -> w' = (c, e))
    /\ ((forall n, exists p, MCPProtocolClient.script e n = MCPProtocolClient.IoOk p) ->
        MCPProtocolClient.is_reset (fst w') = true).
Proof.
  destruct (disconnect_never_raises (c, e)) as [w' Hrun]. exists w'.
  split; [exact Hrun|]. split.
  - intros Hr. rewrite (disconnect_reset_noop c e Hr) in Hrun. now injection Hrun.
  - intros Hok. destruct (disconnect_resets_when_closes_succeed c e Hok) as (w1 & H1 & Hr).
    rewrite Hrun in H1. now injection H1 as <-.
Qed.

Lemma disconnect_outcome_witness :
  exists w',
    MCPProtocolClient.disconnect
      (ws_client "srv", demo_io (fun _ => MCPProtocolClient.IoOk PNone)) = (Ok tt, w')
    /\ (MCPProtocolClient.is_reset (ws_client "srv") = true ->
        w' = (ws_client "srv", demo_io (fun _ => MCPProtocolClient.IoOk PNone)))
    /\ ((forall n, exists p,
           MCPProtocolClient.script (demo_io (fun _ => MCPProtocolClient.IoOk PNone)) n
           = MCPProtocolClient.IoOk p) ->
        MCPProtocolClient.is_reset (fst w') = true).
Proof.
  exact (disconnect_outcome (ws_client "srv")
           (demo_io (fun _ => MCPProtocolClient.IoOk PNone))).
Defined.

(** ** Client manager: tool lookup *)

Lemma each_tool_Forall (body : string -> pyval -> res (option pydict)) (Q : pydict -> Prop)
    (server : string) (tools : list pyval) (out : list pydict) :
  (forall tool d, body server tool = Ok (Some d) -> Q d) ->
  MCPClientManager.each_tool body server tools = Ok out -> Forall Q out.
Proof.
  intros Hb. revert out. induction tools as [|tool tools IH]; intros out; cbn.
  - intros [= <-]. constructor.
  - destruct (body server tool) as [found|] eqn:E; cbn; [|discriminate].
    destruct (MCPClientManager.each_tool body server tools) as [more|]; cbn; [|discriminate].
    intros [= <-]. destruct found as [d|]; [constructor; eauto|]; now apply IH.
Qed.

Lemma each_server_Forall (body : string -> pyval -> res (option pydict))
    (Q : string -> pydict -> Prop) (items : list (string * pyval)) (out : list pydict) :
  (forall server tool d, body server tool = Ok (Some d) -> Q server d) ->
  MCPClientManager.each_server body items = Ok out ->
  Forall (fun d => exists server, In server (map fst items) /\ Q server d) out.
Proof.
  intros Hb. revert out. induction items as [|[server tools] items IH]; intros out; cbn.
  - intros [= <-]. constructor.
  - destruct (py_iter tools) as [tool_list|]; cbn; [|discriminate].
    destruct (MCPClientManager.each_tool body server tool_list) as [here|] eqn:E; cbn;
      [|discriminate].
    destruct (MCPClientManager.each_server body items) as [more|]; cbn; [|discriminate].
    intros [= <-]. apply Forall_app. split.
    + eapply Forall_impl; [eapply each_tool_Forall; [|exact E]|].
      * intros tool d Hd. exact (Hb server tool d Hd).
      * cbn. intros d Hd. exists server. split; [now left|exact Hd].
    + eapply Forall_impl; [apply IH; reflexivity|].
      cbn. intros d (sv & Hin & Hq). exists sv. split; [now right|exact Hq].
Qed.

Lemma with_server_spec (server : string) (tool : pyval) (d : pydict) :
  MCPClientManager.with_server server tool = Ok d ->
  exists d0, tool = PDict d0 /\ d = dict_set "server_name" (PStr server) d0.
Proof. destruct tool; cbn; try discriminate. intros [= <-]. eauto. Qed.

Lemma each_tool_find (server tool_name : string) (tools : list pyval) (here : list pydict) :
  MCPClientManager.each_tool
    (fun server_name tool =>
       res_bind (MCPClientManager.with_server server_name tool) (fun d => Ok (Some d)))
    server tools = Ok here ->
  MCPClientManager.each_tool
    (fun server_name tool =>
       res_bind (py_get tool "name" PNone) (fun n =>
       if py_eq_str n tool_name then
         res_bind (MCPClientManager.with_server server_name tool) (fun d => Ok (Some d))
       else Ok None))
    server tools
  = Ok (List.filter (fun d => py_eq_str (name_of d) tool_name) here).
Proof.
  revert here. induction tools as [|tool tools IH]; intros here; cbn.
  - intros [= <-]. reflexivity.
  - destruct (MCPClientManager.with_server server tool) as [d|] eqn:E; cbn; [|discriminate].
    destruct (MCPClientManager.each_tool _ server tools) as [more|]; cbn; [|discriminate].
    intros [= <-]. apply with_server_spec in E as (d0 & -> & ->). cbn.
    rewrite (IH more eq_refl). cbn. unfold name_of.
    rewrite dict_get_set_ne by discriminate.
    destruct (py_eq_str _ tool_name); reflexivity.
Qed.

(** X23: [find_tools_by_name] returns exactly the entries of
    [get_all_tools_flat] whose name is the one asked for, in the same
    order; every entry of either list carries the name of the server it
    was cached for. *)
Theorem find_tools_by_name_filters_flat (items : list (string * pyval))
    (tool_name : string) (all : list pydict) :
  MCPClientManager.get_all_tools_flat items = Ok all ->
  MCPClientManager.find_tools_by_name items tool_name
  = Ok (List.filter (fun d => py_eq_str (name_of d) tool_name) all)
  /\ Forall (attributed items) all.
Proof.
  intros Hall. split.
  - revert all Hall. unfold MCPClientManager.get_all_tools_flat,
      MCPClientManager.find_tools_by_name.
    induction items as [|[server tools] items IH]; intros all; cbn.
    + intros [= <-]. reflexivity.
    + destruct (py_iter tools) as [tool_list|]; cbn; [|discriminate].
      destruct (MCPClientManager.each_tool _ server tool_list) as [here|] eqn:E; cbn;
        [|discriminate].
      destruct (MCPClientManager.each_server _ items) as [more|]; cbn; [|discriminate].
      intros [= <-]. rewrite (each_tool_find server tool_name tool_list here E). cbn.
      rewrite (IH more eq_refl). cbn. now rewrite List.filter_app.
  - eapply Forall_impl.
    + eapply (each_server_Forall _
                (fun server d => dict_get "server_name" d = Some (PStr server)));
        [|exact Hall].
      intros server tool d Hd. cbn in Hd.
      destruct (MCPClientManager.with_server server tool) as [d'|] eqn:E; [|discriminate].
      injection Hd as <-. apply with_server_spec in E as (d0 & _ & ->).
      apply dict_get_set_eq.
    + cbn. intros d (server & Hin & Hd). exists server. now split.
Qed.

Lemma find_tools_by_name_filters_flat_witness :
  MCPClientManager.find_tools_by_name
    [("weather-server", PList [tool_descriptor "get_forecast" weather_schema;
                               tool_descriptor "get_alerts" weather_schema])]
    "get_alerts"
  = Ok (List.filter (fun d => py_eq_str (name_of d) "get_alerts")
          [dict_set "server_name" (PStr "weather-server")
             match tool_descriptor "get_forecast" weather_schema with
             | PDict d => d | _ => [] end;
           dict_set "server_name" (PStr "weather-server")
             match tool_descriptor "get_alerts" weather_schema with
             | PDict d => d | _ => [] end]).
Proof.
  apply (find_tools_by_name_filters_flat
           [("weather-server", PList [tool_descriptor "get_forecast" weather_schema;
                                      tool_descriptor "get_alerts" weather_schema])]).
  vm_compute. reflexivity.
Defined.

Lemma relevance_bounds (keywords : list string) (tool_name description : string) :
  0 <= MCPClientManager.relevance keywords tool_name description
       <= 4 * Z.of_nat (length keywords).
Proof.
  unfold MCPClientManager.relevance.
  match goal with |- _ <= fold_left ?g _ _ <= _ => set (f := g) end.
  assert (Hf : forall acc k, acc <= f acc k <= acc + 4).
  { intros acc k. subst f. cbv beta zeta.
    destruct (str_in (lower k) tool_name), (str_in (lower k) description); lia. }
  assert (H : forall acc,
            acc <= fold_left f keywords acc <= acc + 4 * Z.of_nat (length keywords)).
  { induction keywords as [|k keywords IH]; intros acc; cbn [fold_left length]; [lia|].
    specialize (IH (f acc k)). specialize (Hf acc k). lia. }
  specialize (H 0). lia.
Qed.

Lemma insert_by_score_perm (x : pydict) (l : list pydict) :
  Permutation (x :: l) (MCPClientManager.insert_by_score x l).
Proof.
  induction l as [|y l IH]; cbn; [reflexivity|].
  destruct (_ <=? _); [reflexivity|].
  rewrite perm_swap. now constructor.
Qed.

Lemma sort_by_score_perm (l : list pydict) : Permutation l (MCPClientManager.sort_by_score l).
Proof.
  induction l as [|x l IH]; cbn; [constructor|].
  rewrite <- insert_by_score_perm. now constructor.
Qed.

Lemma insert_by_score_descending (x : pydict) (l : list pydict) :
  descending l -> descending (MCPClientManager.insert_by_score x l).
Proof.
  induction l as [|y l IH]; cbn; [intros _; split; [constructor|exact I]|].
  intros [Hy Hl]. destruct (Z.leb_spec (MCPClientManager.score_of y) (MCPClientManager.score_of x)).
  - cbn. split; [|now split]. constructor; [assumption|].
    eapply Forall_impl; [exact Hy|]. cbn. intros z Hz. lia.
  - cbn. split; [|now apply IH].
    apply (Permutation_Forall (insert_by_score_perm x l)).
    constructor; [lia|exact Hy].
Qed.

Lemma sort_by_score_descending (l : list pydict) :
  descending (MCPClientManager.sort_by_score l).
Proof.
  induction l as [|x l IH]; cbn; [exact I|]. now apply insert_by_score_descending.
Qed.

(** The sort is stable: it leaves a list alone that is already in
    order. *)
Lemma sort_by_score_sorted (l : list pydict) :
  descending l -> MCPClientManager.sort_by_score l = l.
Proof.
  induction l as [|x l IH]; [reflexivity|].
  intros [Hx Hl].
  change (MCPClientManager.insert_by_score x (MCPClientManager.sort_by_score l) = x :: l).
  rewrite (IH Hl). destruct l as [|y l]; [reflexivity|]. cbn [MCPClientManager.insert_by_score].
  inversion Hx as [|? ? Hy _]; subst.
  destruct (Z.leb_spec (MCPClientManager.score_of y) (MCPClientManager.score_of x));
    [reflexivity|lia].
Qed.

Lemma scored_matches_scores (items : list (string * pyval)) (keywords : list string)
    (matches : list pydict) :
  MCPClientManager.scored_matches items keywords = Ok matches ->
  Forall (fun d => 0 < MCPClientManager.score_of d <= 4 * Z.of_nat (length keywords)
                   /\ attributed items d) matches.
Proof.
  intros H. eapply Forall_impl.
  - eapply (each_server_Forall _
              (fun server d =>
                 0 < MCPClientManager.score_of d <= 4 * Z.of_nat (length keywords)
                 /\ dict_get "server_name" d = Some (PStr server))); [|exact H].
    intros server tool d. cbn.
    destruct (res_bind (py_get tool "description" (PStr "")) MCPClientManager.py_lower)
      as [description|]; cbn; [|discriminate].
    destruct (res_bind (py_get tool "name" (PStr "")) MCPClientManager.py_lower)
      as [tool_name|]; cbn; [|discriminate].
    pose proof (relevance_bounds keywords tool_name description) as Hb.
    destruct (Z.ltb_spec 0 (MCPClientManager.relevance keywords tool_name description));
      [|discriminate].
    destruct (MCPClientManager.with_server server tool) as [d'|] eqn:E; cbn; [|discriminate].
    intros [= <-]. apply with_server_spec in E as (d0 & _ & ->).
    unfold MCPClientManager.score_of. rewrite dict_get_set_eq.
    split; [lia|]. rewrite dict_get_set_ne by discriminate. apply dict_get_set_eq.
  - cbn. intros d (server & Hin & Hs & Hd). split; [exact Hs|]. exists server. now split.
Qed.


(** X24: [find_tools_by_description] returns the
    matching tools by descending relevance score, every tool exactly as
    often as it matched; each returned tool has a score between 1 and four
    times the number of keywords and carries the name of its server; and
    matches that are already in order are returned in the order they were
    found. *)
Theorem find_tools_by_description_ranked (items : list (string * pyval))
    (keywords : list string) (out : list pydict) :
  MCPClientManager.find_tools_by_description items keywords = Ok out ->
  descending out
  /\ Forall (fun d => 0 < MCPClientManager.score_of d <= 4 * Z.of_nat (length keywords)
                      /\ attributed items d) out
  /\ exists matches,
       MCPClientManager.scored_matches items keywords = Ok matches
       /\ Permutation matches out
       /\ (descending matches -> out = matches).
Proof.
  unfold MCPClientManager.find_tools_by_description.
  destruct (MCPClientManager.scored_matches items keywords) as [matches|] eqn:E; cbn;
    [|discriminate].
  intros [= <-]. split; [apply sort_by_score_descending|]. split.
  - apply (Permutation_Forall (sort_by_score_perm matches)).
    now apply scored_matches_scores.
  - exists matches. split; [reflexivity|]. split; [apply sort_by_score_perm|].
    apply sort_by_score_sorted.
Qed.

Lemma find_tools_by_description_ranked_witness :
  let out := match MCPClientManager.find_tools_by_description demo_items ["forecast"; "tool"] with
             | Ok l => l | Raise _ => [] end in
  descending out
  /\ Forall (fun d => 0 < MCPClientManager.score_of d <= 4 * Z.of_nat 2
                      /\ attributed demo_items d) out
  /\ exists matches,
       MCPClientManager.scored_matches demo_items ["forecast"; "tool"] = Ok matches
       /\ Permutation matches out
       /\ (descending matches -> out = matches).
Proof.
  apply (find_tools_by_description_ranked demo_items ["forecast"; "tool"]).
  vm_compute. reflexivity.
Defined.




(** ** Chat service: parameters generated for a tool *)

Lemma assign_parameter_shape (message : string) (conv : option ChatService.conversation)
    (ps ps' : pydict) (n : string) (def : pyval) :
  ChatService.assign_parameter message conv ps n def = Ok ps' ->
  exists own,
    ChatService.assign_parameter message conv [] n def = Ok own
    /\ ((own = [] /\ ps' = ps) \/ exists v, own = [(n, v)] /\ ps' = dict_set n v ps).
Proof.
  unfold ChatService.assign_parameter.
  destruct (py_get def "type" (PStr "string")) as [ty|]; cbn [res_bind]; [|discriminate].
  cbv zeta.
  destruct (ChatService.lower_in n ["query"; "q"; "search"; "term"]); [shape_done|].
  destruct (ChatService.lower_in n ["text"; "content"; "input"]); [shape_done|].
  destruct (ChatService.lower_in n ["location"; "city"]).
  { match goal with |- context [match ?x with Some _ => _ | None => _ end] =>
      destruct x as [l|] eqn:El end; [|shape_done].
    destruct (ChatService.truthy_str (Some l)); shape_done. }
  destruct (ChatService.lower_in n ["limit"; "count"; "max"]
            && ChatService.type_in ty ["integer"; "number"]); [shape_done|].
  destruct (ChatService.lower_in n ["format"; "type"] && _).
  { destruct (py_get def "enum" (PList [])) as [enum_values|]; cbn [res_bind];
      [|discriminate].
    destruct (truthy enum_values); [|shape_done].
    destruct (ChatService.py_first enum_values); cbn [res_bind]; [shape_done|discriminate]. }
  destruct (str_eqb (lower n) "days" && ChatService.type_in ty ["integer"; "number"]);
    [|shape_done].
  destruct (ChatService._extract_days_from_message message) as [days|]; [|shape_done].
  destruct (days =? 0); shape_done.
Qed.

Lemma dict_set_keys {V : Type} (k k' : string) (v : V) (d : list (string * V)) :
  In k (map fst (dict_set k' v d)) -> k = k' \/ In k (map fst d).
Proof.
  induction d as [|[k0 v0] d IH]; cbn.
  - intros [<-|[]]. now left.
  - destruct (str_eqb k' k0); cbn; intros [<-|H]; auto.
    destruct (IH H); auto.
Qed.

(** The loop hands out values to declared properties only, and what a
    property gets depends on nothing but its own declaration. *)
Lemma assign_parameters_local (message : string) (conv : option ChatService.conversation)
    (items : pydict) :
  forall ps out,
    ChatService.assign_parameters message conv items ps = Ok out ->
    (forall k, In k (map fst out) -> In k (map fst ps) \/ In k (map fst items))
    /\ (forall n, ~ In n (map fst items) -> dict_get n out = dict_get n ps)
    /\ (NoDup (map fst items) ->
        forall n def, In (n, def) items ->
          exists own,
            ChatService.assign_parameter message conv [] n def = Ok own
            /\ dict_get n out = match dict_get n own with
                                | Some v => Some v
                                | None => dict_get n ps
                                end).
Proof.
  induction items as [|[k d] items IH]; intros ps out; cbn.
  - intros [= <-]. repeat split; auto. intros _ n def [].
  - destruct (ChatService.assign_parameter message conv ps k d) as [ps1|] eqn:E;
      cbn [res_bind]; [|discriminate].
    intros Hrest. destruct (IH ps1 out Hrest) as (Hkeys & Hframe & Hloc).
    destruct (assign_parameter_shape _ _ _ _ _ _ E) as (own & Hown & Hshape).
    assert (Hps1 : forall n, n <> k -> dict_get n ps1 = dict_get n ps).
    { intros n Hn. destruct Hshape as [[_ ->]|(v & _ & ->)]; [reflexivity|].
      now apply dict_get_set_ne. }
    split; [|split].
    + intros x Hx. destruct (Hkeys x Hx) as [H|H]; [|auto].
      destruct Hshape as [[_ ->]|(v & _ & ->)]; [auto|].
      apply dict_set_keys in H as [->|H]; auto.
    + intros n Hn. rewrite Hframe by (intros H; apply Hn; now right).
      apply Hps1. intros ->. apply Hn. now left.
    + intros Hnd n def [[= -> ->]|Hin].
      * exists own. split; [exact Hown|].
        apply NoDup_cons in Hnd as [Hk _]. rewrite Hframe by (now rewrite list_elem_of_In in Hk).
        destruct Hshape as [[-> ->]|(v & -> & ->)]; [reflexivity|].
        rewrite dict_get_set_eq. cbn. unfold str_eqb. now rewrite bool_decide_eq_true_2.
      * apply NoDup_cons in Hnd as [Hk Hnd].
        destruct (Hloc Hnd n def Hin) as (own' & Hown' & Hget).
        exists own'. split; [exact Hown'|]. rewrite Hget, Hps1; [reflexivity|].
        intros ->. apply Hk, list_elem_of_In. apply (in_map fst) in Hin. exact Hin.
Qed.

Lemma generate_unfold (message : string) (tool : pydict)
    (conv : option ChatService.conversation) (items : pydict) :
  properties_of tool = Ok items ->
  ChatService._generate_tool_parameters message tool conv
  = res_bind (ChatService.assign_parameters message conv items []) (fun parameters =>
      match parameters with
      | [] =>
          if dict_mem "query" items then Ok (dict_set "query" (PStr message) parameters)
          else match items with
               | [(param_name, _)] => Ok (dict_set param_name (PStr message) parameters)
               | _ => Ok parameters
               end
      | _ => Ok parameters
      end).
Proof.
  unfold properties_of, ChatService._generate_tool_parameters.
  destruct (py_get (PDict tool) "inputSchema" (PDict [])) as [schema|]; cbn [res_bind];
    [|discriminate].
  destruct (py_get schema "properties" (PDict [])) as [props|]; cbn [res_bind];
    [|discriminate].
  now intros ->.
Qed.

Lemma query_rule (message : string) (conv : option ChatService.conversation)
    (ps : pydict) (def : pyval) (own : pydict) :
  ChatService.assign_parameter message conv ps "query" def = Ok own ->
  own = dict_set "query" (PStr message) ps.
Proof.
  unfold ChatService.assign_parameter.
  destruct (py_get def "type" (PStr "string")); cbn [res_bind]; [|discriminate].
  assert (H : ChatService.lower_in "query" ["query"; "q"; "search"; "term"] = true)
    by (vm_compute; reflexivity).
  rewrite H. now intros [= <-].
Qed.

Lemma dict_mem_In {V : Type} (k : string) (d : list (string * V)) :
  dict_mem k d = true -> exists v, In (k, v) d /\ dict_get k d = Some v.
Proof.
  unfold dict_mem. induction d as [|[k' v'] d IH]; cbn; [discriminate|].
  unfold str_eqb. destruct (bool_decide_reflect (k = k')) as [->|E].
  - intros _. exists v'. split; [now left|reflexivity].
  - intros H. destruct (IH H) as (v & Hin & Hg). exists v. split; [now right|exact Hg].
Qed.

(** A declared [query] property is always filled by the loop. *)
Lemma query_always_assigned (message : string) (conv : option ChatService.conversation)
    (items : pydict) :
  forall ps out,
    ChatService.assign_parameters message conv items ps = Ok out ->
    dict_mem "query" items = true \/ dict_mem "query" ps = true ->
    dict_mem "query" out = true.
Proof.
  induction items as [|[k d] items IH]; intros ps out; cbn.
  - intros [= <-] [H|H]; [discriminate|exact H].
  - destruct (ChatService.assign_parameter message conv ps k d) as [ps1|] eqn:E;
      cbn [res_bind]; [|discriminate].
    intros Hrest Hq. apply (IH ps1 out Hrest).
    unfold dict_mem in Hq at 1. cbn in Hq. unfold str_eqb in Hq.
    destruct (bool_decide_reflect ("query" = k)) as [<-|Hk].
    + right. apply query_rule in E as ->. unfold dict_mem. now rewrite dict_get_set_eq.
    + destruct Hq as [Hq|Hq]; [now left|]. right.
      destruct (assign_parameter_shape _ _ _ _ _ _ E) as (own & _ & [[_ ->]|(v & _ & ->)]);
        [exact Hq|].
      unfold dict_mem in *. now rewrite dict_get_set_ne.
Qed.

Lemma generate_result (message : string) (tool : pydict)
    (conv : option ChatService.conversation) (items out : pydict) :
  properties_of tool = Ok items ->
  ChatService._generate_tool_parameters message tool conv = Ok out ->
  exists ps,
    ChatService.assign_parameters message conv items [] = Ok ps
    /\ out = match ps, items with
             | [], [(param_name, _)] => [(param_name, PStr message)]
             | _, _ => ps
             end
    /\ forall k, In k (map fst out) -> In k (map fst items).
Proof.
  intros Hitems Hgen. rewrite (generate_unfold _ _ _ _ Hitems) in Hgen.
  destruct (ChatService.assign_parameters message conv items []) as [ps|] eqn:E;
    cbn [res_bind] in Hgen; [|discriminate].
  exists ps. split; [reflexivity|].
  destruct (assign_parameters_local _ _ _ _ _ E) as (Hkeys & _ & _).
  destruct ps as [|p ps].
  - destruct (dict_mem "query" items) eqn:Hq.
    + pose proof (query_always_assigned _ _ _ _ _ E (or_introl Hq)) as H. discriminate.
    + destruct items as [|[k d] [|? ?]]; injection Hgen as <-;
        (split; [reflexivity|]); cbn; intros x Hx; try contradiction.
      destruct Hx as [<-|[]]. now left.
  - injection Hgen as <-. split; [now destruct items as [|[? ?] [|? ?]]|].
    intros k Hk. destruct (Hkeys k Hk) as [[]|H]; exact H.
Qed.

(** X26: what [_generate_tool_parameters] returns is what
    its loop over the declared properties produced, except when the loop
    produced nothing: then a schema with exactly one property gets the
    whole message for that property, of whatever type, and any other
    schema gets no parameters.  The fallback on a property named [query]
    never decides: such a property is always filled by the loop.  Every
    generated parameter is a declared property. *)
Theorem generate_tool_parameters_fallback (message : string) (tool : pydict)
    (conv : option ChatService.conversation) (items out : pydict) :
  properties_of tool = Ok items ->
  ChatService._generate_tool_parameters message tool conv = Ok out ->
  exists ps,
    ChatService.assign_parameters message conv items [] = Ok ps
    /\ out = match ps, items with
             | [], [(param_name, _)] => [(param_name, PStr message)]
             | _, _ => ps
             end
    /\ forall k, In k (map fst out) -> In k (map fst items).
Proof. apply generate_result. Qed.

Lemma generate_tool_parameters_fallback_witness :
  exists ps,
    ChatService.assign_parameters "What is the forecast?" None
      [("days", PDict [("type", PStr "integer")])] [] = Ok ps
    /\ [("days", PStr "What is the forecast?")]
       = match ps, [("days", PDict [("type", PStr "integer")])] with
         | [], [(param_name, _)] => [(param_name, PStr "What is the forecast?")]
         | _, _ => ps
         end
    /\ forall k, In k (map fst [("days", PStr "What is the forecast?")]) ->
                 In k (map fst [("days", PDict [("type", PStr "integer")])]).
Proof.
  apply (generate_tool_parameters_fallback "What is the forecast?" days_tool None).
  - reflexivity.
  - vm_compute. reflexivity.
Defined.

Lemma generated_value (message : string) (tool : pydict)
    (conv : option ChatService.conversation) (items out : pydict) (n : string)
    (def : pyval) (own : pydict) :
  properties_of tool = Ok items ->
  NoDup (map fst items) ->
  In (n, def) items ->
  ChatService._generate_tool_parameters message tool conv = Ok out ->
  ChatService.assign_parameter message conv [] n def = Ok own ->
  (own <> [] \/ length items <> 1%nat) ->
  dict_get n out = dict_get n own.
Proof.
  intros Hitems Hnd Hin Hgen Hown Hcase.
  destruct (generate_result _ _ _ _ _ Hitems Hgen) as (ps & Hps & -> & _).
  destruct (assign_parameters_local _ _ _ _ _ Hps) as (_ & _ & Hloc).
  destruct (Hloc Hnd n def Hin) as (own' & Hown' & Hget).
  rewrite Hown in Hown'. injection Hown' as <-.
  assert (Hn : dict_get n ps = dict_get n own) by (rewrite Hget; now destruct (dict_get n own)).
  destruct ps as [|p ps]; [|exact Hn].
  destruct items as [|[k d] [|? ?]]; try exact Hn.
  destruct Hcase as [Hne|Hlen]; [|cbn in Hlen; congruence].
  destruct (assign_parameter_shape _ _ _ _ _ _ Hown) as (o & Ho & [[-> _]|(v & -> & _)]);
    rewrite Hown in Ho; injection Ho as ->; [congruence|].
  cbn in Hn. unfold str_eqb in Hn. rewrite bool_decide_eq_true_2 in Hn by reflexivity.
  discriminate.
Qed.

(** X27: a declared property named [limit], [count] or
    [max] (in any capitalisation) of type integer or number is given the
    value 5, whatever the message says. *)
Theorem generated_limit_is_five (message : string) (tool : pydict)
    (conv : option ChatService.conversation) (items out : pydict) (n : string)
    (def ty : pyval) :
  properties_of tool = Ok items ->
  NoDup (map fst items) ->
  In (n, def) items ->
  ChatService.lower_in n ["limit"; "count"; "max"] = true ->
  py_get def "type" (PStr "string") = Ok ty ->
  ChatService.type_in ty ["integer"; "number"] = true ->
  ChatService._generate_tool_parameters message tool conv = Ok out ->
  dict_get n out = Some (PInt 5).
Proof.
  intros Hitems Hnd Hin Hn Hty Htin Hgen.
  assert (H1 : ChatService.lower_in n ["query"; "q"; "search"; "term"] = false)
    by (clear - Hn; other_list Hn).
  assert (H2 : ChatService.lower_in n ["text"; "content"; "input"] = false)
    by (clear - Hn; other_list Hn).
  assert (H3 : ChatService.lower_in n ["location"; "city"] = false)
    by (clear - Hn; other_list Hn).
  rewrite (generated_value message tool conv items out n def [(n, PInt 5)]
             Hitems Hnd Hin Hgen).
  - cbn. unfold str_eqb. now rewrite bool_decide_eq_true_2.
  - unfold ChatService.assign_parameter. rewrite Hty. cbn [res_bind]. cbv zeta.
    rewrite H1, H2, H3, Hn, Htin. reflexivity.
  - left. discriminate.
Qed.

Lemma generated_limit_is_five_witness :
  dict_get "limit"
    match ChatService._generate_tool_parameters "Forecast for the next 3 days in Boston"
            forecast_tool None with
    | Ok out => out | Raise _ => [] end
  = Some (PInt 5).
Proof.
  apply (generated_limit_is_five "Forecast for the next 3 days in Boston" forecast_tool None
           [("location", PDict [("type", PStr "string")]);
            ("days", PDict [("type", PStr "integer")]);
            ("limit", PDict [("type", PStr "number")]);
            ("format", PDict [("type", PStr "string");
                              ("enum", PList [PStr "json"; PStr "text"])])]
           _ "limit" (PDict [("type", PStr "number")]) (PStr "number")).
  - reflexivity.
  - cbn. repeat constructor; rewrite ?elem_of_cons, ?elem_of_nil; intros H;
      repeat destruct H as [H|H]; try discriminate; assumption.
  - cbn. tauto.
  - vm_compute. reflexivity.
  - vm_compute. reflexivity.
  - vm_compute. reflexivity.
  - vm_compute. reflexivity.
Defined.

(** X28: a declared property named [format] or [type] whose
    declaration lists an [enum] with at least one value is given the
    first value of the list. *)
Theorem generated_enum_is_first_value (message : string) (tool : pydict)
    (conv : option ChatService.conversation) (items out : pydict) (n : string)
    (def : pydict) (v : pyval) (more : list pyval) :
  properties_of tool = Ok items ->
  NoDup (map fst items) ->
  In (n, PDict def) items ->
  ChatService.lower_in n ["format"; "type"] = true ->
  dict_get "enum" def = Some (PList (v :: more)) ->
  ChatService._generate_tool_parameters message tool conv = Ok out ->
  dict_get n out = Some v.
Proof.
  intros Hitems Hnd Hin Hn Henum Hgen.
  assert (H1 : ChatService.lower_in n ["query"; "q"; "search"; "term"] = false)
    by (clear - Hn; other_list Hn).
  assert (H2 : ChatService.lower_in n ["text"; "content"; "input"] = false)
    by (clear - Hn; other_list Hn).
  assert (H3 : ChatService.lower_in n ["location"; "city"] = false)
    by (clear - Hn; other_list Hn).
  assert (H4 : ChatService.lower_in n ["limit"; "count"; "max"] = false)
    by (clear - Hn; other_list Hn).
  rewrite (generated_value message tool conv items out n (PDict def) [(n, v)]
             Hitems Hnd Hin Hgen).
  - cbn. unfold str_eqb. now rewrite bool_decide_eq_true_2.
  - unfold ChatService.assign_parameter. cbn [py_get res_bind]. cbv zeta.
    rewrite H1, H2, H3, H4, Hn. cbn [andb]. unfold dict_mem. rewrite Henum.
    cbn. reflexivity.
  - left. discriminate.
Qed.

Lemma generated_enum_is_first_value_witness :
  dict_get "format"
    match ChatService._generate_tool_parameters "Forecast for the next 3 days in Boston"
            forecast_tool None with
    | Ok out => out | Raise _ => [] end
  = Some (PStr "json").
Proof.
  apply (generated_enum_is_first_value "Forecast for the next 3 days in Boston"
           forecast_tool None
           [("location", PDict [("type", PStr "string")]);
            ("days", PDict [("type", PStr "integer")]);
            ("limit", PDict [("type", PStr "number")]);
            ("format", PDict [("type", PStr "string");
                              ("enum", PList [PStr "json"; PStr "text"])])]
           _ "format" [("type", PStr "string"); ("enum", PList [PStr "json"; PStr "text"])]
           (PStr "json") [PStr "text"]).
  - reflexivity.
  - cbn. repeat constructor; rewrite ?elem_of_cons, ?elem_of_nil; intros H;
      repeat destruct H as [H|H]; try discriminate; assumption.
  - cbn. tauto.
  - vm_compute. reflexivity.
  - vm_compute. reflexivity.
  - vm_compute. reflexivity.
Defined.

(** X29: in a schema with more than one property, a declared
    property named [days] of type integer or number is given the day
    count extracted from the message when there is one and it is not 0,
    and is left out otherwise. *)
Theorem generated_days_is_extracted_count (message : string) (tool : pydict)
    (conv : option ChatService.conversation) (items out : pydict) (n : string)
    (def ty : pyval) :
  properties_of tool = Ok items ->
  NoDup (map fst items) ->
  (length items <> 1)%nat ->
  In (n, def) items ->
  lower n = "days" ->
  py_get def "type" (PStr "string") = Ok ty ->
  ChatService.type_in ty ["integer"; "number"] = true ->
  ChatService._generate_tool_parameters message tool conv = Ok out ->
  dict_get n out
  = match ChatService._extract_days_from_message message with
    | Some days => if days =? 0 then None else Some (PInt days)
    | None => None
    end.
Proof.
  intros Hitems Hnd Hlen Hin Hn Hty Htin Hgen.
  assert (Hl : forall l, ChatService.lower_in n l = str_in_list "days" l)
    by (intros l; unfold ChatService.lower_in; now rewrite Hn).
  assert (Hown : ChatService.assign_parameter message conv [] n def
                 = Ok match ChatService._extract_days_from_message message with
                      | Some days => if days =? 0 then [] else [(n, PInt days)]
                      | None => []
                      end).
  { unfold ChatService.assign_parameter. rewrite Hty. cbn [res_bind]. cbv zeta.
    rewrite !Hl, Hn, Htin.
    assert (E : str_eqb "days" "days" = true) by (vm_compute; reflexivity).
    assert (E1 : str_in_list "days" ["query"; "q"; "search"; "term"] = false)
      by (vm_compute; reflexivity).
    assert (E2 : str_in_list "days" ["text"; "content"; "input"] = false)
      by (vm_compute; reflexivity).
    assert (E3 : str_in_list "days" ["location"; "city"] = false)
      by (vm_compute; reflexivity).
    assert (E4 : str_in_list "days" ["limit"; "count"; "max"] = false)
      by (vm_compute; reflexivity).
    assert (E5 : str_in_list "days" ["format"; "type"] = false)
      by (vm_compute; reflexivity).
    rewrite E, E1, E2, E3, E4, E5. cbn [andb].
    destruct (ChatService._extract_days_from_message message) as [days|]; [|reflexivity].
    destruct (days =? 0); reflexivity. }
  rewrite (generated_value message tool conv items out n def _
             Hitems Hnd Hin Hgen Hown (or_intror Hlen)).
  destruct (ChatService._extract_days_from_message message) as [days|]; [|reflexivity].
  destruct (days =? 0); [reflexivity|].
  cbn. unfold str_eqb. now rewrite bool_decide_eq_true_2.
Qed.

Lemma generated_days_is_extracted_count_witness :
  dict_get "days"
    match ChatService._generate_tool_parameters "Forecast for the next 3 days in Boston"
            forecast_tool None with
    | Ok out => out | Raise _ => [] end
  = match ChatService._extract_days_from_message "Forecast for the next 3 days in Boston" with
    | Some days => if days =? 0 then None else Some (PInt days)
    | None => None
    end.
Proof.
  apply (generated_days_is_extracted_count "Forecast for the next 3 days in Boston"
           forecast_tool None
           [("location", PDict [("type", PStr "string")]);
            ("days", PDict [("type", PStr "integer")]);
            ("limit", PDict [("type", PStr "number")]);
            ("format", PDict [("type", PStr "string");
                              ("enum", PList [PStr "json"; PStr "text"])])]
           _ "days" (PDict [("type", PStr "integer")]) (PStr "integer")).
  - reflexivity.
  - cbn. repeat constructor; rewrite ?elem_of_cons, ?elem_of_nil; intros H;
      repeat destruct H as [H|H]; try discriminate; assumption.
  - cbn. lia.
  - cbn. tauto.
  - reflexivity.
  - reflexivity.
  - vm_compute. reflexivity.
  - vm_compute. reflexivity.
Defined.

(** ** Chat service: tool results in the reply *)

Lemma useful_is_used (results : list MCPToolCall.t) (r : MCPToolCall.t) :
  In r (List.filter ChatService.useful results) ->
  In (MCPToolCall.tool_name r) (ChatService.mcp_tools_used results).
Proof.
  intros [Hin Hu]%filter_In. unfold ChatService.useful in Hu.
  apply andb_true_iff in Hu as [Hs _].
  unfold ChatService.mcp_tools_used. apply in_map. apply list_elem_of_In.
  apply list_elem_of_filter. split; [exact Hs|]. now apply list_elem_of_In.
Qed.

(** X30: [_integrate_mcp_results] never drops or rewrites the
    model's answer: the reply it returns starts with the answer.  The
    answer is returned as it is when no tool call succeeded with a truthy
    result, and when the answer is neither short nor hedging.  Every tool
    whose result can be quoted in the reply is reported in
    [mcp_tools_used]. *)
Theorem integrate_keeps_response (ai_response : string) (results : list MCPToolCall.t) :
  (exists suffix,
     ChatService._integrate_mcp_results ai_response results = ai_response +:+ suffix)
  /\ (List.filter ChatService.useful results = [] \/ confident ai_response = true ->
      ChatService._integrate_mcp_results ai_response results = ai_response)
  /\ Forall (fun r => In (MCPToolCall.tool_name r) (ChatService.mcp_tools_used results))
       (List.filter ChatService.useful results).
Proof.
  split; [|split].
  - unfold ChatService._integrate_mcp_results.
    destruct results as [|r0 results]; [exists ""; now rewrite append_nil_r|].
    destruct (_ || _); [|exists ""; now rewrite append_nil_r].
    destruct (List.filter ChatService.useful (r0 :: results));
      [exists ""; now rewrite append_nil_r|].
    eexists. reflexivity.
  - unfold ChatService._integrate_mcp_results, confident.
    destruct results as [|r0 results]; [reflexivity|].
    intros [->|Hc].
    + now destruct (_ || _).
    + apply andb_true_iff in Hc as [H1 H2].
      apply negb_true_iff in H1, H2. now rewrite H1, H2.
  - apply List.Forall_forall. intros r. apply useful_is_used.
Qed.

Lemma integrate_keeps_response_witness :
  ChatService._integrate_mcp_results
    "The forecast for Boston is sunny with a light breeze from the west all day."
    demo_results
  = "The forecast for Boston is sunny with a light breeze from the west all day.".
Proof.
  apply (proj1 (proj2 (integrate_keeps_response
    "The forecast for Boston is sunny with a light breeze from the west all day."
    demo_results))).
  right. vm_compute. reflexivity.
Defined.
